(** * TelegramTestBot: the recommendation bot's session state machine

    A shallow embedding of [src/bot.py] and [src/db_setup.py]:
    the message stack, the catalog queries, the callback dispatcher
    [button], the paginated result screen and the data-entry steps,
    followed by the properties of the specification that concern them.

    Conventions of the embedding.
    - Text is a [string] of bytes (UTF-8); splitting on [":"] or [","] and
      replacing [","] by ["."] act on ASCII bytes and are therefore the same
      on bytes as on code points.  Whitespace is the ASCII part of what
      [str.strip], [int] and [float] regard as whitespace, and digits are
      the ASCII digits.
    - [context.user_data] is a dictionary with a fixed set of keys: a record
      of options, [None] standing for an absent key.  Nested dictionaries
      keyed by category are [gmap]s.
    - [bot.db] is a record of optional tables; a statement that names a
      missing table raises [sqlite3.OperationalError].  Statements run on a
      working copy that replaces the stored database at [conn.commit()];
      a connection dropped without commit leaves the database as it was.
    - Transport calls return; the two calls the code guards with [try]
      ([delete_message], [send_photo]) are covered on both branches.
      Every call is appended to the [trace] of the world. *)

From Stdlib Require Import ZArith Lia Bool Ascii String DecimalString DecimalZ Sorted.
From stdpp Require Import base option list gmap sets strings.

Open Scope string_scope.
Open Scope Z_scope.
Open Scope list_scope.

(** ** Python built-ins used by the bot *)

Module Py.

(** Exceptions the handlers can raise. *)
Inductive exn :=
| KeyError (key : string)
| IndexError
| ValueError
| TypeError
| OperationalError.

(** ASCII whitespace, as [str.isspace] sees it: TAB..CR, FS..US, SPACE. *)
Definition is_space (c : ascii) : bool :=
  let n := nat_of_ascii c in
  ((9 <=? n)%nat && (n <=? 13)%nat) || ((28 <=? n)%nat && (n <=? 32)%nat).

Fixpoint lstrip (s : string) : string :=
  match s with
  | String c s' => if is_space c then lstrip s' else s
  | EmptyString => EmptyString
  end.

Fixpoint rstrip (s : string) : string :=
  match s with
  | EmptyString => EmptyString
  | String c s' =>
      match rstrip s' with
      | EmptyString => if is_space c then EmptyString else String c EmptyString
      | r => String c r
      end
  end.

(** [s.strip()] *)
Definition strip (s : string) : string := rstrip (lstrip s).

(** [s.split(sep)] for a one-character separator: never the empty list. *)
Fixpoint split (sep : ascii) (s : string) : list string :=
  match s with
  | EmptyString => [EmptyString]
  | String c s' =>
      if Ascii.eqb c sep then EmptyString :: split sep s'
      else match split sep s' with
           | w :: ws => String c w :: ws
           | [] => [String c EmptyString]
           end
  end.

(** [s.replace(old, new)] for one-character [old] and [new]. *)
Fixpoint replace (old new : ascii) (s : string) : string :=
  match s with
  | EmptyString => EmptyString
  | String c s' => String (if Ascii.eqb c old then new else c) (replace old new s')
  end.

Definition digit_val (c : ascii) : option Z :=
  let n := nat_of_ascii c in
  if (48 <=? n)%nat && (n <=? 57)%nat then Some (Z.of_nat (n - 48)) else None.

(** [digitpart ::= digit (["_"] digit)*], to the end of the text.
    [prev] tells whether the previous character was a digit. *)
Fixpoint int_digits (acc : Z) (prev : bool) (s : string) : option Z :=
  match s with
  | EmptyString => if prev then Some acc else None
  | String c s' =>
      match digit_val c with
      | Some d => int_digits (10 * acc + d) true s'
      | None => if Ascii.eqb c "_" && prev then int_digits acc false s' else None
      end
  end.

(** [int(s)]: [None] is [ValueError]. *)
Definition int (s : string) : option Z :=
  match strip s with
  | String "+" r => int_digits 0 false r
  | String "-" r => Z.opp <$> int_digits 0 false r
  | t => int_digits 0 false t
  end.

(** The value of a float literal, before rounding to binary64:
    a signed decimal [mantissa * 10 ^ exp10], an infinity or a NaN. *)
Inductive float_value :=
| FDecimal (negative : bool) (mantissa : Z) (exp10 : Z)
| FInfinity (negative : bool)
| FNan (negative : bool).

(** Longest [digit (["_"] digit)*] prefix, entered after a first digit:
    value, number of digits, remaining text. *)
Fixpoint digitpart_more (acc : Z) (n : Z) (s : string) : Z * Z * string :=
  match s with
  | EmptyString => (acc, n, EmptyString)
  | String c s' =>
      match digit_val c with
      | Some d => digitpart_more (10 * acc + d) (n + 1) s'
      | None =>
          if Ascii.eqb c "_" then
            match s' with
            | String c2 s'' =>
                match digit_val c2 with
                | Some d => digitpart_more (10 * acc + d) (n + 1) s''
                | None => (acc, n, s)
                end
            | EmptyString => (acc, n, s)
            end
          else (acc, n, s)
      end
  end.

(** An optional digit part: [None] when the text does not start with a
    digit. *)
Definition digitpart (s : string) : option (Z * Z * string) :=
  match s with
  | String c s' =>
      match digit_val c with
      | Some d => Some (digitpart_more d 1 s')
      | None => None
      end
  | EmptyString => None
  end.

(** [exponent ::= ("e" | "E") ["+" | "-"] digitpart], to the end of the
    text; the empty text is exponent 0. *)
Definition exponent (s : string) : option Z :=
  match s with
  | EmptyString => Some 0
  | String c s' =>
      if Ascii.eqb c "e" || Ascii.eqb c "E" then
        let '(neg, r) :=
          match s' with
          | String "+" r => (false, r)
          | String "-" r => (true, r)
          | r => (false, r)
          end in
        match digitpart r with
        | Some (e, _, EmptyString) => Some (if neg then - e else e)
        | _ => None
        end
      else None
  end.

(** [number [exponent]] with
    [number ::= [digitpart] "." digitpart | digitpart ["."]]. *)
Definition floatnumber (s : string) : option (Z * Z) :=
  match digitpart s with
  | Some (i, _, String "." r) =>
      match digitpart r with
      | Some (f, n, r') => e ← exponent r'; Some (i * 10 ^ n + f, e - n)
      | None => e ← exponent r; Some (i, e)
      end
  | Some (i, _, r) => e ← exponent r; Some (i, e)
  | None =>
      match s with
      | String "." r =>
          match digitpart r with
          | Some (f, n, r') => e ← exponent r'; Some (f, e - n)
          | None => None
          end
      | _ => None
      end
  end.

Definition lower_ascii (c : ascii) : ascii :=
  let n := nat_of_ascii c in
  if (65 <=? n)%nat && (n <=? 90)%nat then ascii_of_nat (n + 32) else c.

Fixpoint lower (s : string) : string :=
  match s with
  | EmptyString => EmptyString
  | String c s' => String (lower_ascii c) (lower s')
  end.

Definition absfloatvalue (neg : bool) (s : string) : option float_value :=
  let l := lower s in
  if String.eqb l "inf" || String.eqb l "infinity" then Some (FInfinity neg)
  else if String.eqb l "nan" then Some (FNan neg)
  else '(m, e) ← floatnumber s; Some (FDecimal neg m e).

(** [float(s)]: [None] is [ValueError]. *)
Definition float (s : string) : option float_value :=
  match strip s with
  | String "+" r => absfloatvalue false r
  | String "-" r => absfloatvalue true r
  | t => absfloatvalue false t
  end.

Definition clamp_index (len i : Z) : Z :=
  if i <? 0 then Z.max 0 (i + len) else Z.min i len.

(** [l[start:stop]] with Python's treatment of negative and oversized
    indices. *)
Definition slice {A} (l : list A) (start stop : Z) : list A :=
  let n := Z.of_nat (length l) in
  let a := clamp_index n start in
  let b := clamp_index n stop in
  take (Z.to_nat (b - a)) (drop (Z.to_nat a) l).

(** [l.pop()]: the list without its last item, and that item. *)
Fixpoint pop {A} (l : list A) : option (list A * A) :=
  match l with
  | [] => None
  | x :: l' =>
      match pop l' with
      | Some (r, y) => Some (x :: r, y)
      | None => Some ([], x)
      end
  end.

(** [l.remove(x)]: drop the first occurrence. *)
Fixpoint remove (x : string) (l : list string) : list string :=
  match l with
  | [] => []
  | y :: l' => if String.eqb y x then l' else y :: remove x l'
  end.

(** [x in l] *)
Definition contains (x : string) (l : list string) : bool :=
  existsb (String.eqb x) l.

(** [str(n)], as an f-string formats an integer: decimal digits, a minus
    sign for a negative number. *)
Definition str (n : Z) : string := NilZero.string_of_int (Z.to_int n).

End Py.

(** ** The catalog store: [bot.db] with the schema of [db_setup.py] *)

Module Store.

Inductive sql_value :=
| SqlNull
| SqlInt (z : Z)
| SqlReal (x : Py.float_value)
| SqlText (s : string).

(** A row of [objects]; [row_id] is the [id INTEGER PRIMARY KEY] column. *)
Record object_row := {
  row_id : Z;
  obj_id : sql_value;
  obj_type : sql_value;
  obj_name : sql_value;
  obj_year : sql_value;
  obj_description : sql_value;
  obj_url : sql_value;
  obj_image : sql_value;
  admin_rating : sql_value;
  site_rating : sql_value
}.

(** A row of [genres]. *)
Record genre_row := { genre_id : Z; name : string }.

(** The four tables, each absent until created.  [object_genres] holds
    [(object_id, genre_id)] rows; [user_views], whose primary key is the
    whole row, is the set of its [(user_id, object_id)] pairs.
    [read_only] says that the file cannot be written: every statement
    that writes then raises [sqlite3.OperationalError]. *)
Record database := {
  objects : option (list object_row);
  genres : option (list genre_row);
  object_genres : option (list (Z * Z));
  user_views : option (gset (Z * Z));
  read_only : bool
}.

(** The database file before any table is created. *)
Definition no_tables : database :=
  {| objects := None; genres := None; object_genres := None; user_views := None;
     read_only := false |}.

(** A statement that writes needs a writable file. *)
Definition writable (d : database) : option unit :=
  if read_only d then None else Some ().

Definition has_schema (d : database) : bool :=
  bool_decide (is_Some (objects d)) && bool_decide (is_Some (genres d))
  && bool_decide (is_Some (object_genres d)) && bool_decide (is_Some (user_views d)).

(** [setup_database()]: four [CREATE TABLE IF NOT EXISTS], which write
    only for a table that is missing. *)
Definition setup_database (d : database) : option database :=
  if has_schema d then Some d
  else
    _ ← writable d;
    Some {| objects := Some (default [] (objects d));
            genres := Some (default [] (genres d));
            object_genres := Some (default [] (object_genres d));
            user_views := Some (default ∅ (user_views d));
            read_only := read_only d |}.

(** [category_map.get(category)] *)
Definition category_map (category : string) : option string :=
  if String.eqb category "films" then Some "фильм"
  else if String.eqb category "series" then Some "сериал"
  else if String.eqb category "books" then Some "книга"
  else None.

(** [obj_type = ?]: a comparison with NULL on either side is not true. *)
Definition type_is (param : option string) (r : object_row) : bool :=
  match obj_type r, param with
  | SqlText t, Some p => String.eqb t p
  | _, _ => false
  end.

(** [(SELECT id FROM genres WHERE name = ?)]: the first such row, NULL
    when there is none. *)
Definition genre_id_by_name (gs : list genre_row) (n : string) : option Z :=
  genre_id <$> List.find (λ g, String.eqb (name g) n) gs.

(** [id IN (SELECT object_id FROM object_genres WHERE genre_id =
    (SELECT id FROM genres WHERE name = ?))] *)
Definition in_genre (gs : list genre_row) (ogs : list (Z * Z)) (n : string) (oid : Z) : bool :=
  match genre_id_by_name gs n with
  | Some gid => existsb (λ og, (og.1 =? oid) && (og.2 =? gid)) ogs
  | None => false
  end.

(** [id IN (SELECT object_id FROM object_genres og JOIN genres g
    ON og.genre_id = g.id WHERE g.name = ?)] *)
Definition in_genre_join (gs : list genre_row) (ogs : list (Z * Z)) (n : string) (oid : Z) : bool :=
  existsb (λ og, (og.1 =? oid)
                 && existsb (λ g, (og.2 =? genre_id g) && String.eqb (name g) n) gs) ogs.

(** The conjuncts appended for [selected_genres]; the two tables are named
    by the statement only when the list is not empty. *)
Definition genre_clauses (member : list genre_row → list (Z * Z) → string → Z → bool)
    (d : database) (selected_genres : list string) : option (Z → bool) :=
  match selected_genres with
  | [] => Some (λ _, true)
  | _ => gs ← genres d; ogs ← object_genres d;
         Some (λ oid, forallb (λ g, member gs ogs g oid) selected_genres)
  end.

(** [AND id IN (SELECT object_id FROM user_views WHERE user_id = ?)],
    appended when [viewed_filter] is set. *)
Definition viewed_clause (d : database) (viewed_filter : bool) (user_id : Z) : option (Z → bool) :=
  if viewed_filter then vs ← user_views d; Some (λ oid, bool_decide ((user_id, oid) ∈ vs))
  else Some (λ _, true).

(** The rows selected by
    [... FROM objects WHERE obj_type = ? AND ... AND ...];
    [None] is [sqlite3.OperationalError]. *)
Definition filtered_rows (member : list genre_row → list (Z * Z) → string → Z → bool)
    (d : database) (obj_type : option string)
    (selected_genres : list string) (viewed_filter : bool) (user_id : Z)
  : option (list object_row) :=
  objs ← objects d;
  has_genres ← genre_clauses member d selected_genres;
  is_viewed ← viewed_clause d viewed_filter user_id;
  Some (List.filter (λ r, type_is obj_type r && has_genres (row_id r) && is_viewed (row_id r)) objs).

(** [count_filtered_objects]: [SELECT COUNT(id) ...] inside [try]. *)
Definition count_filtered_objects (d : database) (category : string)
    (selected_genres : list string) (viewed_filter : bool) (user_id : Z) : Z :=
  match filtered_rows in_genre d (category_map category) selected_genres viewed_filter user_id with
  | Some rows => Z.of_nat (length rows)
  | None => 0
  end.

(** The [SELECT * FROM objects WHERE ...] of the [select] action, which
    runs outside any [try]. *)
Definition select_filtered (d : database) (category : string)
    (selected_genres : list string) (viewed_filter : bool) (user_id : Z)
  : option (list object_row) :=
  filtered_rows in_genre d (category_map category) selected_genres viewed_filter user_id.

Fixpoint insert_sorted (x : string) (l : list string) : list string :=
  match l with
  | [] => [x]
  | y :: l' =>
      match String.compare x y with
      | Lt => x :: l
      | Eq => l
      | Gt => y :: insert_sorted x l'
      end
  end.

(** [SELECT DISTINCT ... ORDER BY g.name] over a list of names. *)
Definition distinct_ordered (l : list string) : list string :=
  foldr insert_sorted [] l.

(** [genres g JOIN object_genres og ON g.id = og.genre_id], keeping the
    rows whose object passes [keep]: the genre names. *)
Definition joined_names (gs : list genre_row) (ogs : list (Z * Z)) (keep : Z → bool) : list string :=
  og ← List.filter (λ og, keep og.1) ogs;
  name <$> List.filter (λ g, genre_id g =? og.2) gs.

(** [get_available_genres] *)
Definition get_available_genres (d : database) (category : string)
    (selected_genres : list string) (viewed_filter : bool) (user_id : Z) : list string :=
  match
    gs ← genres d; ogs ← object_genres d;
    rows ← filtered_rows in_genre_join d (category_map category) selected_genres viewed_filter user_id;
    Some (distinct_ordered
            (joined_names gs ogs (λ oid, existsb (λ r, row_id r =? oid) rows)))
  with
  | Some names => names
  | None => []
  end.

(** [get_category_genres]: the parameter is compared with [obj_type] as
    it is, without [category_map]. *)
Definition get_category_genres (d : database) (category : string) : list string :=
  match
    gs ← genres d; ogs ← object_genres d; objs ← objects d;
    Some (distinct_ordered
            (joined_names gs ogs
               (λ oid, existsb (λ r, (row_id r =? oid) && type_is (Some category) r) objs)))
  with
  | Some names => names
  | None => []
  end.

(** [SELECT g.name FROM genres g JOIN object_genres og ON ...
    WHERE og.object_id = ?]; SQL leaves the order of the rows open, the
    names are listed link by link. *)
Definition genres_of_object (d : database) (oid : Z) : option (list string) :=
  gs ← genres d; ogs ← object_genres d;
  Some (joined_names gs ogs (λ o, o =? oid)).

(** [SELECT 1 FROM user_views WHERE user_id = ? AND object_id = ?] *)
Definition is_viewed (d : database) (user_id oid : Z) : option bool :=
  vs ← user_views d; Some (bool_decide ((user_id, oid) ∈ vs)).

(** [INSERT OR IGNORE INTO user_views (user_id, object_id) VALUES (?, ?)] *)
Definition record_view (user_id oid : Z) (d : database) : option database :=
  vs ← user_views d;
  _ ← writable d;
  Some {| objects := objects d; genres := genres d; object_genres := object_genres d;
          user_views := Some ({[ (user_id, oid) ]} ∪ vs); read_only := read_only d |}.

(** [DELETE FROM user_views WHERE user_id = ? AND object_id = ?] *)
Definition clear_view (user_id oid : Z) (d : database) : option database :=
  vs ← user_views d;
  _ ← writable d;
  Some {| objects := objects d; genres := genres d; object_genres := object_genres d;
          user_views := Some (vs ∖ {[ (user_id, oid) ]}); read_only := read_only d |}.

(** The three [DELETE] statements of the [delete] action, in order. *)
Definition delete_object (oid : Z) (d : database) : option database :=
  objs ← objects d;
  _ ← writable d;
  ogs ← object_genres d;
  vs ← user_views d;
  Some {| objects := Some (List.filter (λ r, negb (row_id r =? oid)) objs);
          genres := genres d;
          object_genres := Some (List.filter (λ og, negb (og.1 =? oid)) ogs);
          user_views := Some (filter (λ v, v.2 ≠ oid) vs);
          read_only := read_only d |}.

(** The rowid given to a new row: one more than the largest in use, 1 in
    an empty table. *)
Definition next_rowid (ids : list Z) : Z :=
  match ids with
  | [] => 1
  | i :: rest => foldr Z.max i rest + 1
  end.

(** [INSERT INTO objects (obj_type, ..., site_rating) VALUES (...)];
    returns [c.lastrowid] as well. *)
Definition insert_object (ty nm yr ds ur im ar sr : sql_value) (d : database)
  : option (Z * database) :=
  objs ← objects d;
  _ ← writable d;
  let i := next_rowid (row_id <$> objs) in
  let r := {| row_id := i; obj_id := SqlNull; obj_type := ty; obj_name := nm;
              obj_year := yr; obj_description := ds; obj_url := ur; obj_image := im;
              admin_rating := ar; site_rating := sr |} in
  Some (i, {| objects := Some (objs ++ [r])%list; genres := genres d;
              object_genres := object_genres d; user_views := user_views d;
              read_only := read_only d |}).

(** [INSERT OR IGNORE INTO genres (name) VALUES (?)] under [name UNIQUE]. *)
Definition ensure_genre (n : string) (d : database) : option database :=
  gs ← genres d;
  _ ← writable d;
  Some {| objects := objects d;
          genres := Some (match genre_id_by_name gs n with
                          | Some _ => gs
                          | None => (gs ++ [{| genre_id := next_rowid (genre_id <$> gs); name := n |}])%list
                          end);
          object_genres := object_genres d; user_views := user_views d;
          read_only := read_only d |}.

(** [INSERT INTO object_genres (object_id, genre_id) VALUES (?, ?)] *)
Definition link_genre (oid gid : Z) (d : database) : option database :=
  ogs ← object_genres d;
  _ ← writable d;
  Some {| objects := objects d; genres := genres d;
          object_genres := Some (ogs ++ [(oid, gid)])%list; user_views := user_views d;
          read_only := read_only d |}.

End Store.

(** ** The bot: session state, transport trace and handlers *)

Module Bot.

Definition PAGE_SIZE : Z := 5.

(** Conversation states; [END] is [ConversationHandler.END]. *)
Inductive state :=
| TYPE | NAME | YEAR | DESCRIPTION | URL | IMAGE
| ADMIN_RATING | SITE_RATING | GENRES | EDIT_CHOICE | EDIT_FIELD | END.

(** [context.user_data['new_object']], key by key. *)
Record draft := {
  new_type : option string;
  new_name : option string;
  new_year : option Z;
  new_description : option string;
  new_url : option string;
  new_image : option string;
  new_admin_rating : option Py.float_value;
  new_site_rating : option Py.float_value;
  new_genres : option (list string)
}.

(** An item of [results_cache]: [dict(row)], to which the renderer adds
    the key ['obj_genres']. *)
Record cached_object := {
  row : Store.object_row;
  obj_genres : option (list string)
}.

(** [context.user_data]. [message_stack] is a Python list: its last item
    is the top level. *)
Record session := {
  message_stack : option (list (list Z));
  current_category : option string;
  selected_genres : option (gmap string (list string));
  viewed_filter : option (gmap string bool);
  results_cache : option (list cached_object);
  results_page : option Z;
  new_object : option draft;
  edit_object_id : option Z;
  edit_category : option string;
  edit_field : option string
}.

(** [user_data] after [clear()]. *)
Definition cleared : session :=
  {| message_stack := None; current_category := None; selected_genres := None;
     viewed_filter := None; results_cache := None; results_page := None;
     new_object := None; edit_object_id := None; edit_category := None;
     edit_field := None |}.

Definition set_message_stack (v : option (list (list Z))) (s : session) : session :=
  {| message_stack := v; current_category := current_category s;
     selected_genres := selected_genres s; viewed_filter := viewed_filter s;
     results_cache := results_cache s; results_page := results_page s;
     new_object := new_object s; edit_object_id := edit_object_id s;
     edit_category := edit_category s; edit_field := edit_field s |}.

Definition set_current_category (v : option string) (s : session) : session :=
  {| message_stack := message_stack s; current_category := v;
     selected_genres := selected_genres s; viewed_filter := viewed_filter s;
     results_cache := results_cache s; results_page := results_page s;
     new_object := new_object s; edit_object_id := edit_object_id s;
     edit_category := edit_category s; edit_field := edit_field s |}.

Definition set_selected_genres (v : option (gmap string (list string))) (s : session) : session :=
  {| message_stack := message_stack s; current_category := current_category s;
     selected_genres := v; viewed_filter := viewed_filter s;
     results_cache := results_cache s; results_page := results_page s;
     new_object := new_object s; edit_object_id := edit_object_id s;
     edit_category := edit_category s; edit_field := edit_field s |}.

Definition set_viewed_filter (v : option (gmap string bool)) (s : session) : session :=
  {| message_stack := message_stack s; current_category := current_category s;
     selected_genres := selected_genres s; viewed_filter := v;
     results_cache := results_cache s; results_page := results_page s;
     new_object := new_object s; edit_object_id := edit_object_id s;
     edit_category := edit_category s; edit_field := edit_field s |}.

Definition set_results_cache (v : option (list cached_object)) (s : session) : session :=
  {| message_stack := message_stack s; current_category := current_category s;
     selected_genres := selected_genres s; viewed_filter := viewed_filter s;
     results_cache := v; results_page := results_page s;
     new_object := new_object s; edit_object_id := edit_object_id s;
     edit_category := edit_category s; edit_field := edit_field s |}.

Definition set_results_page (v : option Z) (s : session) : session :=
  {| message_stack := message_stack s; current_category := current_category s;
     selected_genres := selected_genres s; viewed_filter := viewed_filter s;
     results_cache := results_cache s; results_page := v;
     new_object := new_object s; edit_object_id := edit_object_id s;
     edit_category := edit_category s; edit_field := edit_field s |}.

Definition set_new_object (v : option draft) (s : session) : session :=
  {| message_stack := message_stack s; current_category := current_category s;
     selected_genres := selected_genres s; viewed_filter := viewed_filter s;
     results_cache := results_cache s; results_page := results_page s;
     new_object := v; edit_object_id := edit_object_id s;
     edit_category := edit_category s; edit_field := edit_field s |}.

(** Callback payloads carried by the inline buttons the bot renders. *)
Inductive callback :=
| CbCategory (category : string)
| CbAdminPanel
| CbAdminAddObject
| CbAddType (obj_type : string)
| CbGenre (category genre : string)
| CbSelect (category : string)
| CbBackRecommendations
| CbBackGenres (category : string)
| CbPage (category : string) (page : Z)
| CbView (category : string) (oid : Z)
| CbUnview (category : string) (oid : Z)
| CbEdit (category : string) (oid : Z)
| CbDelete (category : string) (oid : Z)
| Link (url : string).

(** [InlineKeyboardMarkup]: rows of buttons, labels left out. *)
Definition keyboard := list (list callback).

(** What a message or a notice says; the wording is in [bot.py]. *)
Inductive text :=
| Greeting
| ChooseCategory
| NothingForFilters
| ApplyFilters (num_objects : Z)
| NothingFound
| PageOf (page total_pages : Z)
| Card (obj : cached_object) (viewed : bool)
| CardWithoutPoster (obj : cached_object) (viewed : bool)
| AdminPanel
| ChooseType
| NoRights
| Deleted
| MarkedViewed
| MarkRemoved
| Ask (next : state)
| AskGenres (known : list string)
| ObjectAdded
| AddFailedAfterSetup
| AddCancelled.

(** Calls made on the transport and on the store, in order. *)
Inductive effect :=
| Answer (notice : option text)
| SendMessage (chat_id message_id : Z) (t : text) (k : option keyboard)
| SendPhoto (chat_id message_id : Z) (photo : Store.sql_value) (caption : text) (k : keyboard)
| EditMessageText (t : text) (k : option keyboard)
| EditMessageCaption (t : text) (k : option keyboard)
| DeleteMessage (chat_id message_id : Z)
| Commit
| SetupDatabase.

(** The process and its surroundings: one user's [user_data], [bot.db],
    the allow-list, what the transport did so far, the id the transport
    gives to the next message, and which posters it accepts. *)
Record world := {
  user_data : session;
  db : Store.database;
  ADMIN_IDS : list Z;
  trace : list effect;
  next_message_id : Z;
  photo_ok : Store.sql_value → bool
}.

Definition with_user_data (f : session → session) (w : world) : world :=
  {| user_data := f (user_data w); db := db w; ADMIN_IDS := ADMIN_IDS w;
     trace := trace w; next_message_id := next_message_id w; photo_ok := photo_ok w |}.

Definition with_db (d : Store.database) (w : world) : world :=
  {| user_data := user_data w; db := d; ADMIN_IDS := ADMIN_IDS w;
     trace := trace w; next_message_id := next_message_id w; photo_ok := photo_ok w |}.

Definition with_effect (e : effect) (w : world) : world :=
  {| user_data := user_data w; db := db w; ADMIN_IDS := ADMIN_IDS w;
     trace := (trace w ++ [e])%list; next_message_id := next_message_id w;
     photo_ok := photo_ok w |}.

Definition with_next_id (w : world) : world :=
  {| user_data := user_data w; db := db w; ADMIN_IDS := ADMIN_IDS w;
     trace := trace w; next_message_id := next_message_id w + 1; photo_ok := photo_ok w |}.

(** *** Handlers as state transformers that may raise *)

Inductive outcome (A : Type) :=
| Returned (a : A)
| Raised (e : Py.exn).
Arguments Returned {A} a.
Arguments Raised {A} e.

Definition handler (A : Type) : Type := world → outcome A * world.

#[global] Instance handler_ret : MRet handler := λ A a w, (Returned a, w).

#[global] Instance handler_bind : MBind handler := λ A B f m w,
  match m w with
  | (Returned a, w') => f a w'
  | (Raised e, w') => (Raised e, w')
  end.

Definition raise {A} (e : Py.exn) : handler A := λ w, (Raised e, w).

Definition get : handler session := λ w, (Returned (user_data w), w).

Definition update (f : session → session) : handler unit :=
  λ w, (Returned (), with_user_data f w).

Definition emit (e : effect) : handler unit := λ w, (Returned (), with_effect e w).

Definition storage : handler Store.database := λ w, (Returned (db w), w).

(** Tables created by [CREATE TABLE] are in the file at once. *)
Definition created (d : Store.database) : handler unit :=
  λ w, (Returned (), with_db d w).

(** The transport's verdict on a poster. *)
Definition poster_accepted (photo : Store.sql_value) : handler bool :=
  λ w, (Returned (photo_ok w photo), w).

(** [conn.commit()] *)
Definition commit (d : Store.database) : handler unit :=
  λ w, (Returned (), with_effect Commit (with_db d w)).

(** The result of [conn.execute]: [None] raises [OperationalError]. *)
Definition executed {A} (r : option A) : handler A :=
  match r with
  | Some a => mret a
  | None => raise Py.OperationalError
  end.

(** [try: body except sqlite3.OperationalError: recover] *)
Definition try_operational {A} (body recover : handler A) : handler A := λ w,
  match body w with
  | (Raised Py.OperationalError, w') => recover w'
  | r => r
  end.

(** [l[i]] *)
Definition item {A} (l : list A) (i : nat) : handler A :=
  match l !! i with
  | Some a => mret a
  | None => raise Py.IndexError
  end.

(** [d[outer][k]] for a nested dictionary *)
Definition subscript {V} (outer : string) (d : option (gmap string V)) (k : string) : handler V :=
  match d with
  | None => raise (Py.KeyError outer)
  | Some m => match m !! k with
              | Some v => mret v
              | None => raise (Py.KeyError k)
              end
  end.

(** [int(s)] *)
Definition to_int (s : string) : handler Z :=
  match Py.int s with
  | Some z => mret z
  | None => raise Py.ValueError
  end.

(** A send: the transport numbers the message. *)
Definition sent (mk : Z → effect) : handler Z := λ w,
  let i := next_message_id w in
  (Returned i, with_next_id (with_effect (mk i) w)).

Definition is_admin (user_id : Z) : handler bool :=
  λ w, (Returned (bool_decide (user_id ∈ ADMIN_IDS w)), w).

(** *** Stack-based message management *)

(** [delete_message] inside [try ... except Exception]: the handler goes
    on in the same way whether or not the transport rejects the call. *)
Definition delete_messages (chat_id : Z) (message_ids : list Z) : handler unit :=
  foldr (λ m k, emit (DeleteMessage chat_id m);; k) (mret ()) message_ids.

Definition pop_and_delete_messages (chat_id : Z) : handler unit :=
  ud ← get;
  match message_stack ud with
  | Some stack =>
      match Py.pop stack with
      | Some (rest, message_ids) =>
          update (set_message_stack (Some rest));;
          delete_messages chat_id message_ids
      | None => mret ()
      end
  | None => mret ()
  end.

Definition push_new_message_level : handler unit :=
  update (λ ud, set_message_stack (Some (default [] (message_stack ud) ++ [[]])%list) ud).

Definition add_message_to_stack (message_id : Z) : handler unit :=
  ud ← get;
  match message_stack ud with
  | Some stack =>
      match Py.pop stack with
      | Some (rest, top) =>
          update (set_message_stack (Some (rest ++ [top ++ [message_id]])%list))
      | None => mret ()
      end
  | None => mret ()
  end.

(** [while context.user_data.get('message_stack'): pop_and_delete...],
    unrolled [fuel] times. *)
Fixpoint drain (fuel : nat) (chat_id : Z) : handler unit :=
  match fuel with
  | O => mret ()
  | S fuel' =>
      ud ← get;
      match message_stack ud with
      | Some (_ :: _) => pop_and_delete_messages chat_id;; drain fuel' chat_id
      | _ => mret ()
      end
  end.

(** The loop, with as many rounds as the stack has levels. *)
Definition drain_all (chat_id : Z) : handler unit :=
  ud ← get; drain (length (default [] (message_stack ud))) chat_id.

(** *** Keyboard generators *)

Definition get_recommendations_keyboard (admin : bool) : keyboard :=
  ([[CbCategory "films"]; [CbCategory "series"]; [CbCategory "books"]]
   ++ (if admin then [[CbAdminPanel]] else []))%list.

Definition get_genres_keyboard (d : Store.database) (category : string)
    (selected_genres : list string) (viewed_filter : bool) (user_id : Z) : keyboard :=
  let available_genres :=
    Store.get_available_genres d category selected_genres viewed_filter user_id in
  ([[CbGenre category "_viewed_"]]
   ++ ((λ genre, [CbGenre category genre]) <$> available_genres)
   ++ [[CbSelect category]; [CbBackRecommendations]])%list.

Definition get_results_keyboard (category : string) (page total_pages : Z) : keyboard :=
  [ ((if 0 <? page then [CbPage category (page - 1)] else [])
     ++ (if page <? total_pages - 1 then [CbPage category (page + 1)] else []))%list;
    [CbBackGenres category] ].

(** [callback_data] of a button, as the f-strings of the keyboard
    generators and of the result cards build it; a link button has none. *)
Definition callback_data (b : callback) : option string :=
  match b with
  | CbCategory category => Some ("category:" +:+ category)
  | CbAdminPanel => Some "admin:panel"
  | CbAdminAddObject => Some "admin:add_object"
  | CbAddType t => Some ("add_type:" +:+ t)
  | CbGenre category genre => Some ("genre:" +:+ category +:+ ":" +:+ genre)
  | CbSelect category => Some ("select:" +:+ category)
  | CbBackRecommendations => Some "back:recommendations"
  | CbBackGenres category => Some ("back:genres:" +:+ category)
  | CbPage category page => Some ("page:" +:+ category +:+ ":" +:+ Py.str page)
  | CbView category oid => Some ("view:" +:+ category +:+ ":" +:+ Py.str oid)
  | CbUnview category oid => Some ("unview:" +:+ category +:+ ":" +:+ Py.str oid)
  | CbEdit category oid => Some ("edit:" +:+ category +:+ ":" +:+ Py.str oid)
  | CbDelete category oid => Some ("delete:" +:+ category +:+ ":" +:+ Py.str oid)
  | Link _ => None
  end.

(** The row of buttons under a result card. *)
Definition card_keyboard (category : string) (obj : cached_object)
    (is_viewed admin : bool) : keyboard :=
  [ ((match Store.obj_url (row obj) with
      | Store.SqlText u =>
          if String.prefix "http://" u || String.prefix "https://" u then [Link u] else []
      | _ => []
      end)
     ++ [if is_viewed then CbUnview category (Store.row_id (row obj))
         else CbView category (Store.row_id (row obj))]
     ++ (if admin then [CbEdit category (Store.row_id (row obj));
                        CbDelete category (Store.row_id (row obj))] else []))%list ].

(** *** The result screen *)

Definition total_pages_of (results : list cached_object) : Z :=
  (Z.of_nat (length results) + PAGE_SIZE - 1) / PAGE_SIZE.

Definition with_genres (names : list string) (obj : cached_object) : cached_object :=
  {| row := row obj; obj_genres := Some names |}.

(** The body of [for obj_dict in page_results]; [i] is the position of
    [obj_dict] in [results_cache], whose item the loop updates in place. *)
Fixpoint send_cards (chat_id : Z) (category : string) (i : nat)
    (page_results : list cached_object) : handler unit :=
  match page_results with
  | [] => mret ()
  | obj_dict :: rest =>
      d ← storage;
      genres_rows ← executed (Store.genres_of_object d (Store.row_id (row obj_dict)));
      is_viewed ← executed (Store.is_viewed d chat_id (Store.row_id (row obj_dict)));
      update (λ ud, set_results_cache
                      (alter (with_genres genres_rows) i <$> results_cache ud) ud);;
      let obj_dict := with_genres genres_rows obj_dict in
      admin ← is_admin chat_id;
      let keyboard := card_keyboard category obj_dict is_viewed admin in
      ok ← poster_accepted (Store.obj_image (row obj_dict));
      message_id ←
        (if ok : bool
         then sent (λ m, SendPhoto chat_id m (Store.obj_image (row obj_dict))
                           (Card obj_dict is_viewed) keyboard)
         else sent (λ m, SendMessage chat_id m (CardWithoutPoster obj_dict is_viewed)
                           (Some keyboard)));
      add_message_to_stack message_id;;
      send_cards chat_id category (S i) rest
  end.

Definition send_paginated_results (chat_id : Z) (category : string) : handler unit :=
  ud ← get;
  let page := default 0 (results_page ud) in
  let results := default [] (results_cache ud) in
  let total_pages := total_pages_of results in
  let start_index := page * PAGE_SIZE in
  let end_index := start_index + PAGE_SIZE in
  let page_results := Py.slice results start_index end_index in
  push_new_message_level;;
  match page_results with
  | [] =>
      message_id ← sent (λ m, SendMessage chat_id m NothingFound
                                (Some (get_results_keyboard category page total_pages)));
      add_message_to_stack message_id
  | _ =>
      send_cards chat_id category
        (Z.to_nat (Py.clamp_index (Z.of_nat (length results)) start_index)) page_results;;
      message_id ← sent (λ m, SendMessage chat_id m (PageOf (page + 1) total_pages)
                                (Some (get_results_keyboard category page total_pages)));
      add_message_to_stack message_id
  end.

(** *** Inbound events *)

(** [update.callback_query]: the payload, the presser, the chat of the
    message that carries the button, and whether that message is a photo. *)
Record callback_query := {
  data : string;
  from_user : Z;
  chat_id : Z;
  message_photo : bool
}.

(** [update.message] of a text reply. *)
Record message := {
  message_text : string;
  message_chat_id : Z;
  message_id : Z;
  effective_user : Z
}.

(** *** The callback dispatcher *)

(** The genre-filter screen text. *)
Definition filter_text (num_objects : Z) : text :=
  if num_objects =? 0 then NothingForFilters else ApplyFilters num_objects.

(** [action == 'category'] *)
Definition on_category (query : callback_query) (parts : list string) : handler (option state) :=
  category ← item parts 1;
  update (set_current_category (Some category));;
  update (λ ud,
    let genres := default ∅ (selected_genres ud) in
    set_selected_genres
      (Some (match genres !! category with
             | Some _ => genres
             | None => <[category := []]> genres
             end)) ud);;
  update (λ ud,
    let viewed := default ∅ (viewed_filter ud) in
    set_viewed_filter
      (Some (match viewed !! category with
             | Some _ => viewed
             | None => <[category := false]> viewed
             end)) ud);;
  ud ← get;
  selected ← subscript "selected_genres" (selected_genres ud) category;
  viewed ← subscript "viewed_filter" (viewed_filter ud) category;
  let user_id := from_user query in
  d ← storage;
  let num_objects := Store.count_filtered_objects d category selected viewed user_id in
  let keyboard := get_genres_keyboard d category selected viewed user_id in
  pop_and_delete_messages (chat_id query);;
  pop_and_delete_messages (chat_id query);;
  push_new_message_level;;
  message_id ← sent (λ m, SendMessage (chat_id query) m (filter_text num_objects) (Some keyboard));
  add_message_to_stack message_id;;
  mret None.

(** [action == 'genre'] *)
Definition on_genre (query : callback_query) (parts : list string) : handler (option state) :=
  category ← item parts 1;
  genre ← item parts 2;
  update (λ ud, match selected_genres ud with
                | None => set_selected_genres (Some {[ category := [] ]}) ud
                | Some _ => ud
                end);;
  update (λ ud, match viewed_filter ud with
                | None => set_viewed_filter (Some {[ category := false ]}) ud
                | Some _ => ud
                end);;
  ud ← get;
  (if String.eqb genre "_viewed_" then
     viewed ← subscript "viewed_filter" (viewed_filter ud) category;
     update (set_viewed_filter (<[category := negb viewed]> <$> viewed_filter ud))
   else
     selected ← subscript "selected_genres" (selected_genres ud) category;
     if Py.contains genre selected then
       update (set_selected_genres
                 (<[category := Py.remove genre selected]> <$> selected_genres ud))
     else
       update (set_selected_genres
                 (<[category := (selected ++ [genre])%list]> <$> selected_genres ud)));;
  ud ← get;
  selected ← subscript "selected_genres" (selected_genres ud) category;
  viewed ← subscript "viewed_filter" (viewed_filter ud) category;
  let user_id := from_user query in
  d ← storage;
  let num_objects := Store.count_filtered_objects d category selected viewed user_id in
  let keyboard := get_genres_keyboard d category selected viewed user_id in
  emit (EditMessageText (filter_text num_objects) (Some keyboard));;
  mret None.

(** [action == 'delete'] *)
Definition on_delete (query : callback_query) (parts : list string) : handler (option state) :=
  admin ← is_admin (from_user query);
  if negb admin then emit (Answer (Some NoRights));; mret None
  else
    category ← item parts 1;
    object_id ← (p ← item parts 2; to_int p);
    d ← storage;
    d' ← executed (Store.delete_object object_id d);
    commit d';;
    emit (Answer (Some Deleted));;
    update (λ ud, set_results_cache
                    (Some (List.filter (λ obj, negb (Store.row_id (row obj) =? object_id))
                                       (default [] (results_cache ud)))) ud);;
    pop_and_delete_messages (chat_id query);;
    send_paginated_results (chat_id query) category;;
    mret None.

(** [action == 'select'] *)
Definition on_select (query : callback_query) (parts : list string) : handler (option state) :=
  category ← item parts 1;
  ud ← get;
  let selected := default [] (default ∅ (selected_genres ud) !! category) in
  let viewed := default false (default ∅ (viewed_filter ud) !! category) in
  let user_id := chat_id query in
  d ← storage;
  filtered_objects ← executed (Store.select_filtered d category selected viewed user_id);
  update (set_results_cache
            (Some ((λ r, {| row := r; obj_genres := None |}) <$> filtered_objects)));;
  update (set_results_page (Some 0));;
  pop_and_delete_messages (chat_id query);;
  send_paginated_results (chat_id query) category;;
  mret None.

(** [action == 'page'] *)
Definition on_page (query : callback_query) (parts : list string) : handler (option state) :=
  category ← item parts 1;
  page ← (p ← item parts 2; to_int p);
  update (set_results_page (Some page));;
  pop_and_delete_messages (chat_id query);;
  send_paginated_results (chat_id query) category;;
  mret None.

(** The common tail of [view] and [unview]: refresh the one card. *)
Definition refresh_card (query : callback_query) (category : string) (object_id : Z)
    (now_viewed : bool) : handler unit :=
  ud ← get;
  let results := default [] (results_cache ud) in
  match list_find (λ obj, Store.row_id (row obj) = object_id) results with
  | Some (i, obj_dict) =>
      d ← storage;
      genres_rows ← executed (Store.genres_of_object d object_id);
      update (λ ud, set_results_cache
                      (alter (with_genres genres_rows) i <$> results_cache ud) ud);;
      let obj_dict := with_genres genres_rows obj_dict in
      admin ← is_admin (from_user query);
      let keyboard := card_keyboard category obj_dict now_viewed admin in
      if message_photo query
      then emit (EditMessageCaption (Card obj_dict now_viewed) (Some keyboard))
      else emit (EditMessageText (Card obj_dict now_viewed) (Some keyboard))
  | None => mret ()
  end.

(** [action == 'view'] *)
Definition on_view (query : callback_query) (parts : list string) : handler (option state) :=
  category ← item parts 1;
  object_id ← (p ← item parts 2; to_int p);
  let user_id := from_user query in
  d ← storage;
  d' ← executed (Store.record_view user_id object_id d);
  commit d';;
  emit (Answer (Some MarkedViewed));;
  refresh_card query category object_id true;;
  mret None.

(** [action == 'unview'] *)
Definition on_unview (query : callback_query) (parts : list string) : handler (option state) :=
  category ← item parts 1;
  object_id ← (p ← item parts 2; to_int p);
  let user_id := from_user query in
  d ← storage;
  d' ← executed (Store.clear_view user_id object_id d);
  commit d';;
  emit (Answer (Some MarkRemoved));;
  refresh_card query category object_id false;;
  mret None.

(** [action == 'back'] *)
Definition on_back (query : callback_query) (parts : list string) : handler (option state) :=
  target_menu ← item parts 1;
  pop_and_delete_messages (chat_id query);;
  if String.eqb target_menu "recommendations" then
    admin ← is_admin (from_user query);
    push_new_message_level;;
    message_id ← sent (λ m, SendMessage (chat_id query) m ChooseCategory
                              (Some (get_recommendations_keyboard admin)));
    add_message_to_stack message_id;;
    mret None
  else if String.eqb target_menu "genres" then
    category ← item parts 2;
    ud ← get;
    let selected := default [] (default ∅ (selected_genres ud) !! category) in
    let viewed := default false (default ∅ (viewed_filter ud) !! category) in
    let user_id := from_user query in
    d ← storage;
    let num_objects := Store.count_filtered_objects d category selected viewed user_id in
    let keyboard := get_genres_keyboard d category selected viewed user_id in
    push_new_message_level;;
    message_id ← sent (λ m, SendMessage (chat_id query) m (filter_text num_objects) (Some keyboard));
    add_message_to_stack message_id;;
    mret None
  else mret None.

(** [button]: answer the query, split the payload, test the action
    against each branch of the [if]/[elif] chain in turn. *)
Definition button (query : callback_query) : handler (option state) :=
  emit (Answer None);;
  let parts := Py.split ":" (data query) in
  action ← item parts 0;
  add_object ← (if String.eqb action "admin"
                then p ← item parts 1; mret (String.eqb p "add_object")
                else mret false);
  if add_object : bool then
    admin ← is_admin (from_user query);
    if negb admin then emit (Answer (Some NoRights));; mret (Some END)
    else
      emit (EditMessageText ChooseType
              (Some [[CbAddType "фильм"]; [CbAddType "сериал"]; [CbAddType "книга"]]));;
      mret (Some TYPE)
  else if String.eqb action "category" then on_category query parts
  else if String.eqb action "genre" then on_genre query parts
  else
    panel ← (if String.eqb action "admin"
             then p ← item parts 1; mret (String.eqb p "panel")
             else mret false);
    if panel : bool then
      admin ← is_admin (from_user query);
      if negb admin then emit (Answer (Some NoRights));; mret None
      else
        emit (EditMessageText AdminPanel (Some [[CbAdminAddObject]; [CbBackRecommendations]]));;
        mret None
    else if String.eqb action "delete" then on_delete query parts
    else if String.eqb action "select" then on_select query parts
    else if String.eqb action "page" then on_page query parts
    else if String.eqb action "view" then on_view query parts
    else if String.eqb action "unview" then on_unview query parts
    else if String.eqb action "back" then on_back query parts
    else mret None.

(** *** Commands and menu messages *)

(** [update.message.reply_text(...)] *)
Definition reply_text (m : message) (t : text) : handler unit :=
  sent (λ i, SendMessage (message_chat_id m) i t None);; mret ().

Definition start (m : message) : handler unit :=
  update (λ _, set_message_stack (Some []) cleared);;
  reply_text m Greeting.

Definition show_recommendations (m : message) : handler unit :=
  emit (DeleteMessage (message_chat_id m) (message_id m));;
  drain_all (message_chat_id m);;
  push_new_message_level;;
  admin ← is_admin (effective_user m);
  i ← sent (λ i, SendMessage (message_chat_id m) i ChooseCategory
                   (Some (get_recommendations_keyboard admin)));
  add_message_to_stack i.

Definition go_to_main_menu (m : message) : handler unit :=
  drain_all (message_chat_id m);;
  start m.

(** *** The data-entry conversation *)

(** [d[k]] for a key of a dictionary modelled as a record field *)
Definition key {A} (k : string) (v : option A) : handler A :=
  match v with
  | Some a => mret a
  | None => raise (Py.KeyError k)
  end.



Definition set_new_name (v : string) (o : draft) : draft :=
  {| new_type := new_type o; new_name := Some v; new_year := new_year o;
     new_description := new_description o; new_url := new_url o; new_image := new_image o;
     new_admin_rating := new_admin_rating o; new_site_rating := new_site_rating o;
     new_genres := new_genres o |}.

Definition set_new_year (v : Z) (o : draft) : draft :=
  {| new_type := new_type o; new_name := new_name o; new_year := Some v;
     new_description := new_description o; new_url := new_url o; new_image := new_image o;
     new_admin_rating := new_admin_rating o; new_site_rating := new_site_rating o;
     new_genres := new_genres o |}.

Definition set_new_description (v : string) (o : draft) : draft :=
  {| new_type := new_type o; new_name := new_name o; new_year := new_year o;
     new_description := Some v; new_url := new_url o; new_image := new_image o;
     new_admin_rating := new_admin_rating o; new_site_rating := new_site_rating o;
     new_genres := new_genres o |}.

Definition set_new_url (v : string) (o : draft) : draft :=
  {| new_type := new_type o; new_name := new_name o; new_year := new_year o;
     new_description := new_description o; new_url := Some v; new_image := new_image o;
     new_admin_rating := new_admin_rating o; new_site_rating := new_site_rating o;
     new_genres := new_genres o |}.

Definition set_new_image (v : string) (o : draft) : draft :=
  {| new_type := new_type o; new_name := new_name o; new_year := new_year o;
     new_description := new_description o; new_url := new_url o; new_image := Some v;
     new_admin_rating := new_admin_rating o; new_site_rating := new_site_rating o;
     new_genres := new_genres o |}.

Definition set_new_admin_rating (v : Py.float_value) (o : draft) : draft :=
  {| new_type := new_type o; new_name := new_name o; new_year := new_year o;
     new_description := new_description o; new_url := new_url o; new_image := new_image o;
     new_admin_rating := Some v; new_site_rating := new_site_rating o;
     new_genres := new_genres o |}.

Definition set_new_site_rating (v : Py.float_value) (o : draft) : draft :=
  {| new_type := new_type o; new_name := new_name o; new_year := new_year o;
     new_description := new_description o; new_url := new_url o; new_image := new_image o;
     new_admin_rating := new_admin_rating o; new_site_rating := Some v;
     new_genres := new_genres o |}.

Definition set_new_genres (v : list string) (o : draft) : draft :=
  {| new_type := new_type o; new_name := new_name o; new_year := new_year o;
     new_description := new_description o; new_url := new_url o; new_image := new_image o;
     new_admin_rating := new_admin_rating o; new_site_rating := new_site_rating o;
     new_genres := Some v |}.

(** [context.user_data['new_object'][k] = v]: the dictionary must be there. *)
Definition store_field (f : draft → draft) : handler unit :=
  ud ← get;
  new_obj ← key "new_object" (new_object ud);
  update (set_new_object (Some (f new_obj))).

(** [float(s)] *)
Definition to_float (s : string) : handler Py.float_value :=
  match Py.float s with
  | Some x => mret x
  | None => raise Py.ValueError
  end.


Definition add_name (m : message) : handler state :=
  store_field (set_new_name (message_text m));;
  reply_text m (Ask YEAR);;
  mret YEAR.

(** The right-hand side [int(update.message.text)] is evaluated before
    the dictionary is looked up and written. *)
Definition add_year (m : message) : handler state :=
  year ← to_int (message_text m);
  store_field (set_new_year year);;
  reply_text m (Ask DESCRIPTION);;
  mret DESCRIPTION.

Definition add_description (m : message) : handler state :=
  store_field (set_new_description (message_text m));;
  reply_text m (Ask URL);;
  mret URL.

Definition add_url (m : message) : handler state :=
  store_field (set_new_url (message_text m));;
  reply_text m (Ask IMAGE);;
  mret IMAGE.

Definition add_image (m : message) : handler state :=
  store_field (set_new_image (message_text m));;
  reply_text m (Ask ADMIN_RATING);;
  mret ADMIN_RATING.

Definition add_admin_rating (m : message) : handler state :=
  rating ← to_float (Py.replace "," "." (message_text m));
  store_field (set_new_admin_rating rating);;
  reply_text m (Ask SITE_RATING);;
  mret SITE_RATING.

Definition add_site_rating (m : message) : handler state :=
  rating ← to_float (Py.replace "," "." (message_text m));
  store_field (set_new_site_rating rating);;
  ud ← get;
  new_obj ← key "new_object" (new_object ud);
  t ← key "type" (new_type new_obj);
  d ← storage;
  reply_text m (AskGenres (Store.get_category_genres d t));;
  mret GENRES.

Definition sql_text (s : string) : Store.sql_value := Store.SqlText s.

(** [for genre_name in new_obj['genres']]: get or create the genre, read
    its id back, link it to the object. *)
Fixpoint link_genres (object_db_id : Z) (genre_names : list string) (d : Store.database)
  : handler Store.database :=
  match genre_names with
  | [] => mret d
  | genre_name :: rest =>
      d ← executed (Store.ensure_genre genre_name d);
      gs ← executed (Store.genres d);
      genre_id ← match Store.genre_id_by_name gs genre_name with
                 | Some i => mret i
                 | None => raise Py.TypeError
                 end;
      d ← executed (Store.link_genre object_db_id genre_id d);
      link_genres object_db_id rest d
  end.

(** The body of either [try] in [add_genres]: a fresh connection, the
    inserts, the commit, the confirmation. *)
Definition insert_new_object (m : message) (new_obj : draft) : handler unit :=
  ty ← key "type" (new_type new_obj);
  nm ← key "name" (new_name new_obj);
  yr ← key "year" (new_year new_obj);
  ds ← key "description" (new_description new_obj);
  ur ← key "url" (new_url new_obj);
  im ← key "image" (new_image new_obj);
  ar ← key "admin_rating" (new_admin_rating new_obj);
  sr ← key "site_rating" (new_site_rating new_obj);
  d ← storage;
  '(object_db_id, d) ← executed
      (Store.insert_object (sql_text ty) (sql_text nm) (Store.SqlInt yr) (sql_text ds)
         (sql_text ur) (sql_text im) (Store.SqlReal ar) (Store.SqlReal sr) d);
  genre_names ← key "genres" (new_genres new_obj);
  d ← link_genres object_db_id genre_names d;
  commit d;;
  reply_text m ObjectAdded.

(** [setup_database()], called from the [except] branch. *)
Definition run_setup_database : handler unit :=
  emit SetupDatabase;;
  d ← storage;
  d ← executed (Store.setup_database d);
  created d.

Definition add_genres (m : message) : handler state :=
  let genres := Py.strip <$> Py.split "," (message_text m) in
  store_field (set_new_genres genres);;
  ud ← get;
  new_obj ← key "new_object" (new_object ud);
  try_operational
    (insert_new_object m new_obj)
    (run_setup_database;;
     try_operational
       (insert_new_object m new_obj)
       (reply_text m AddFailedAfterSetup));;
  update (set_new_object None);;
  mret END.

Definition cancel (m : message) : handler state :=
  reply_text m AddCancelled;;
  mret END.

(** The [states] table of the data-entry [ConversationHandler]: the
    callback that takes a text reply in each state. *)
Definition text_callback (s : state) : option (message → handler state) :=
  match s with
  | NAME => Some add_name
  | YEAR => Some add_year
  | DESCRIPTION => Some add_description
  | URL => Some add_url
  | IMAGE => Some add_image
  | ADMIN_RATING => Some add_admin_rating
  | SITE_RATING => Some add_site_rating
  | GENRES => Some add_genres
  | _ => None
  end.


End Bot.

(** ** Sample data *)

Module Sample.

(** A film row with the given id. *)
Definition film (i : Z) : Store.object_row :=
  {| Store.row_id := i; Store.obj_id := Store.SqlNull;
     Store.obj_type := Store.SqlText "фильм"; Store.obj_name := Store.SqlText "X";
     Store.obj_year := Store.SqlInt 1999; Store.obj_description := Store.SqlText "about X";
     Store.obj_url := Store.SqlText "https://example.org/x";
     Store.obj_image := Store.SqlText "poster"; Store.admin_rating := Store.SqlNull;
     Store.site_rating := Store.SqlNull |}.

(** Twelve films, two genres, one viewed mark of user 7 on film 1. *)
Definition catalog : Store.database :=
  {| Store.objects := Some (film <$> [1; 2; 3; 4; 5; 6; 7; 8; 9; 10; 11; 12]);
     Store.genres := Some [ {| Store.genre_id := 1; Store.name := "drama" |};
                            {| Store.genre_id := 2; Store.name := "comedy" |} ];
     Store.object_genres := Some [(1, 1); (2, 1); (2, 2); (3, 2)];
     Store.user_views := Some {[ (7, 1) ]};
     Store.read_only := false |}.

Definition world_of (ud : Bot.session) (d : Store.database) : Bot.world :=
  {| Bot.user_data := ud; Bot.db := d; Bot.ADMIN_IDS := [99]; Bot.trace := [];
     Bot.next_message_id := 100; Bot.photo_ok := λ _, true |}.

(** A process that has just started, over the catalog. *)
Definition fresh : Bot.world := world_of Bot.cleared catalog.

(** The same process over a database file without tables. *)
Definition unset : Bot.world := world_of Bot.cleared Store.no_tables.

(** A button press by user 7 in their own chat, on a photo message. *)
Definition press (payload : string) : Bot.callback_query :=
  {| Bot.data := payload; Bot.from_user := 7; Bot.chat_id := 7; Bot.message_photo := true |}.

(** A text reply of user 7. *)
Definition says (t : string) : Bot.message :=
  {| Bot.message_text := t; Bot.message_chat_id := 7; Bot.message_id := 50;
     Bot.effective_user := 7 |}.

(** A button press by the privileged user 99. *)
Definition admin_press (payload : string) : Bot.callback_query :=
  {| Bot.data := payload; Bot.from_user := 99; Bot.chat_id := 99; Bot.message_photo := true |}.

(** A pending entry with every field but the genres filled in. *)
Definition entry : Bot.draft :=
  {| Bot.new_type := Some "фильм"; Bot.new_name := Some "X"; Bot.new_year := Some 1999;
     Bot.new_description := Some "about X"; Bot.new_url := Some "https://example.org/x";
     Bot.new_image := Some "poster";
     Bot.new_admin_rating := Some (Py.FDecimal false 75 (-1));
     Bot.new_site_rating := Some (Py.FDecimal false 82 (-1));
     Bot.new_genres := None |}.

(** The catalog in a file that cannot be written. *)
Definition locked : Store.database :=
  {| Store.objects := Store.objects catalog; Store.genres := Store.genres catalog;
     Store.object_genres := Store.object_genres catalog;
     Store.user_views := Store.user_views catalog; Store.read_only := true |}.

(** The world after a sequence of button presses, whatever each returned. *)
Definition after (payloads : list string) (w : Bot.world) : Bot.world :=
  foldl (λ w p, (Bot.button (press p) w).2) w payloads.

End Sample.

(** ** Vocabulary of the properties *)

Import Bot.

(** The world after the transport and store calls [es]. *)
Definition after_effects (es : list effect) (w : world) : world :=
  {| user_data := user_data w; db := db w; ADMIN_IDS := ADMIN_IDS w;
     trace := trace w ++ es; next_message_id := next_message_id w;
     photo_ok := photo_ok w |}.

(** Sequences of operations on the message stack. *)
Inductive stack_op :=
| PushLevel
| RecordMessage (handle : Z)
| PopLevel
| DrainAll.

Definition run_op (chat_id : Z) (op : stack_op) : handler unit :=
  match op with
  | PushLevel => push_new_message_level
  | RecordMessage h => add_message_to_stack h
  | PopLevel => pop_and_delete_messages chat_id
  | DrainAll => drain_all chat_id
  end.

Definition run_ops (chat_id : Z) (ops : list stack_op) : handler unit :=
  foldr (λ op k, run_op chat_id op;; k) (mret ()) ops.

(** The levels of the stack, none when the key is absent. *)
Definition levels (w : world) : list (list Z) :=
  default [] (message_stack (user_data w)).

(** [h] is recorded in some level of the stack. *)
Definition tracked (h : Z) (w : world) : Prop :=
  ∃ level, level ∈ levels w ∧ h ∈ level.

(** What one step on the stack does to a handle that is not tracked and is
    not the one being recorded. *)
Definition keeps_out (h : Z) (w w' : world) : Prop :=
  ¬ tracked h w' ∧ ∃ added, trace w' = trace w ++ added ∧ ∀ c, DeleteMessage c h ∉ added.

(** [keeps f h]: running [h] does not change the observation [f] of the
    world, whether [h] returns or raises. *)
Definition keeps {X A} (f : world → X) (h : handler A) : Prop :=
  ∀ w, f (h w).2 = f w.

(** [returns h]: [h] never raises. *)
Definition returns {A} (h : handler A) : Prop :=
  ∀ w, ∃ a, (h w).1 = Returned a.

(** The observations used below. *)
Definition page_and_size (w : world) : option Z * option nat :=
  (results_page (user_data w), length <$> results_cache (user_data w)).

Definition filters (w : world) : option (gmap string (list string)) * option (gmap string bool) :=
  (selected_genres (user_data w), viewed_filter (user_data w)).

(** The action of a payload: the text before its first colon. *)
Definition action_of (payload : string) : string :=
  default "" (head (Py.split ":" payload)).

(** The actions [button] tests for. *)
Definition recognized : list string :=
  ["admin"; "category"; "genre"; "delete"; "select"; "page"; "view"; "unview"; "back"].

(** The genres selected for a category, as the [select] and [back]
    actions read them: none when a key is absent. *)
Definition selected_list (w : world) (category : string) : list string :=
  default [] (default ∅ (selected_genres (user_data w)) !! category).

Definition selected_set (w : world) (category : string) : gset string :=
  list_to_set (selected_list w category).

(** No genre is selected twice for a category. *)
Definition genres_distinct (w : world) : Prop :=
  ∀ category, NoDup (selected_list w category).

(** What [on_genre] does to [selected_genres]. *)
Definition toggled (category genre : string)
    (selected : option (gmap string (list string))) : option (gmap string (list string)) :=
  let m := default {[ category := [] ]} selected in
  if String.eqb genre "_viewed_" then Some m
  else match m !! category with
       | Some l => Some (<[category := if Py.contains genre l then Py.remove genre l
                                       else l ++ [genre]]> m)
       | None => Some m
       end.

(** One toggle of a list of selected genres. *)
Definition toggle (g : string) (l : list string) : list string :=
  if Py.contains g l then Py.remove g l else l ++ [g].

(** The list selected for a category in a [selected_genres] value. *)
Definition list_of (selected : option (gmap string (list string))) (category : string)
  : list string :=
  default [] (default ∅ selected !! category).

(** The number of cached results. *)
Definition cache_size (w : world) : Z :=
  Z.of_nat (length (default [] (results_cache (user_data w)))).

(** The page shown by the next rendering. *)
Definition current_page (w : world) : Z :=
  default 0 (results_page (user_data w)).







(** Texts without whitespace are not changed by [strip]. *)
Fixpoint no_space (s : string) : bool :=
  match s with
  | EmptyString => true
  | String c s' => negb (Py.is_space c) && no_space s'
  end.

(** A mapping with the key added under a default, when it is missing. *)
Definition opened {V} (v : V) (k : string) (m : gmap string V) : gmap string V :=
  match m !! k with
  | Some _ => m
  | None => <[k := v]> m
  end.

(** [ends_with v h]: [h] returns [v], from every world. *)
Definition ends_with {A} (v : A) (h : handler A) : Prop :=
  ∀ w, ∃ w', h w = (Returned v, w').

(** [preserves P h]: [P] holds after [h] if it held before. *)
Definition preserves {A} (P : world → Prop) (h : handler A) : Prop :=
  ∀ w, P w → P (h w).2.

(** [lacks c s]: the character [c] does not occur in [s]. *)
Fixpoint lacks (c : ascii) (s : string) : bool :=
  match s with
  | EmptyString => true
  | String c' s' => negb (Ascii.eqb c' c) && lacks c s'
  end.

(** The world with the given message stack. *)
Definition stacked (stack : list (list Z)) (w : world) : world :=
  with_user_data (set_message_stack (Some stack)) w.

(** The world without its message stack and its trace: what the stack
    operations leave alone. *)
Definition backstage (w : world) : world :=
  {| user_data := set_message_stack None (user_data w); db := db w;
     ADMIN_IDS := ADMIN_IDS w; trace := []; next_message_id := next_message_id w;
     photo_ok := photo_ok w |}.

(** The slice of the cache that [send_paginated_results] renders for a
    page. *)
Definition page_of (results : list cached_object) (page : Z) : list cached_object :=
  Py.slice results (page * PAGE_SIZE) (page * PAGE_SIZE + PAGE_SIZE).

(** The ids of the messages sent by a list of calls. *)
Definition sent_ids (es : list effect) : list Z :=
  omap (λ e, match e with
             | SendMessage _ i _ _ | SendPhoto _ i _ _ _ => Some i
             | _ => None
             end) es.

(** [name TEXT UNIQUE]: no two rows of [genres] carry the same name. *)
Definition names_unique (d : Store.database) : Prop :=
  NoDup (Store.name <$> default [] (Store.genres d)).

(** The order of [ORDER BY g.name]: byte by byte. *)
Definition name_lt (a b : string) : Prop := String.compare a b = Lt.

(** The payloads [button] serves to privileged users only: the [delete]
    action and the two [admin] screens. *)
Definition privileged (payload : string) : bool :=
  match Py.split ":" payload with
  | action :: rest =>
      String.eqb action "delete"
      || (String.eqb action "admin"
          && match rest with
             | p :: _ => String.eqb p "add_object" || String.eqb p "panel"
             | [] => false
             end)
  | [] => false
  end.

(** The rows held in the result cache. *)
Definition cached_rows (w : world) : option (list Store.object_row) :=
  match results_cache (user_data w) with
  | Some results => Some (row <$> results)
  | None => None
  end.

(** The number of levels on the message stack. *)
Definition depth (w : world) : nat := length (levels w).

(** [shallow n w]: the stack of [w] holds at most [n] levels. *)
Definition shallow (n : nat) (w : world) : Prop := (depth w ≤ n)%nat.

(** [passes P Q h]: from a world with [P], [h] ends in a world with [Q],
    whether it returns or raises. *)
Definition passes {A} (P Q : world → Prop) (h : handler A) : Prop :=
  ∀ w, P w → Q (h w).2.







(** ** Properties *)

(** *** Python built-ins on examples *)

Example split_payload :
  Py.split ":" "genre:films:drama" = ["genre"; "films"; "drama"]
  ∧ Py.split ":" "" = [""] ∧ Py.split ":" "a::b" = ["a"; ""; "b"].
Proof. by vm_compute. Qed.

Example int_of_text :
  Py.int " 1_999 " = Some 1999 ∧ Py.int "-7" = Some (-7) ∧ Py.int "abc" = None
  ∧ Py.int "1__0" = None ∧ Py.int "12_" = None ∧ Py.int "" = None ∧ Py.int "- 1" = None.
Proof. by vm_compute. Qed.

Example float_of_text :
  Py.float (Py.replace "," "." "7,5") = Some (Py.FDecimal false 75 (-1))
  ∧ Py.float "8.2" = Some (Py.FDecimal false 82 (-1))
  ∧ Py.float "1.5e-2" = Some (Py.FDecimal false 15 (-3))
  ∧ Py.float ".5" = Some (Py.FDecimal false 5 (-1))
  ∧ Py.float "5." = Some (Py.FDecimal false 5 0)
  ∧ Py.float "1_0.2_5" = Some (Py.FDecimal false 1025 (-2))
  ∧ Py.float "-Inf" = Some (Py.FInfinity true)
  ∧ Py.float "7,5" = None ∧ Py.float "." = None ∧ Py.float "1e" = None
  ∧ Py.float "1._5" = None ∧ Py.float "abc" = None.
Proof. by vm_compute. Qed.

Example slice_of_list :
  Py.slice [1; 2; 3; 4; 5; 6; 7] 5 10 = [6; 7]
  ∧ Py.slice [1; 2; 3] 15 20 = []
  ∧ Py.slice [1; 2; 3] (-5) 0 = []
  ∧ Py.slice [1; 2; 3; 4; 5; 6; 7; 8; 9; 10; 11; 12] (-10) (-5) = [3; 4; 5; 6; 7].
Proof. by vm_compute. Qed.

(** *** Python lists and strings *)

Section py_facts.
Context {A : Type}.
Implicit Types (l : list A) (x : A).

Lemma pop_snoc l x : Py.pop (l ++ [x]) = Some (l, x).
Proof.
  induction l as [|y l IH]; [done|].
  cbn [app Py.pop]. by rewrite IH.
Qed.

Lemma pop_nil_iff l : Py.pop l = None ↔ l = [].
Proof.
  split; [|by intros ->].
  destruct l as [|y l]; [done|]. cbn. by destruct (Py.pop l) as [[??]|].
Qed.

Lemma pop_Some l rest x : Py.pop l = Some (rest, x) → l = rest ++ [x].
Proof.
  revert rest. induction l as [|y l IH]; intros rest; [done|].
  cbn. destruct (Py.pop l) as [[r z]|] eqn:E.
  - intros [= <- <-]. by rewrite (IH r eq_refl).
  - intros [= <- <-]. by apply pop_nil_iff in E as ->.
Qed.

End py_facts.

Lemma split_not_nil sep s : Py.split sep s ≠ [].
Proof.
  destruct s as [|c s]; [done|]. cbn.
  destruct (Ascii.eqb c sep); [done|]. by destruct (Py.split sep s).
Qed.

(** *** Running handlers *)

Lemma bind_run {A B} (m : handler A) (f : A → handler B) w :
  (m ≫= f) w = match m w with
               | (Returned a, w') => f a w'
               | (Raised e, w') => (Raised e, w')
               end.
Proof. reflexivity. Qed.

Lemma after_effects_nil w : after_effects [] w = w.
Proof. destruct w. unfold after_effects. cbn. by rewrite app_nil_r. Qed.

Lemma after_effects_cons e es w :
  after_effects (e :: es) w = after_effects es (with_effect e w).
Proof. unfold after_effects, with_effect. cbn. by rewrite <- app_assoc. Qed.

Lemma delete_messages_run chat_id ids w :
  delete_messages chat_id ids w
  = (Returned (), after_effects (DeleteMessage chat_id <$> ids) w).
Proof.
  revert w. induction ids as [|i ids IH]; intros w.
  - by rewrite after_effects_nil.
  - cbn [delete_messages foldr fmap list_fmap]. rewrite after_effects_cons.
    rewrite bind_run. cbn [emit]. apply IH.
Qed.

Lemma pop_and_delete_messages_empty chat_id w :
  levels w = [] → pop_and_delete_messages chat_id w = (Returned (), w).
Proof.
  unfold levels, pop_and_delete_messages. rewrite bind_run. cbn [get].
  destruct (message_stack (user_data w)) as [stack|]; [|done].
  cbn. by intros ->.
Qed.

Lemma pop_and_delete_messages_top chat_id w rest top :
  message_stack (user_data w) = Some (rest ++ [top]) →
  pop_and_delete_messages chat_id w
  = (Returned (), after_effects (DeleteMessage chat_id <$> top)
                    (with_user_data (set_message_stack (Some rest)) w)).
Proof.
  intros E. unfold pop_and_delete_messages. rewrite bind_run. cbn [get].
  rewrite E, pop_snoc, bind_run. cbn [update]. apply delete_messages_run.
Qed.

Lemma add_message_to_stack_empty h w :
  levels w = [] → add_message_to_stack h w = (Returned (), w).
Proof.
  unfold levels, add_message_to_stack. rewrite bind_run. cbn [get].
  destruct (message_stack (user_data w)) as [stack|]; [|done].
  cbn. by intros ->.
Qed.

Lemma add_message_to_stack_top h w rest top :
  message_stack (user_data w) = Some (rest ++ [top]) →
  add_message_to_stack h w
  = (Returned (), with_user_data (set_message_stack (Some (rest ++ [top ++ [h]]))) w).
Proof.
  intros E. unfold add_message_to_stack. rewrite bind_run. cbn [get].
  by rewrite E, pop_snoc.
Qed.

(** A stack is empty or has a top level. *)
Lemma levels_cases w :
  levels w = [] ∨ ∃ rest top, message_stack (user_data w) = Some (rest ++ [top]).
Proof.
  unfold levels. destruct (message_stack (user_data w)) as [stack|]; [|by left].
  destruct (Py.pop stack) as [[rest top]|] eqn:E.
  - right. exists rest, top. by rewrite (pop_Some _ _ _ E).
  - left. by apply pop_nil_iff in E as ->.
Qed.

Lemma keeps_out_refl h w : ¬ tracked h w → keeps_out h w w.
Proof.
  intros H. split; [done|]. exists []. split; [by rewrite app_nil_r|].
  intros c Hc. by apply not_elem_of_nil in Hc.
Qed.

Lemma keeps_out_trans h w1 w2 w3 :
  keeps_out h w1 w2 → keeps_out h w2 w3 → keeps_out h w1 w3.
Proof.
  intros [_ (a1 & E1 & H1)] [H (a2 & E2 & H2)]. split; [done|].
  exists (a1 ++ a2). split; [by rewrite E2, E1, app_assoc|].
  intros c [Hc|Hc]%elem_of_app; [by eapply H1|by eapply H2].
Qed.

Lemma pop_keeps_out chat_id h w :
  ¬ tracked h w →
  ∃ w', pop_and_delete_messages chat_id w = (Returned (), w') ∧ keeps_out h w w'
        ∧ (length (levels w') = pred (length (levels w))).
Proof.
  intros H. destruct (levels_cases w) as [E|(rest & top & E)].
  - exists w. rewrite pop_and_delete_messages_empty by done.
    split; [done|]. split; [by apply keeps_out_refl|]. by rewrite E.
  - eexists. split; [by apply pop_and_delete_messages_top|]. split; [split|].
    + intros (level & Hl & Hh). apply H. exists level. split; [|done].
      unfold levels. rewrite E. cbn in *. apply elem_of_app. by left.
    + eexists. split; [reflexivity|]. intros c Hc.
      apply list_elem_of_fmap in Hc as (i & [= -> ->] & Hi).
      apply H. exists top. split; [|done].
      unfold levels. rewrite E. cbn. apply elem_of_app. right. by apply list_elem_of_singleton.
    + unfold levels. rewrite E. cbn. rewrite length_app. cbn. lia.
Qed.

Lemma drain_keeps_out fuel chat_id h w :
  ¬ tracked h w →
  ∃ w', drain fuel chat_id w = (Returned (), w') ∧ keeps_out h w w'
        ∧ (length (levels w) ≤ fuel → levels w' = [])%nat.
Proof.
  revert w. induction fuel as [|fuel IH]; intros w H.
  - exists w. split; [done|]. split; [by apply keeps_out_refl|].
    intros Hl. apply length_zero_iff_nil. lia.
  - cbn [drain]. rewrite bind_run. cbn [get].
    destruct (message_stack (user_data w)) as [[|l stack]|] eqn:E.
    + exists w. split; [done|]. split; [by apply keeps_out_refl|].
      intros _. unfold levels. by rewrite E.
    + destruct (pop_keeps_out chat_id h w H) as (w1 & R1 & K1 & L1).
      rewrite bind_run, R1.
      destruct (IH w1 (proj1 K1)) as (w2 & R2 & K2 & L2).
      exists w2. split; [done|]. split; [by eapply keeps_out_trans|].
      intros Hl. apply L2. lia.
    + exists w. split; [done|]. split; [by apply keeps_out_refl|].
      intros _. unfold levels. by rewrite E.
Qed.

Lemma run_op_keeps_out chat_id op h w :
  ¬ tracked h w → op ≠ RecordMessage h →
  ∃ w', run_op chat_id op w = (Returned (), w') ∧ keeps_out h w w'.
Proof.
  intros H Hop. destruct op as [|h'| |]; cbn [run_op].
  - eexists. split; [reflexivity|]. split.
    + intros (level & Hl & Hh). unfold levels in Hl. cbn in Hl.
      apply elem_of_app in Hl as [Hl|Hl%list_elem_of_singleton].
      * apply H. by exists level.
      * subst. by apply not_elem_of_nil in Hh.
    + exists []. split; [by rewrite app_nil_r|]. intros c Hc. by apply not_elem_of_nil in Hc.
  - destruct (levels_cases w) as [E|(rest & top & E)].
    + exists w. rewrite add_message_to_stack_empty by done.
      split; [done|]. by apply keeps_out_refl.
    + eexists. split; [by apply add_message_to_stack_top|]. split.
      * intros (level & Hl & Hh). unfold levels in Hl. cbn in Hl.
        apply elem_of_app in Hl as [Hl|Hl%list_elem_of_singleton].
        -- apply H. exists level. split; [|done]. unfold levels. rewrite E. cbn.
           apply elem_of_app. by left.
        -- subst. apply elem_of_app in Hh as [Hh|Hh%list_elem_of_singleton]; [|congruence].
           apply H. exists top. split; [|done]. unfold levels. rewrite E. cbn.
           apply elem_of_app. right. by apply list_elem_of_singleton.
      * exists []. split; [by rewrite app_nil_r|]. intros c Hc. by apply not_elem_of_nil in Hc.
  - destruct (pop_keeps_out chat_id h w H) as (w' & R & K & _). by exists w'.
  - unfold drain_all. rewrite bind_run. cbn [get].
    destruct (drain_keeps_out (length (default [] (message_stack (user_data w)))) chat_id h w H)
      as (w' & R & K & _). by exists w'.
Qed.

Lemma run_ops_keeps_out chat_id ops h w :
  ¬ tracked h w → RecordMessage h ∉ ops →
  ∃ w', run_ops chat_id ops w = (Returned (), w') ∧ keeps_out h w w'.
Proof.
  revert w. induction ops as [|op ops IH]; intros w H Hops.
  - exists w. split; [done|]. by apply keeps_out_refl.
  - cbn [run_ops foldr]. rewrite bind_run.
    destruct (run_op_keeps_out chat_id op h w H) as (w1 & R1 & K1).
    { intros ->. apply Hops. by left. }
    rewrite R1.
    destruct (IH w1 (proj1 K1)) as (w2 & R2 & K2).
    { intros Hin. apply Hops. by right. }
    exists w2. split; [done|]. by eapply keeps_out_trans.
Qed.

Lemma pop_shortens chat_id w :
  ∃ w', pop_and_delete_messages chat_id w = (Returned (), w')
        ∧ length (levels w') = pred (length (levels w)).
Proof.
  destruct (levels_cases w) as [E|(rest & top & E)].
  - exists w. rewrite pop_and_delete_messages_empty by done. by rewrite E.
  - eexists. split; [by apply pop_and_delete_messages_top|].
    unfold levels. rewrite E. cbn. rewrite length_app. cbn. lia.
Qed.

Lemma drain_empties fuel chat_id w :
  (length (levels w) ≤ fuel)%nat →
  ∃ w', drain fuel chat_id w = (Returned (), w') ∧ levels w' = [].
Proof.
  revert w. induction fuel as [|fuel IH]; intros w Hl.
  - exists w. split; [done|]. apply length_zero_iff_nil. lia.
  - cbn [drain]. rewrite bind_run. cbn [get]. unfold levels in *.
    destruct (message_stack (user_data w)) as [[|l stack]|] eqn:E;
      [by exists w; rewrite E| |by exists w; rewrite E].
    destruct (pop_shortens chat_id w) as (w1 & R1 & L1).
    rewrite bind_run, R1. apply IH. unfold levels in L1. rewrite E in L1.
    cbn in *. lia.
Qed.

(** After [drain_all] no level is left: the loop runs to its end. *)
Lemma drain_all_empties chat_id w :
  ∃ w', drain_all chat_id w = (Returned (), w') ∧ levels w' = [].
Proof.
  unfold drain_all. rewrite bind_run. cbn [get]. by apply drain_empties.
Qed.

(** C10. With no open level (the stack absent or empty),
    [pop_and_delete_messages] returns without deleting anything and leaves
    the world as it is, and [add_message_to_stack] returns without
    recording the handle; whatever pushes, pops, drains and recordings of
    other handles follow, none of them deletes that handle. *)
Theorem empty_stack_pop_and_record chat_id h w ops :
  levels w = [] →
  RecordMessage h ∉ ops →
  pop_and_delete_messages chat_id w = (Returned (), w)
  ∧ add_message_to_stack h w = (Returned (), w)
  ∧ ∃ w', run_ops chat_id (RecordMessage h :: ops) w = (Returned (), w')
          ∧ ¬ tracked h w'
          ∧ ∃ added, trace w' = trace w ++ added ∧ ∀ c, DeleteMessage c h ∉ added.
Proof.
  intros E Hops.
  split; [by apply pop_and_delete_messages_empty|].
  split; [by apply add_message_to_stack_empty|].
  cbn [run_ops foldr run_op].
  rewrite bind_run, add_message_to_stack_empty by done.
  assert (¬ tracked h w) as H.
  { intros (level & Hl & _). rewrite E in Hl. by apply not_elem_of_nil in Hl. }
  destruct (run_ops_keeps_out chat_id ops h w H Hops) as (w' & R & K1 & K2).
  by exists w'.
Qed.

Lemma empty_stack_pop_and_record_witness :
  levels Sample.fresh = []
  ∧ (RecordMessage 4 ∉ [PushLevel; RecordMessage 5; PopLevel; DrainAll])
  ∧ pop_and_delete_messages 7 Sample.fresh = (Returned (), Sample.fresh)
  ∧ add_message_to_stack 4 Sample.fresh = (Returned (), Sample.fresh)
  ∧ ∃ w', run_ops 7 [RecordMessage 4; PushLevel; RecordMessage 5; PopLevel; DrainAll]
            Sample.fresh = (Returned (), w')
          ∧ ¬ tracked 4 w'.
Proof.
  assert (RecordMessage 4 ∉ [PushLevel; RecordMessage 5; PopLevel; DrainAll]) as Hops.
  { intros H. repeat (apply elem_of_cons in H as [H|H]; [discriminate H|]).
    by apply not_elem_of_nil in H. }
  split; [reflexivity|]. split; [exact Hops|].
  destruct (empty_stack_pop_and_record 7 4 Sample.fresh _ eq_refl Hops)
    as (H1 & H2 & w' & R & Hout & _).
  split; [exact H1|]. split; [exact H2|]. exists w'. by split.
Defined.

(** *** The catalog queries *)

Lemma count_filtered_objects_nonneg d category selected viewed user_id :
  0 ≤ Store.count_filtered_objects d category selected viewed user_id.
Proof.
  unfold Store.count_filtered_objects.
  destruct (Store.filtered_rows _ _ _ _ _ _); lia.
Qed.

Lemma filter_length_le {A} (P Q : A → bool) (l : list A) :
  (∀ x, Q x = true → P x = true) →
  (length (List.filter Q l) ≤ length (List.filter P l))%nat.
Proof.
  intros H. induction l as [|x l IH]; [done|]. cbn.
  destruct (Q x) eqn:E.
  - rewrite (H x E). cbn. lia.
  - destruct (P x); cbn; lia.
Qed.

(** A table the longer list of genres needs is one the shorter needs,
    unless the shorter list is empty. *)
Lemma genre_clauses_subset member d (G1 G2 : list string) has2 :
  G1 ⊆ G2 →
  Store.genre_clauses member d G2 = Some has2 →
  ∃ has1, Store.genre_clauses member d G1 = Some has1
          ∧ ∀ oid, has2 oid = true → has1 oid = true.
Proof.
  intros Hsub. unfold Store.genre_clauses.
  destruct G2 as [|g2 G2].
  { apply list_nil_subseteq in Hsub as ->. intros [= <-]. by eexists. }
  destruct (Store.genres d) as [gs|]; [|done].
  destruct (Store.object_genres d) as [ogs|]; [|done].
  cbn. intros [= <-].
  destruct G1 as [|g1 G1]; [by eexists|].
  eexists. split; [done|]. cbn beta. intros oid H.
  apply forallb_forall. intros g Hg%list_elem_of_In.
  apply (proj1 (forallb_forall _ (g2 :: G2)) H), list_elem_of_In, Hsub, Hg.
Qed.

(** With its tables in place the query counts the rows of the category
    that are linked to every selected genre and, under the viewed filter,
    marked by the user. *)
Lemma count_filtered_objects_all_genres d objs gs ogs vs category G viewed user_id :
  Store.objects d = Some objs → Store.genres d = Some gs →
  Store.object_genres d = Some ogs → Store.user_views d = Some vs →
  Store.count_filtered_objects d category G viewed user_id
  = Z.of_nat (length (List.filter
      (λ r, Store.type_is (Store.category_map category) r
            && forallb (λ g, Store.in_genre gs ogs g (Store.row_id r)) G
            && implb viewed (bool_decide ((user_id, Store.row_id r) ∈ vs))) objs)).
Proof.
  intros Ho Hg Hog Hv.
  unfold Store.count_filtered_objects, Store.filtered_rows, Store.genre_clauses,
    Store.viewed_clause.
  rewrite Ho, Hg, Hog, Hv. by destruct G, viewed.
Qed.

(** C2. With the same category, viewed flag and user, a list of genres
    that contains every genre of another never counts more entries: each
    genre adds a conjunct to the query, so that an entry is counted only if
    it is linked to every genre of the list. *)
Theorem count_filtered_objects_antitone d category (G1 G2 : list string) viewed user_id :
  G1 ⊆ G2 →
  Store.count_filtered_objects d category G2 viewed user_id
  ≤ Store.count_filtered_objects d category G1 viewed user_id
  ∧ ∀ objs gs ogs vs,
      Store.objects d = Some objs → Store.genres d = Some gs →
      Store.object_genres d = Some ogs → Store.user_views d = Some vs →
      Store.count_filtered_objects d category G2 viewed user_id
      = Z.of_nat (length (List.filter
          (λ r, Store.type_is (Store.category_map category) r
                && forallb (λ g, Store.in_genre gs ogs g (Store.row_id r)) G2
                && implb viewed (bool_decide ((user_id, Store.row_id r) ∈ vs))) objs)).
Proof.
  intros Hsub. split; [|intros; by eapply count_filtered_objects_all_genres].
  unfold Store.count_filtered_objects.
  destruct (Store.filtered_rows Store.in_genre d _ G2 viewed user_id) as [rows2|] eqn:E2.
  2:{ destruct (Store.filtered_rows _ _ _ G1 _ _); lia. }
  unfold Store.filtered_rows in *.
  destruct (Store.objects d) as [objs|]; [|done]. cbn in *.
  destruct (Store.genre_clauses Store.in_genre d G2) as [has2|] eqn:EG; [|done].
  destruct (genre_clauses_subset _ _ _ _ _ Hsub EG) as (has1 & -> & Himp).
  cbn in *.
  destruct (Store.viewed_clause d viewed user_id) as [is_viewed|]; [|done].
  cbn in *. injection E2 as <-.
  apply inj_le, filter_length_le. intros r.
  rewrite !andb_true_iff. intros [[? ?] ?]. auto.
Qed.

Lemma count_filtered_objects_antitone_witness :
  ["drama"] ⊆ ["drama"; "comedy"]
  ∧ Store.count_filtered_objects Sample.catalog "films" ["drama"; "comedy"] false 7
    ≤ Store.count_filtered_objects Sample.catalog "films" ["drama"] false 7
  ∧ Store.count_filtered_objects Sample.catalog "films" ["drama"; "comedy"] false 7 = 1.
Proof.
  assert (["drama"] ⊆ ["drama"; "comedy"]) as H.
  { intros g Hg%list_elem_of_singleton. subst. by left. }
  destruct (count_filtered_objects_antitone Sample.catalog "films" _ _ false 7 H)
    as [Hle Hcount].
  split; [exact H|]. split; [exact Hle|].
  rewrite (Hcount _ _ _ _ eq_refl eq_refl eq_refl eq_refl). by vm_compute.
Defined.

(** *** Viewed marks *)

(** Marking an entry that is already marked changes nothing. *)
Lemma record_view_marked d vs user_id oid :
  Store.user_views d = Some vs → Store.read_only d = false → (user_id, oid) ∈ vs →
  Store.record_view user_id oid d = Some d.
Proof.
  destruct d as [o g og v ro]. cbn. intros -> -> Hin.
  unfold Store.record_view, Store.writable. cbn.
  do 3 f_equal. apply set_eq. intros x.
  rewrite elem_of_union, elem_of_singleton. intuition congruence.
Qed.

(** Unmarking an entry that is not marked changes nothing. *)
Lemma clear_view_unmarked d vs user_id oid :
  Store.user_views d = Some vs → Store.read_only d = false → (user_id, oid) ∉ vs →
  Store.clear_view user_id oid d = Some d.
Proof.
  destruct d as [o g og v ro]. cbn. intros -> -> Hin.
  unfold Store.clear_view, Store.writable. cbn.
  do 3 f_equal. apply set_eq. intros x.
  rewrite elem_of_difference, elem_of_singleton. intuition congruence.
Qed.

(** Marking then unmarking an entry that was not marked gives the database
    back. *)
Lemma record_then_clear d vs user_id oid :
  Store.user_views d = Some vs → Store.read_only d = false → (user_id, oid) ∉ vs →
  Store.record_view user_id oid d ≫= Store.clear_view user_id oid = Some d.
Proof.
  destruct d as [o g og v ro]. cbn. intros -> -> Hin.
  unfold Store.record_view, Store.clear_view, Store.writable. cbn.
  do 3 f_equal. apply set_eq. intros x.
  rewrite elem_of_difference, elem_of_union, elem_of_singleton. intuition congruence.
Qed.

(** The viewed mark of user 7 on film 1 is already there: [view] then
    [unview] takes the count under the viewed filter from 1 to 0. *)
Lemma view_unview_of_marked_entry :
  let w := Sample.after ["view:films:1"; "unview:films:1"] Sample.fresh in
  Store.count_filtered_objects (db Sample.fresh) "films" [] true 7 = 1
  ∧ Store.count_filtered_objects (db w) "films" [] true 7 = 0.
Proof. by vm_compute. Qed.

(** C8, amended. For an entry the user has not marked, marking it viewed
    and then unmarking it gives the database back, so that every count
    under the viewed filter is what it was; marking twice is marking once,
    and unmarking an entry that is not marked changes nothing; with the
    table in place and the file writable neither statement raises. *)
Theorem view_then_unview_restores d vs user_id oid :
  Store.user_views d = Some vs → Store.read_only d = false →
  (∃ d1 d2, Store.record_view user_id oid d = Some d1
            ∧ Store.record_view user_id oid d1 = Some d1
            ∧ Store.clear_view user_id oid d1 = Some d2
            ∧ Store.clear_view user_id oid d2 = Some d2
            ∧ ((user_id, oid) ∉ vs →
               d2 = d
               ∧ ∀ category G,
                   Store.count_filtered_objects d2 category G true user_id
                   = Store.count_filtered_objects d category G true user_id))
  ∧ ((user_id, oid) ∈ vs → Store.record_view user_id oid d = Some d)
  ∧ ((user_id, oid) ∉ vs → Store.clear_view user_id oid d = Some d).
Proof.
  intros Hv Hw.
  split; [|split; [by apply record_view_marked|by apply clear_view_unmarked]].
  destruct (Store.record_view user_id oid d) as [d1|] eqn:E1;
    [|by unfold Store.record_view, Store.writable in E1; rewrite Hv, Hw in E1].
  assert (Store.user_views d1 = Some ({[(user_id, oid)]} ∪ vs) ∧ Store.read_only d1 = false)
    as [Hv1 Hw1].
  { unfold Store.record_view, Store.writable in E1. rewrite Hv, Hw in E1.
    cbn in E1. by injection E1 as <-. }
  destruct (Store.clear_view user_id oid d1) as [d2|] eqn:E2;
    [|by unfold Store.clear_view, Store.writable in E2; rewrite Hv1, Hw1 in E2].
  assert (Store.user_views d2 = Some (({[(user_id, oid)]} ∪ vs) ∖ {[(user_id, oid)]})
          ∧ Store.read_only d2 = false) as [Hv2 Hw2].
  { unfold Store.clear_view, Store.writable in E2. rewrite Hv1, Hw1 in E2.
    cbn in E2. by injection E2 as <-. }
  exists d1, d2. split; [done|].
  split; [apply (record_view_marked _ _ _ _ Hv1 Hw1), elem_of_union_l; by apply elem_of_singleton|].
  split; [done|].
  split; [apply (clear_view_unmarked _ _ _ _ Hv2 Hw2);
          rewrite elem_of_difference, elem_of_singleton; intuition congruence|].
  intros Hin.
  assert (d2 = d) as ->; [|done].
  pose proof (record_then_clear d vs user_id oid Hv Hw Hin) as H.
  rewrite E1 in H. cbn in H. congruence.
Qed.

Lemma view_then_unview_restores_witness :
  Store.user_views Sample.catalog = Some {[ (7, 1) ]}
  ∧ Store.read_only Sample.catalog = false
  ∧ ((7, 2) ∉ ({[ (7, 1) ]} : gset (Z * Z)))
  ∧ ((7, 1) ∈ ({[ (7, 1) ]} : gset (Z * Z)))
  ∧ Store.record_view 7 2 Sample.catalog ≫= Store.clear_view 7 2 = Some Sample.catalog
  ∧ Store.record_view 7 1 Sample.catalog = Some Sample.catalog
  ∧ Store.clear_view 7 2 Sample.catalog = Some Sample.catalog.
Proof.
  assert ((7, 2) ∉ ({[ (7, 1) ]} : gset (Z * Z))) as Hout.
  { intros [=]%elem_of_singleton. }
  assert ((7, 1) ∈ ({[ (7, 1) ]} : gset (Z * Z))) as Hin.
  { by apply elem_of_singleton. }
  destruct (view_then_unview_restores Sample.catalog _ 7 2 eq_refl eq_refl)
    as ((d1 & d2 & E1 & _ & E2 & _ & Hback) & _ & Hclear).
  destruct (view_then_unview_restores Sample.catalog _ 7 1 eq_refl eq_refl)
    as (_ & Hrecord & _).
  split; [reflexivity|]. split; [reflexivity|]. split; [exact Hout|]. split; [exact Hin|].
  split; [|split; [exact (Hrecord Hin)|exact (Hclear Hout)]].
  rewrite E1. cbn. rewrite E2. f_equal. exact (proj1 (Hback Hout)).
Defined.

(** *** Reads on a store that fails *)

(** The three query functions catch the failure of their statement. *)
Lemma reads_degrade d category selected viewed user_id :
  (Store.filtered_rows Store.in_genre d (Store.category_map category) selected viewed user_id
   = None → Store.count_filtered_objects d category selected viewed user_id = 0)
  ∧ (Store.objects d = None ∨ Store.genres d = None ∨ Store.object_genres d = None →
     Store.get_available_genres d category selected viewed user_id = []
     ∧ Store.get_category_genres d category = []).
Proof.
  split.
  - unfold Store.count_filtered_objects. by intros ->.
  - intros Hnone.
    unfold Store.get_available_genres, Store.get_category_genres, Store.filtered_rows.
    destruct (Store.genres d), (Store.object_genres d), (Store.objects d); cbn; try done.
    exfalso. destruct Hnone as [|[|]]; congruence.
Qed.

(** *** What a handler leaves alone *)

Section keeps.
Context {X : Type} (f : world → X).

Lemma keeps_ret {A} (a : A) : keeps f (mret a).
Proof. done. Qed.

Lemma keeps_raise {A} e : keeps f (@raise A e).
Proof. done. Qed.

Lemma keeps_bind {A B} (m : handler A) (k : A → handler B) :
  keeps f m → (∀ a, keeps f (k a)) → keeps f (m ≫= k).
Proof.
  intros Hm Hk w. rewrite bind_run. specialize (Hm w).
  destruct (m w) as [[a|e] w']; cbn in *; [|done]. by rewrite Hk.
Qed.

Lemma keeps_try {A} (body recover : handler A) :
  keeps f body → keeps f recover → keeps f (try_operational body recover).
Proof.
  intros Hb Hr w. unfold try_operational. specialize (Hb w).
  destruct (body w) as [[a|[]] w']; cbn in *; try done. by rewrite Hr.
Qed.

Lemma keeps_get : keeps f get.
Proof. done. Qed.

Lemma keeps_storage : keeps f storage.
Proof. done. Qed.

Lemma keeps_is_admin u : keeps f (is_admin u).
Proof. done. Qed.

Lemma keeps_poster_accepted p : keeps f (poster_accepted p).
Proof. done. Qed.

Lemma keeps_executed {A} (r : option A) : keeps f (executed r).
Proof. by destruct r. Qed.

Lemma keeps_item {A} (l : list A) i : keeps f (item l i).
Proof. unfold item. by destruct (l !! i). Qed.

Lemma keeps_key {A} k (v : option A) : keeps f (key k v).
Proof. by destruct v. Qed.

Lemma keeps_subscript {V} outer (d : option (gmap string V)) k : keeps f (subscript outer d k).
Proof. unfold subscript. destruct d as [m|]; [|done]. by destruct (m !! k). Qed.

Lemma keeps_to_int s : keeps f (to_int s).
Proof. unfold to_int. by destruct (Py.int s). Qed.

Lemma keeps_to_float s : keeps f (to_float s).
Proof. unfold to_float. by destruct (Py.float s). Qed.

Lemma keeps_update g : (∀ w, f (with_user_data g w) = f w) → keeps f (update g).
Proof. intros H w. apply H. Qed.

Lemma keeps_emit e : (∀ w, f (with_effect e w) = f w) → keeps f (emit e).
Proof. intros H w. apply H. Qed.

Lemma keeps_sent mk :
  (∀ e w, f (with_next_id (with_effect e w)) = f w) → keeps f (sent mk).
Proof. intros H w. apply H. Qed.

Lemma keeps_delete_messages chat_id ids :
  (∀ e w, f (with_effect e w) = f w) → keeps f (delete_messages chat_id ids).
Proof.
  intros H. induction ids as [|i ids IH]; [done|].
  apply keeps_bind; [by apply keeps_emit|done].
Qed.

End keeps.

(** One step of a proof that a handler keeps an observation: open the
    handler at its head, split sequences, branch on tests. *)
Ltac keeps_step :=
  lazymatch goal with
  | |- keeps _ (mbind _ _) => apply keeps_bind; [|intros ?]
  | |- keeps _ (mret _) => apply keeps_ret
  | |- keeps _ (raise _) => apply keeps_raise
  | |- keeps _ get => apply keeps_get
  | |- keeps _ storage => apply keeps_storage
  | |- keeps _ (is_admin _) => apply keeps_is_admin
  | |- keeps _ (poster_accepted _) => apply keeps_poster_accepted
  | |- keeps _ (executed _) => apply keeps_executed
  | |- keeps _ (item _ _) => apply keeps_item
  | |- keeps _ (key _ _) => apply keeps_key
  | |- keeps _ (subscript _ _ _) => apply keeps_subscript
  | |- keeps _ (to_int _) => apply keeps_to_int
  | |- keeps _ (to_float _) => apply keeps_to_float
  | |- keeps _ (try_operational _ _) => apply keeps_try
  | |- keeps _ (update _) => apply keeps_update; intros ?; cbn; repeat case_match; done
  | |- keeps _ (emit _) => apply keeps_emit; intros ?; done
  | |- keeps _ (sent _) => apply keeps_sent; intros ? ?; done
  | |- keeps _ (delete_messages _ _) => apply keeps_delete_messages; intros ? ?; done
  | |- keeps _ (match ?x with _ => _ end) => destruct x
  | |- keeps _ (let _ := _ in _) => cbv zeta
  | |- keeps _ (pop_and_delete_messages _) => unfold pop_and_delete_messages
  | |- keeps _ push_new_message_level => unfold push_new_message_level
  | |- keeps _ (add_message_to_stack _) => unfold add_message_to_stack
  | |- keeps _ (reply_text _ _) => unfold reply_text
  | |- keeps _ (store_field _) => unfold store_field
  end.

Ltac solve_keeps := repeat keeps_step.

Lemma send_cards_keeps_page chat_id category i objs :
  keeps page_and_size (send_cards chat_id category i objs).
Proof.
  revert i. induction objs as [|o objs IH]; intros i; [done|].
  cbn [send_cards]. do 4 keeps_step.
  { apply keeps_update. intros w. unfold page_and_size. cbn.
    destruct (results_cache (user_data w)); cbn; [|done]. by rewrite length_alter. }
  solve_keeps. apply IH.
Qed.

Lemma send_paginated_results_keeps_page chat_id category :
  keeps page_and_size (send_paginated_results chat_id category).
Proof.
  unfold send_paginated_results. solve_keeps; apply send_cards_keeps_page.
Qed.

Lemma send_cards_keeps_filters chat_id category i objs :
  keeps filters (send_cards chat_id category i objs).
Proof.
  revert i. induction objs as [|o objs IH]; intros i; [done|].
  cbn [send_cards]. solve_keeps. apply IH.
Qed.

Lemma send_cards_keeps_db chat_id category i objs :
  keeps db (send_cards chat_id category i objs).
Proof.
  revert i. induction objs as [|o objs IH]; intros i; [done|].
  cbn [send_cards]. solve_keeps. apply IH.
Qed.

Lemma send_paginated_results_keeps_filters chat_id category :
  keeps filters (send_paginated_results chat_id category).
Proof.
  unfold send_paginated_results. solve_keeps; apply send_cards_keeps_filters.
Qed.

Lemma send_paginated_results_keeps_db chat_id category :
  keeps db (send_paginated_results chat_id category).
Proof.
  unfold send_paginated_results. solve_keeps; apply send_cards_keeps_db.
Qed.

(** *** The dispatcher *)

Lemma item_action payload w :
  item (Py.split ":" payload) 0 w = (Returned (action_of payload), w).
Proof.
  unfold item, action_of. pose proof (split_not_nil ":" payload) as H.
  by destruct (Py.split ":" payload).
Qed.

(** C9. A payload whose action is none of those [button] tests for is
    acknowledged to the transport and otherwise ignored: [button] returns
    [None] and the session, the database and the stack are as before. *)
Theorem unknown_action_ignored query w :
  action_of (data query) ∉ recognized →
  button query w = (Returned None, with_effect (Answer None) w).
Proof.
  intros H. unfold recognized in H.
  repeat (apply not_elem_of_cons in H as [?%String.eqb_neq H]).
  unfold button. rewrite bind_run. cbn [emit].
  rewrite bind_run, item_action.
  repeat match goal with E : String.eqb _ _ = false |- _ => rewrite E; clear E end.
  reflexivity.
Qed.

Lemma unknown_action_ignored_witness :
  (action_of "bogus:1:2" ∉ recognized)
  ∧ button (Sample.press "bogus:1:2") Sample.fresh
    = (Returned None, with_effect (Answer None) Sample.fresh).
Proof.
  assert (action_of "bogus:1:2" ∉ recognized) as H.
  { intros H. repeat (apply elem_of_cons in H as [H|H]; [discriminate H|]).
    by apply not_elem_of_nil in H. }
  split; [exact H|].
  exact (unknown_action_ignored (Sample.press "bogus:1:2") Sample.fresh H).
Defined.

(** *** Genre toggles *)

Lemma bind_keeps_tail {X A B} (f : world → X) (m : handler A) (k : A → handler B) w :
  (∀ a, keeps f (k a)) → f ((m ≫= k) w).2 = f (m w).2.
Proof.
  intros Hk. rewrite bind_run. destruct (m w) as [[a|e] w']; [|done]. apply Hk.
Qed.

(** Runs a handler made of primitive steps on an explicit world. *)
Ltac run :=
  repeat (rewrite ?bind_run;
          cbn [mret handler_ret raise update get emit storage item key subscript
               lookup list_lookup with_user_data with_effect user_data fst snd
               selected_genres viewed_filter results_cache results_page message_stack
               new_object set_selected_genres set_viewed_filter set_results_cache
               set_results_page set_message_stack set_new_object set_current_category
               default from_option id fmap option_fmap option_map]).

(** The same, using the lookups known from the context. *)
Ltac run_maps :=
  repeat (progress (run;
                    repeat match goal with
                           | H : _ !! _ = _ |- _ => progress rewrite H
                           end;
                    rewrite ?lookup_insert_eq, ?lookup_singleton_eq)).

Lemma on_genre_selected query a category genre rest w :
  selected_genres (user_data (on_genre query (a :: category :: genre :: rest) w).2)
  = toggled category genre (selected_genres (user_data w)).
Proof.
  destruct w as [[st cc sg vf rc rp pe eo ec ef] d ad tr n p].
  unfold on_genre, toggled. run.
  destruct sg as [m|], vf as [v|]; run.
  all: destruct (String.eqb genre "_viewed_"); run_maps.
  all: try (destruct (m !! category) as [l|] eqn:El; run_maps).
  all: try (destruct (v !! category) as [b|] eqn:Eb; run_maps).
  all: try done.
  all: try (destruct (Py.contains genre l); run_maps; done).
  all: cbn [Py.contains existsb app]; run_maps; try done.
  all: destruct (v !! category) as [b|] eqn:Eb; run_maps; done.
Qed.

(** [genre in l] *)
Lemma contains_elem_of (g : string) (l : list string) : Py.contains g l = true ↔ g ∈ l.
Proof.
  unfold Py.contains. rewrite existsb_exists. split.
  - intros (x & Hx%list_elem_of_In & ->%String.eqb_eq). done.
  - intros H. exists g. split; [by apply list_elem_of_In|apply String.eqb_refl].
Qed.

Lemma contains_not_elem_of (g : string) (l : list string) : Py.contains g l = false ↔ g ∉ l.
Proof. rewrite <- contains_elem_of. by destruct (Py.contains g l). Qed.

Lemma elem_of_remove (g x : string) (l : list string) :
  NoDup l → x ∈ Py.remove g l ↔ x ∈ l ∧ x ≠ g.
Proof.
  induction l as [|y l IH]; intros Hl.
  - cbn. split; [by intros ?%not_elem_of_nil|by intros [?%not_elem_of_nil _]].
  - apply NoDup_cons in Hl as [Hy Hl]. cbn [Py.remove].
    destruct (String.eqb y g) eqn:E.
    + apply String.eqb_eq in E as ->. rewrite elem_of_cons.
      split; [intros H; split; [by right|by intros ->]|intros [[->|H] Hne]; done].
    + apply String.eqb_neq in E. rewrite !elem_of_cons, (IH Hl).
      split; [intros [->|[? ?]]; auto|intros [[->|?] ?]; auto].
Qed.

Lemma remove_snoc (g : string) (l : list string) : g ∉ l → Py.remove g (l ++ [g]) = l.
Proof.
  induction l as [|y l IH]; intros H; cbn.
  - by rewrite String.eqb_refl.
  - apply not_elem_of_cons in H as [Hne H].
    destruct (String.eqb y g) eqn:E; [by apply String.eqb_eq in E as ->|].
    by rewrite IH.
Qed.

Lemma NoDup_remove (g : string) (l : list string) : NoDup l → NoDup (Py.remove g l).
Proof.
  induction l as [|y l IH]; intros Hl; [done|].
  apply NoDup_cons in Hl as [Hy Hl]. cbn.
  destruct (String.eqb y g); [done|].
  apply NoDup_cons. split; [|by apply IH].
  rewrite elem_of_remove by done. by intros [? _].
Qed.

Lemma toggle_NoDup g l : NoDup l → NoDup (toggle g l).
Proof.
  intros Hl. unfold toggle. destruct (Py.contains g l) eqn:E.
  - by apply NoDup_remove.
  - apply contains_not_elem_of in E. apply NoDup_app. split; [done|].
    split; [by intros x Hx ->%list_elem_of_singleton|apply NoDup_singleton].
Qed.

Lemma toggle_present g l :
  NoDup l → g ∈ l → list_to_set (toggle g l) =@{gset string} list_to_set l ∖ {[ g ]}.
Proof.
  intros Hl Hg. unfold toggle. rewrite (proj2 (contains_elem_of g l) Hg).
  apply set_eq. intros x.
  rewrite elem_of_difference, !elem_of_list_to_set, elem_of_singleton.
  by apply elem_of_remove.
Qed.

Lemma toggle_absent g l :
  g ∉ l → list_to_set (toggle g l) =@{gset string} list_to_set l ∪ {[ g ]}.
Proof.
  intros Hg. unfold toggle. rewrite (proj2 (contains_not_elem_of g l) Hg).
  apply set_eq. intros x.
  by rewrite elem_of_union, !elem_of_list_to_set, elem_of_app, list_elem_of_singleton,
    elem_of_singleton.
Qed.

Lemma toggle_twice g l :
  NoDup l → list_to_set (toggle g (toggle g l)) =@{gset string} list_to_set l.
Proof.
  intros Hl. destruct (decide (g ∈ l)) as [Hg|Hg].
  - rewrite toggle_absent, toggle_present by
      (try done; unfold toggle; rewrite (proj2 (contains_elem_of g l) Hg);
       rewrite elem_of_remove by done; by intros [_ ?]).
    apply set_eq. intros x.
    rewrite elem_of_union, elem_of_difference, elem_of_singleton, !elem_of_list_to_set.
    destruct (decide (x = g)) as [->|]; intuition.
  - unfold toggle at 2. rewrite (proj2 (contains_not_elem_of g l) Hg).
    unfold toggle.
    assert (Py.contains g (l ++ [g]) = true) as ->.
    { apply contains_elem_of, elem_of_app. right. by apply list_elem_of_singleton. }
    by rewrite remove_snoc.
Qed.

Lemma list_of_toggled category genre selected :
  list_of (toggled category genre selected) category
  = if String.eqb genre "_viewed_" then list_of selected category
    else match selected with
         | Some m => match m !! category with
                     | Some l => toggle genre l
                     | None => []
                     end
         | None => [genre]
         end.
Proof.
  unfold toggled, list_of, toggle.
  destruct (String.eqb genre "_viewed_"), selected as [m|]; cbn.
  - done.
  - by rewrite lookup_singleton_eq.
  - destruct (m !! category) as [l|] eqn:E; cbn; [by rewrite lookup_insert_eq|by rewrite E].
  - rewrite lookup_singleton_eq. cbn. by rewrite lookup_insert_eq.
Qed.

Lemma list_of_toggled_other category genre selected other :
  other ≠ category →
  list_of (toggled category genre selected) other = list_of selected other.
Proof.
  intros Hne. unfold toggled, list_of.
  destruct (String.eqb genre "_viewed_"), selected as [m|]; cbn; try done.
  - by rewrite lookup_singleton_ne.
  - destruct (m !! category) as [l|] eqn:E; cbn; [by rewrite lookup_insert_ne|done].
  - rewrite lookup_singleton_eq. cbn.
    by rewrite lookup_insert_ne, lookup_singleton_ne.
Qed.

(** After a toggle the mapping is there; what it holds for the category. *)
Lemma toggled_lookup category genre selected :
  ∃ m, toggled category genre selected = Some m
       ∧ m !! category
         = (if String.eqb genre "_viewed_" then id else toggle genre)
             <$> (default {[ category := [] ]} selected !! category).
Proof.
  unfold toggled, toggle. destruct (String.eqb genre "_viewed_").
  - eexists. split; [done|]. by destruct (_ !! category).
  - destruct (default {[ category := [] ]} selected !! category) as [l|] eqn:E.
    + eexists. split; [done|]. by rewrite lookup_insert_eq.
    + eexists. split; [done|]. by rewrite E.
Qed.

Lemma toggled_twice category genre selected :
  NoDup (list_of selected category) →
  list_to_set (list_of (toggled category genre (toggled category genre selected)) category)
  =@{gset string} list_to_set (list_of selected category).
Proof.
  intros Hl.
  destruct (toggled_lookup category genre selected) as (m1 & E1 & L1).
  destruct (toggled_lookup category genre (Some m1)) as (m2 & E2 & L2).
  rewrite E1, E2. unfold list_of in *. cbn in *. rewrite L2, L1.
  destruct selected as [m|]; cbn in *.
  - destruct (m !! category) as [l|]; cbn in *; [|done].
    destruct (String.eqb genre "_viewed_"); [done|]. by apply toggle_twice.
  - rewrite lookup_singleton_eq. cbn.
    destruct (String.eqb genre "_viewed_"); [done|]. by apply toggle_twice.
Qed.

Lemma toggled_distinct category genre selected other :
  NoDup (list_of selected other) →
  NoDup (list_of (toggled category genre selected) other).
Proof.
  intros Hl. destruct (decide (other = category)) as [->|Hne];
    [|by rewrite list_of_toggled_other].
  rewrite list_of_toggled. destruct (String.eqb genre "_viewed_"); [done|].
  unfold list_of in Hl. destruct selected as [m|]; cbn in *.
  - destruct (m !! category) as [l|]; cbn in *; [by apply toggle_NoDup|apply NoDup_nil_2].
  - apply NoDup_singleton.
Qed.

(** A [genre:<category>:<genre>] press reaches [on_genre], after the
    acknowledgement. *)
Lemma button_genre query category genre rest w :
  Py.split ":" (data query) = "genre" :: category :: genre :: rest →
  button query w
  = on_genre query ("genre" :: category :: genre :: rest) (with_effect (Answer None) w).
Proof. intros E. unfold button. by rewrite E. Qed.

Lemma button_genre_selected query category genre rest w :
  Py.split ":" (data query) = "genre" :: category :: genre :: rest →
  selected_genres (user_data (button query w).2)
  = toggled category genre (selected_genres (user_data w)).
Proof. intros E. by rewrite (button_genre _ _ _ _ _ E), on_genre_selected. Qed.

(** C6. Pressing the same genre button twice in a row leaves the set of
    genres selected for the category as it was; where the category has its
    list (or no category has one yet), one press removes a genre that is
    selected and adds one that is not. *)
Theorem toggle_twice_restores query category genre rest w :
  Py.split ":" (data query) = "genre" :: category :: genre :: rest →
  NoDup (selected_list w category) →
  let w1 := (button query w).2 in
  let w2 := (button query w1).2 in
  selected_set w2 category = selected_set w category
  ∧ (genre ≠ "_viewed_" →
     (∀ m, selected_genres (user_data w) = Some m → is_Some (m !! category)) →
     (genre ∈ selected_set w category →
      selected_set w1 category = selected_set w category ∖ {[ genre ]})
     ∧ (genre ∉ selected_set w category →
        selected_set w1 category = selected_set w category ∪ {[ genre ]})).
Proof.
  intros E Hl w1 w2. unfold selected_set, selected_list in *.
  change (default [] (default ∅ ?s !! category)) with (list_of s category) in *.
  subst w1 w2. rewrite !(button_genre_selected _ _ _ _ _ E).
  split; [by apply toggled_twice|].
  intros Hg%String.eqb_neq Hkey. rewrite list_of_toggled, Hg.
  destruct (selected_genres (user_data w)) as [m|] eqn:Es.
  - destruct (Hkey m eq_refl) as [l El]. unfold list_of in *. cbn in *.
    rewrite El in *. cbn in *. rewrite !elem_of_list_to_set.
    split; [by apply toggle_present|by apply toggle_absent].
  - unfold list_of. cbn. rewrite lookup_empty. cbn.
    split; [by intros ?%not_elem_of_empty|]. intros _.
    apply (toggle_absent genre []), not_elem_of_nil.
Qed.

Lemma toggle_twice_restores_witness :
  Py.split ":" (data (Sample.press "genre:films:drama")) = ["genre"; "films"; "drama"]
  ∧ NoDup (selected_list Sample.fresh "films")
  ∧ "drama" ≠ "_viewed_"
  ∧ ("drama" ∉ selected_set Sample.fresh "films")
  ∧ selected_set
      (Sample.after ["genre:films:drama"; "genre:films:drama"] Sample.fresh) "films"
    = selected_set Sample.fresh "films"
  ∧ selected_set (Sample.after ["genre:films:drama"] Sample.fresh) "films"
    = selected_set Sample.fresh "films" ∪ {[ "drama" ]}.
Proof.
  assert ("drama" ≠ "_viewed_") as Hne by discriminate.
  assert ("drama" ∉ selected_set Sample.fresh "films") as Hout
    by apply not_elem_of_empty.
  destruct (toggle_twice_restores (Sample.press "genre:films:drama") "films" "drama" []
              Sample.fresh eq_refl (NoDup_nil_2 (A:=string))) as [Htwice Honce].
  split; [reflexivity|]. split; [apply NoDup_nil_2|]. split; [exact Hne|].
  split; [exact Hout|]. split; [exact Htwice|].
  refine (proj2 (Honce Hne _) Hout). intros m. discriminate.
Defined.

(** *** Categories that were never opened *)

(** C7, at the failing input. After [category:films] both mappings exist
    and hold the key ["films"] only; a press of a genre button of another
    category then raises [KeyError], for a genre and for the viewed toggle
    alike. *)
Theorem genre_press_on_unopened_category :
  let w := Sample.after ["category:films"] Sample.fresh in
  (dom <$> selected_genres (user_data w)) = Some {[ "films" ]}
  ∧ (dom <$> viewed_filter (user_data w)) = Some {[ "films" ]}
  ∧ (button (Sample.press "genre:books:drama") w).1 = Raised (Py.KeyError "books")
  ∧ (button (Sample.press "genre:books:_viewed_") w).1 = Raised (Py.KeyError "books").
Proof. by vm_compute. Qed.

(** *** Pagination *)

Lemma keeps_apply {X A} (f : world → X) (h : handler A) w : keeps f h → f (h w).2 = f w.
Proof. intros H. apply H. Qed.


Lemma total_pages_bound (n p : Z) :
  0 ≤ n → (0 ≤ p < (n + PAGE_SIZE - 1) / PAGE_SIZE ↔ 0 ≤ p ∧ p * PAGE_SIZE < n).
Proof.
  unfold PAGE_SIZE. intros Hn. split.
  - intros [H0 H]. split; [done|].
    assert (p + 1 ≤ (n + 5 - 1) / 5) as H1 by lia.
    pose proof (Z.mul_div_le (n + 5 - 1) 5 ltac:(lia)). lia.
  - intros [H0 H]. split; [done|].
    apply Z.lt_le_trans with ((p * 5 + 5) / 5).
    + rewrite Z.div_add_l by lia. change (5 / 5) with 1. lia.
    + apply Z.div_le_mono; lia.
Qed.

Lemma slice_beyond {A} (l : list A) (start stop : Z) :
  Z.of_nat (length l) ≤ start → Py.slice l start stop = [].
Proof.
  intros H. unfold Py.slice, Py.clamp_index.
  assert ((start <? 0) = false) as -> by lia.
  rewrite drop_ge; [by rewrite take_nil|lia].
Qed.



(** A [page:<category>:<n>] press reaches [on_page]. *)
Lemma button_page query category t rest w :
  Py.split ":" (data query) = "page" :: category :: t :: rest →
  button query w
  = on_page query ("page" :: category :: t :: rest) (with_effect (Answer None) w).
Proof. intros E. unfold button. by rewrite E. Qed.


Lemma on_page_page_and_size query a category t rest p w :
  Py.int t = Some p →
  page_and_size (on_page query (a :: category :: t :: rest) w).2
  = (Some p, length <$> results_cache (user_data w)).
Proof.
  intros Hp. unfold on_page.
  rewrite bind_run. cbn [item lookup list_lookup mret handler_ret].
  rewrite bind_run, bind_run. cbn [item lookup list_lookup mret handler_ret].
  unfold to_int. rewrite Hp. cbn [mret handler_ret].
  rewrite bind_run. cbn [update].
  rewrite keeps_apply; [done|].
  solve_keeps; apply send_paginated_results_keeps_page.
Qed.






(** *** Numbers in the data-entry conversation *)


Lemma replace_idempotent old new s :
  old ≠ new → Py.replace old new (Py.replace old new s) = Py.replace old new s.
Proof.
  intros Hne. induction s as [|c s IH]; [done|]. cbn. rewrite IH. f_equal.
  destruct (Ascii.eqb c old) eqn:E; [|by rewrite E].
  assert (Ascii.eqb new old = false) as ->; [|done].
  apply Ascii.eqb_neq. congruence.
Qed.




Lemma strip_no_space s : no_space s = true → Py.strip s = s.
Proof.
  intros H. unfold Py.strip.
  assert (Py.lstrip s = s) as ->.
  { destruct s as [|c s]; [done|]. cbn in *. by destruct (Py.is_space c). }
  induction s as [|c s IH]; [done|]. cbn in *.
  apply andb_true_iff in H as [Hc Hs]. rewrite (IH Hs).
  destruct s; [|done]. by destruct (Py.is_space c).
Qed.

Lemma append_cons c s t : (String c s ++ t)%string = String c (s ++ t)%string.
Proof. reflexivity. Qed.












(** *** A store that fails *)

(** The [select] action runs its statement outside any [try]. *)
Lemma on_select_propagates query a category rest w :
  Store.select_filtered (db w) category (selected_list w category)
    (default false (default ∅ (viewed_filter (user_data w)) !! category))
    (chat_id query) = None →
  on_select query (a :: category :: rest) w = (Raised Py.OperationalError, w).
Proof.
  intros H. unfold on_select.
  rewrite bind_run. cbn [item lookup list_lookup mret handler_ret].
  rewrite bind_run. cbn [get]. cbv zeta. rewrite bind_run. cbn [storage].
  rewrite bind_run. unfold selected_list in H. by rewrite H.
Qed.

(** C4, at the failing input. Over a database file without tables the
    three query functions give the empty result for every argument, and
    the genre screen of a category is rendered with "nothing found"; the
    press [select:films] on that screen raises [OperationalError], and no
    result screen is rendered. *)
Theorem select_propagates_storage_failure :
  (∀ category selected viewed user_id,
     Store.count_filtered_objects Store.no_tables category selected viewed user_id = 0
     ∧ Store.get_available_genres Store.no_tables category selected viewed user_id = []
     ∧ Store.get_category_genres Store.no_tables category = [])
  ∧ (let r := button (Sample.press "category:films") Sample.unset in
     r.1 = Returned None
     ∧ last (trace r.2)
       = Some (SendMessage 7 100 NothingForFilters
                 (Some [[CbGenre "films" "_viewed_"]; [CbSelect "films"];
                        [CbBackRecommendations]])))
  ∧ (let w := Sample.after ["category:films"] Sample.unset in
     let r := button (Sample.press "select:films") w in
     Store.select_filtered (db w) "films" [] false 7 = None
     ∧ r.1 = Raised Py.OperationalError
     ∧ r.2 = with_effect (Answer None) w).
Proof.
  split; [|split].
  - intros category selected viewed user_id. by destruct selected, viewed.
  - by vm_compute.
  - by vm_compute.
Qed.

(** C5, at the failing input. Over a database file without tables the
    presses [view], [unview] and, by a privileged user, [delete] raise
    [OperationalError] at their first statement: the schema is not set up,
    nothing is retried, no notice is sent, the database is as before.  The
    last step of the data entry over the same file does set the schema up
    and insert again, once; over a file that cannot be written its second
    attempt fails too and the notice is sent. *)
Theorem writes_without_retry :
  (∀ query, query ∈ [Sample.press "view:films:1"; Sample.press "unview:films:1";
                     Sample.admin_press "delete:films:1"] →
     button query Sample.unset
     = (Raised Py.OperationalError, with_effect (Answer None) Sample.unset))
  ∧ (let w := Sample.world_of (set_new_object (Some Sample.entry) cleared) Store.no_tables in
     let r := add_genres (Sample.says "drama, thriller") w in
     r.1 = Returned END
     ∧ trace r.2 = [SetupDatabase; Commit; SendMessage 7 100 ObjectAdded None]
     ∧ Store.row_id <$> default [] (Store.objects (db r.2)) = [1]
     ∧ Store.genres (db r.2)
       = Some [ {| Store.genre_id := 1; Store.name := "drama" |};
                {| Store.genre_id := 2; Store.name := "thriller" |} ]
     ∧ Store.object_genres (db r.2) = Some [(1, 1); (1, 2)]
     ∧ new_object (user_data r.2) = None)
  ∧ (let w := Sample.world_of (set_new_object (Some Sample.entry) cleared) Sample.locked in
     let r := add_genres (Sample.says "drama, thriller") w in
     r.1 = Returned END
     ∧ trace r.2 = [SetupDatabase; SendMessage 7 100 AddFailedAfterSetup None]
     ∧ db r.2 = Sample.locked
     ∧ new_object (user_data r.2) = None).
Proof.
  split; [|split].
  - intros query H.
    repeat (apply elem_of_cons in H as [->|H]; [by vm_compute|]).
    by apply not_elem_of_nil in H.
  - by vm_compute.
  - by vm_compute.
Qed.

(** *** The presses that mark and unmark *)

Lemma keeps_commit {X} (f : world → X) d :
  (∀ w, f (with_effect Commit (with_db d w)) = f w) → keeps f (commit d).
Proof. intros H w. apply H. Qed.

Lemma refresh_card_keeps_db query category object_id now_viewed :
  keeps db (refresh_card query category object_id now_viewed).
Proof. unfold refresh_card. solve_keeps. Qed.

(** A [view] press commits [record_view] for the presser, whatever the
    refresh of the card does afterwards. *)
Lemma button_view_db query category t rest oid d w :
  Py.split ":" (data query) = "view" :: category :: t :: rest →
  Py.int t = Some oid →
  Store.record_view (from_user query) oid (db w) = Some d →
  db (button query w).2 = d.
Proof.
  intros E Ht Hd. unfold button. rewrite E.
  change (db (on_view query ("view" :: category :: t :: rest)
                (with_effect (Answer None) w)).2 = d).
  unfold on_view.
  rewrite bind_run. cbn [item lookup list_lookup mret handler_ret].
  rewrite bind_run, bind_run. cbn [item lookup list_lookup mret handler_ret].
  unfold to_int. rewrite Ht. cbn [mret handler_ret]. cbv zeta.
  rewrite bind_run. cbn [storage]. rewrite bind_run. cbn [with_effect db].
  rewrite Hd. cbn [executed mret handler_ret].
  rewrite bind_run. cbn [commit].
  rewrite keeps_apply; [done|].
  solve_keeps. apply refresh_card_keeps_db.
Qed.

(** An [unview] press commits [clear_view] for the presser. *)
Lemma button_unview_db query category t rest oid d w :
  Py.split ":" (data query) = "unview" :: category :: t :: rest →
  Py.int t = Some oid →
  Store.clear_view (from_user query) oid (db w) = Some d →
  db (button query w).2 = d.
Proof.
  intros E Ht Hd. unfold button. rewrite E.
  change (db (on_unview query ("unview" :: category :: t :: rest)
                (with_effect (Answer None) w)).2 = d).
  unfold on_unview.
  rewrite bind_run. cbn [item lookup list_lookup mret handler_ret].
  rewrite bind_run, bind_run. cbn [item lookup list_lookup mret handler_ret].
  unfold to_int. rewrite Ht. cbn [mret handler_ret]. cbv zeta.
  rewrite bind_run. cbn [storage]. rewrite bind_run. cbn [with_effect db].
  rewrite Hd. cbn [executed mret handler_ret].
  rewrite bind_run. cbn [commit].
  rewrite keeps_apply; [done|].
  solve_keeps. apply refresh_card_keeps_db.
Qed.

(** *** Opening a category *)

Lemma opened_lookup {V} (v : V) k m : is_Some (opened v k m !! k).
Proof.
  unfold opened. destruct (m !! k) eqn:E; [by rewrite E|].
  rewrite lookup_insert_eq. by eexists.
Qed.

Lemma opened_lookup_other {V} (v : V) k k' m : k ≠ k' → opened v k m !! k' = m !! k'.
Proof.
  intros Hne. unfold opened. destruct (m !! k); [done|]. by rewrite lookup_insert_ne.
Qed.

Lemma returns_bind {A B} (m : handler A) (k : A → handler B) :
  returns m → (∀ a, returns (k a)) → returns (m ≫= k).
Proof.
  intros Hm Hk w. rewrite bind_run. destruct (Hm w) as [a Ha].
  destruct (m w) as [[a'|e] w']; [|done]. apply Hk.
Qed.

Lemma ends_with_bind {A B} (v : B) (m : handler A) (k : A → handler B) :
  returns m → (∀ a, ends_with v (k a)) → ends_with v (m ≫= k).
Proof.
  intros Hm Hk w. rewrite bind_run. destruct (Hm w) as [a Ha].
  destruct (m w) as [[a'|e] w']; [|done]. apply Hk.
Qed.

Lemma returns_delete_messages chat_id ids : returns (delete_messages chat_id ids).
Proof. intros w. rewrite delete_messages_run. by eexists. Qed.

Lemma returns_pop chat_id : returns (pop_and_delete_messages chat_id).
Proof. intros w. destruct (pop_shortens chat_id w) as (w' & -> & _). by eexists. Qed.

Lemma returns_add_message h : returns (add_message_to_stack h).
Proof.
  intros w. destruct (levels_cases w) as [E|(rest & top & E)].
  - rewrite add_message_to_stack_empty by done. by eexists.
  - erewrite add_message_to_stack_top by done. by eexists.
Qed.

(** The category branch opens the category in both mappings, whatever was
    there, and returns. *)
Lemma on_category_opens query a category rest w :
  ∃ w', on_category query (a :: category :: rest) w = (Returned None, w')
        ∧ selected_genres (user_data w')
          = Some (opened [] category (default ∅ (selected_genres (user_data w))))
        ∧ viewed_filter (user_data w')
          = Some (opened false category (default ∅ (viewed_filter (user_data w)))).
Proof.
  unfold on_category.
  rewrite bind_run. cbn [item lookup list_lookup mret handler_ret].
  rewrite bind_run. cbn [update]. rewrite bind_run. cbn [update].
  rewrite bind_run. cbn [update]. rewrite bind_run. cbn [get].
  set (w3 := with_user_data _ (with_user_data _ (with_user_data _ w))).
  assert (selected_genres (user_data w3)
          = Some (opened [] category (default ∅ (selected_genres (user_data w))))) as Es
    by reflexivity.
  assert (viewed_filter (user_data w3)
          = Some (opened false category (default ∅ (viewed_filter (user_data w))))) as Ev
    by reflexivity.
  rewrite Es, Ev. unfold subscript.
  destruct (opened_lookup (V:=list string) [] category
              (default ∅ (selected_genres (user_data w)))) as [l ->].
  destruct (opened_lookup false category
              (default ∅ (viewed_filter (user_data w)))) as [b ->].
  rewrite bind_run. cbn [mret handler_ret]. rewrite bind_run. cbn [mret handler_ret].
  cbv zeta. rewrite bind_run. cbn [storage].
  match goal with
  | |- ∃ w', ?h ?w0 = _ ∧ _ =>
      assert (ends_with None h) as Hend;
      [|assert (keeps filters h) as Hkeep by solve_keeps]
  end.
  { repeat (apply ends_with_bind; [|intros ?]);
      try apply returns_pop; try apply returns_add_message;
      try (intros w0; by eexists). }
  destruct (Hend w3) as [w' R]. exists w'. split; [exact R|].
  specialize (Hkeep w3). rewrite R in Hkeep. injection Hkeep as H1 H2.
  cbn [snd] in *. by rewrite H1, H2.
Qed.

(** *** No genre is selected twice *)

Lemma preserves_bind {A B} P (m : handler A) (k : A → handler B) :
  preserves P m → (∀ a, preserves P (k a)) → preserves P (m ≫= k).
Proof.
  intros Hm Hk w Hw. rewrite bind_run. specialize (Hm w Hw).
  destruct (m w) as [[a|e] w']; [|done]. by apply Hk.
Qed.

Lemma preserves_distinct_keeps {A} (h : handler A) :
  keeps filters h → preserves genres_distinct h.
Proof.
  intros Hk w Hw category. specialize (Hk w). injection Hk as Hs _.
  unfold selected_list. rewrite Hs. apply Hw.
Qed.

Lemma on_genre_distinct query parts : preserves genres_distinct (on_genre query parts).
Proof.
  intros w Hw. destruct parts as [|a [|category [|genre rest]]]; try done.
  intros other. unfold selected_list. rewrite on_genre_selected.
  apply toggled_distinct, Hw.
Qed.

Lemma on_category_distinct query parts : preserves genres_distinct (on_category query parts).
Proof.
  intros w Hw. destruct parts as [|a [|category rest]]; try done.
  destruct (on_category_opens query a category rest w) as (w' & -> & Es & _).
  intros other. unfold selected_list. cbn [snd]. rewrite Es. cbn.
  destruct (decide (category = other)) as [->|Hne].
  - unfold opened.
    destruct (default ∅ (selected_genres (user_data w)) !! other) as [l|] eqn:E.
    + rewrite E. cbn. specialize (Hw other). unfold selected_list in Hw. by rewrite E in Hw.
    + rewrite lookup_insert_eq. apply NoDup_nil_2.
  - rewrite opened_lookup_other by done. apply Hw.
Qed.

(** No genre is selected twice, from the start and after every button
    press. *)
Lemma button_distinct query : preserves genres_distinct (button query).
Proof.
  unfold button.
  repeat first
    [ apply on_genre_distinct
    | apply on_category_distinct
    | match goal with |- preserves _ (mbind _ _) => apply preserves_bind; [|intros ?] end
    | match goal with |- preserves _ (if ?b then _ else _) => destruct b end
    | apply preserves_distinct_keeps; unfold on_delete, on_select, on_page, on_view,
        on_unview, on_back, refresh_card;
      repeat first [ apply send_paginated_results_keeps_filters
                   | apply keeps_commit; intros ?; done
                   | match goal with |- keeps _ (if ?b then _ else _) => destruct b end
                   | keeps_step ] ].
Qed.

Lemma cleared_distinct d : genres_distinct (Sample.world_of cleared d).
Proof. intros category. apply NoDup_nil_2. Qed.

Lemma after_distinct payloads w : genres_distinct w → genres_distinct (Sample.after payloads w).
Proof.
  revert w. induction payloads as [|p payloads IH]; intros w Hw; [done|].
  cbn. by apply IH, button_distinct.
Qed.

(** *** The other handlers leave the filters alone *)

Lemma keeps_created {X} (f : world → X) d :
  (∀ w, f (with_db d w) = f w) → keeps f (created d).
Proof. intros H w. apply H. Qed.

Lemma drain_keeps_filters fuel chat_id : keeps filters (drain fuel chat_id).
Proof.
  induction fuel as [|fuel IH]; [done|]. cbn [drain]. solve_keeps. apply IH.
Qed.

Lemma link_genres_keeps_filters object_db_id genre_names d :
  keeps filters (link_genres object_db_id genre_names d).
Proof.
  revert d. induction genre_names as [|g genre_names IH]; intros d; [done|].
  cbn [link_genres]. solve_keeps. apply IH.
Qed.

Lemma insert_new_object_keeps_filters m new_obj :
  keeps filters (insert_new_object m new_obj).
Proof.
  unfold insert_new_object.
  repeat first [ apply link_genres_keeps_filters
               | apply keeps_commit; intros ?; done
               | keeps_step ].
Qed.

(** The callbacks of the data-entry conversation do not touch the
    filters. *)
Lemma text_callback_keeps_filters s callback m :
  text_callback s = Some callback → keeps filters (callback m).
Proof.
  destruct s; intros [= <-];
    unfold add_name, add_year, add_description, add_url, add_image, add_admin_rating,
      add_site_rating, add_genres, run_setup_database;
    repeat first [ apply insert_new_object_keeps_filters
                 | apply keeps_created; intros ?; done
                 | keeps_step ].
Qed.

(** [show_recommendations] keeps the filters; [start] and
    [go_to_main_menu] clear them. *)
Lemma menu_handlers_distinct m :
  preserves genres_distinct (show_recommendations m)
  ∧ (∀ w, genres_distinct (start m w).2)
  ∧ (∀ w, genres_distinct (go_to_main_menu m w).2).
Proof.
  split; [|split].
  - apply preserves_distinct_keeps. unfold show_recommendations, drain_all.
    repeat first [ apply drain_keeps_filters | keeps_step ].
  - intros w category. apply NoDup_nil_2.
  - intros w category. unfold go_to_main_menu. rewrite bind_run.
    destruct (drain_all_empties (message_chat_id m) w) as (w2 & -> & _).
    apply NoDup_nil_2.
Qed.

(** *** Setting the schema up on a file that cannot be written *)

(** [setup_database()] is called outside the inner [try]: over a file
    without tables that cannot be written it raises, and [add_genres]
    raises with it, keeping the pending entry. *)
Lemma add_genres_setup_raises :
  let d := {| Store.objects := None; Store.genres := None; Store.object_genres := None;
              Store.user_views := None; Store.read_only := true |} in
  let w := Sample.world_of (set_new_object (Some Sample.entry) cleared) d in
  let r := add_genres (Sample.says "drama") w in
  r.1 = Raised Py.OperationalError
  ∧ trace r.2 = [SetupDatabase]
  ∧ (new_genres <$> new_object (user_data r.2)) = Some (Some ["drama"]).
Proof. by vm_compute. Qed.

(** *** Payloads of the rendered buttons *)

Lemma split_lacks sep s : lacks sep s = true → Py.split sep s = [s].
Proof.
  induction s as [|c s IH]; [done|]. cbn.
  intros [Hc Hs]%andb_true_iff. apply negb_true_iff in Hc. by rewrite Hc, IH.
Qed.

Lemma split_app sep s t :
  lacks sep s = true →
  Py.split sep (s +:+ String sep t) = s :: Py.split sep t.
Proof.
  induction s as [|c s IH].
  - intros _. change (Py.split sep (String sep t) = [""] ++ Py.split sep t).
    cbn [Py.split]. by rewrite Ascii.eqb_refl.
  - cbn [lacks]. intros [Hc Hs]%andb_true_iff. apply negb_true_iff in Hc.
    rewrite append_cons. cbn [Py.split]. by rewrite Hc, IH.
Qed.

Lemma uint_digits d acc :
  Py.int_digits (Z.pos acc) true (NilEmpty.string_of_uint d)
  = Some (Z.pos (Pos.of_uint_acc d acc)).
Proof.
  revert acc. induction d as [|d IH|d IH|d IH|d IH|d IH|d IH|d IH|d IH|d IH|d IH];
    intros acc; [done|..];
    cbn [NilEmpty.string_of_uint Py.int_digits Pos.of_uint_acc];
    match goal with
    | |- context [Py.digit_val ?c] =>
        let v := eval vm_compute in (Py.digit_val c) in
        change (Py.digit_val c) with v
    end;
    cbv iota beta;
    match goal with
    | |- Py.int_digits ?z true _ = Some (Z.pos (Pos.of_uint_acc _ ?p)) =>
        replace z with (Z.pos p) by lia
    end;
    apply IH.
Qed.

Lemma uint_digits_zero d :
  Py.int_digits 0 true (NilEmpty.string_of_uint d) = Some (Z.of_N (Pos.of_uint d)).
Proof.
  induction d as [|d IH|d IH|d IH|d IH|d IH|d IH|d IH|d IH|d IH|d IH]; [done|apply IH|..];
    cbn [NilEmpty.string_of_uint Py.int_digits Pos.of_uint];
    match goal with
    | |- context [Py.digit_val ?c] =>
        let v := eval vm_compute in (Py.digit_val c) in
        change (Py.digit_val c) with v
    end;
    cbv iota beta; apply (uint_digits d).
Qed.

(** The text of a number has no whitespace, no colon and no comma. *)
Lemma uint_plain d :
  no_space (NilEmpty.string_of_uint d) = true
  ∧ lacks ":" (NilEmpty.string_of_uint d) = true.
Proof.
  induction d as [|d [IH1 IH2]|d [IH1 IH2]|d [IH1 IH2]|d [IH1 IH2]|d [IH1 IH2]|d [IH1 IH2]
                  |d [IH1 IH2]|d [IH1 IH2]|d [IH1 IH2]|d [IH1 IH2]]; [done|..];
    cbn [NilEmpty.string_of_uint no_space lacks]; rewrite IH1, IH2; by vm_compute.
Qed.

Lemma str_plain n : no_space (Py.str n) = true ∧ lacks ":" (Py.str n) = true.
Proof.
  unfold Py.str, NilZero.string_of_int, NilZero.string_of_uint.
  destruct (Z.to_int n) as [d|d]; destruct d; cbn [no_space lacks];
    try (by vm_compute);
    match goal with
    | |- context [NilEmpty.string_of_uint ?d] =>
        destruct (uint_plain d) as [H1 H2]; cbn [NilEmpty.string_of_uint no_space lacks] in *;
        try rewrite H1; try rewrite H2; by vm_compute
    end.
Qed.

Lemma uint_text d :
  Py.int_digits 0 false (NilZero.string_of_uint d) = Some (Z.of_N (Pos.of_uint d)).
Proof.
  destruct d; [done|apply (uint_digits_zero (Decimal.D0 d))|..];
    apply (uint_digits d).
Qed.

Lemma uint_unsigned d :
  match NilZero.string_of_uint d with
  | String "+" r => Py.int_digits 0 false r
  | String "-" r => Z.opp <$> Py.int_digits 0 false r
  | t => Py.int_digits 0 false t
  end = Py.int_digits 0 false (NilZero.string_of_uint d).
Proof. by destruct d. Qed.

(** The number an f-string writes is the number [int] reads. *)
Lemma int_str n : Py.int (Py.str n) = Some n.
Proof.
  unfold Py.int. rewrite strip_no_space by apply str_plain.
  pose proof (DecimalZ.of_to n) as H. unfold Py.str.
  destruct (Z.to_int n) as [d|d]; cbn [NilZero.string_of_int Z.of_int] in *.
  - rewrite uint_unsigned, uint_text. by rewrite <- H.
  - rewrite uint_text. cbn. f_equal. exact H.
Qed.

(** X1. A button that carries a number is read back as rendered: for a
    category without a colon, the payload of a page, view, unview, edit or
    delete button splits into its action, the category and the text of
    the number, and [int] gives the number back. *)
Theorem numbered_payload_round_trip category n :
  lacks ":" category = true →
  ∀ action b,
    (action, b) ∈ [("page", CbPage category n); ("view", CbView category n);
                   ("unview", CbUnview category n); ("edit", CbEdit category n);
                   ("delete", CbDelete category n)] →
    ∃ payload, callback_data b = Some payload
               ∧ Py.split ":" payload = [action; category; Py.str n]
               ∧ Py.int (Py.str n) = Some n.
Proof.
  intros Hc action b H.
  assert (∀ a, lacks ":" a = true →
               Py.split ":" (a +:+ ":" +:+ category +:+ ":" +:+ Py.str n)
               = [a; category; Py.str n]) as Hsplit.
  { intros a Ha.
    change (Py.split ":" (a +:+ String ":" (category +:+ String ":" (Py.str n)))
            = [a; category; Py.str n]).
    rewrite split_app by done. rewrite split_app by done.
    by rewrite split_lacks by apply str_plain. }
  repeat (apply elem_of_cons in H as [[= -> ->]|H];
          [eexists; split; [reflexivity|]; split;
           [match goal with |- _ = ?a :: _ => exact (Hsplit a eq_refl) end|apply int_str]|]).
  by apply not_elem_of_nil in H.
Qed.

Lemma numbered_payload_round_trip_witness :
  lacks ":" "films" = true
  ∧ (("page", CbPage "films" 2) ∈ [("page", CbPage "films" 2); ("view", CbView "films" 2);
                                   ("unview", CbUnview "films" 2); ("edit", CbEdit "films" 2);
                                   ("delete", CbDelete "films" 2)])
  ∧ ∃ payload, callback_data (CbPage "films" 2) = Some payload
               ∧ Py.split ":" payload = ["page"; "films"; Py.str 2].
Proof.
  assert (("page", CbPage "films" 2) ∈ [("page", CbPage "films" 2); ("view", CbView "films" 2);
                                        ("unview", CbUnview "films" 2); ("edit", CbEdit "films" 2);
                                        ("delete", CbDelete "films" 2)]) as Hin by by left.
  split; [reflexivity|]. split; [exact Hin|].
  destruct (numbered_payload_round_trip "films" 2 eq_refl "page" _ Hin) as (p & H1 & H2 & _).
  by exists p.
Defined.

(** X2. The navigation buttons under a result page lead one page back or
    one page forward, and pressing one makes that page the current one:
    for a category without a colon, a press whose payload is the one
    rendered for the button stores the page of the button. *)
Theorem navigation_button_moves_one_page query category page total_pages c p w :
  lacks ":" category = true →
  CbPage c p ∈ concat (get_results_keyboard category page total_pages) →
  callback_data (CbPage c p) = Some (data query) →
  c = category
  ∧ (p = page - 1 ∨ p = page + 1)
  ∧ results_page (user_data (button query w).2) = Some p
  ∧ cache_size (button query w).2 = cache_size w.
Proof.
  intros Hc Hin Hdata.
  assert (c = category ∧ (p = page - 1 ∨ p = page + 1)) as [-> Hp].
  { unfold get_results_keyboard in Hin. cbn [concat] in Hin. rewrite app_nil_r in Hin.
    apply elem_of_app in Hin as [[H|H]%elem_of_app|H%list_elem_of_singleton]; [| |done].
    - destruct (0 <? page); [|by apply not_elem_of_nil in H].
      apply list_elem_of_singleton in H as [= -> ->]. auto.
    - destruct (page <? total_pages - 1); [|by apply not_elem_of_nil in H].
      apply list_elem_of_singleton in H as [= -> ->]. auto. }
  split; [done|]. split; [done|].
  assert (Py.split ":" (data query) = ["page"; category; Py.str p]) as E.
  { injection Hdata as <-.
    change (Py.split ":" ("page" +:+ String ":" (category +:+ String ":" (Py.str p)))
            = ["page"; category; Py.str p]).
    rewrite split_app by done. rewrite split_app by done.
    by rewrite split_lacks by apply str_plain. }
  rewrite (button_page _ _ _ _ _ E).
  pose proof (on_page_page_and_size query "page" category (Py.str p) [] p
                (with_effect (Answer None) w) (int_str p)) as H.
  injection H as H1 H2. split; [done|]. cbn [with_effect user_data] in H2.
  unfold cache_size.
  destruct (results_cache (user_data _)), (results_cache (user_data w));
    cbn in H2 |- *; simplify_eq; congruence.
Qed.

Lemma navigation_button_moves_one_page_witness :
  lacks ":" "films" = true
  ∧ CbPage "films" 2 ∈ concat (get_results_keyboard "films" 1 3)
  ∧ callback_data (CbPage "films" 2) = Some (data (Sample.press "page:films:2"))
  ∧ results_page (user_data (button (Sample.press "page:films:2") Sample.fresh).2) = Some 2.
Proof.
  assert (CbPage "films" 2 ∈ concat (get_results_keyboard "films" 1 3)) as Hin.
  { vm_compute. right. left. }
  split; [reflexivity|]. split; [exact Hin|]. split; [reflexivity|].
  exact (proj1 (proj2 (proj2 (navigation_button_moves_one_page
    (Sample.press "page:films:2") "films" 1 3 "films" 2 Sample.fresh eq_refl Hin eq_refl)))).
Defined.

(** X3. A genre button toggles the part of its genre name before the
    first colon, which is the genre itself exactly when the name has no
    colon: the payload is split at every colon and the handler reads the
    third part. *)
Theorem genre_button_toggles_up_to_colon query category genre w :
  lacks ":" category = true →
  callback_data (CbGenre category genre) = Some (data query) →
  selected_genres (user_data (button query w).2)
  = toggled category (action_of genre) (selected_genres (user_data w))
  ∧ (lacks ":" genre = true → action_of genre = genre).
Proof.
  intros Hc Hdata. split.
  - assert (∃ rest, Py.split ":" (data query)
                    = "genre" :: category :: action_of genre :: rest) as [rest E].
    { injection Hdata as <-.
      change (∃ rest, Py.split ":" ("genre" +:+ String ":" (category +:+ String ":" genre))
                      = "genre" :: category :: action_of genre :: rest).
      rewrite split_app by done. rewrite split_app by done.
      unfold action_of. pose proof (split_not_nil ":" genre) as Hne.
      destruct (Py.split ":" genre) as [|g rest]; [done|]. by exists rest. }
    by rewrite (button_genre_selected _ _ _ _ _ E).
  - intros Hg. unfold action_of. by rewrite split_lacks.
Qed.

Lemma genre_button_toggles_up_to_colon_witness :
  lacks ":" "films" = true
  ∧ callback_data (CbGenre "films" "sci:fi") = Some (data (Sample.press "genre:films:sci:fi"))
  ∧ selected_list (Sample.after ["genre:films:sci:fi"] Sample.fresh) "films" = ["sci"].
Proof.
  split; [reflexivity|]. split; [reflexivity|].
  pose proof (proj1 (genre_button_toggles_up_to_colon (Sample.press "genre:films:sci:fi")
                       "films" "sci:fi" Sample.fresh eq_refl eq_refl)) as H.
  unfold selected_list, Sample.after. cbn [foldl]. rewrite H. reflexivity.
Defined.

(** *** Levels pushed, filled, popped and drained *)

Lemma after_effects_app es1 es2 w :
  after_effects es2 (after_effects es1 w) = after_effects (es1 ++ es2) w.
Proof. unfold after_effects. cbn. by rewrite app_assoc. Qed.

Lemma record_messages_run chat_id hs rest top w :
  message_stack (user_data w) = Some (rest ++ [top]) →
  run_ops chat_id (RecordMessage <$> hs) w
  = (Returned (), stacked (rest ++ [top ++ hs]) w).
Proof.
  revert top w. induction hs as [|h hs IH]; intros top w E.
  - cbn. rewrite app_nil_r. unfold stacked. destruct w as [ud d a t n p]. cbn in *.
    destruct ud. cbn in *. by subst.
  - cbn [fmap list_fmap run_ops foldr run_op]. rewrite bind_run.
    rewrite (add_message_to_stack_top h w rest top E).
    change (foldr _ _ (RecordMessage <$> hs)) with (run_ops chat_id (RecordMessage <$> hs)).
    rewrite (IH (top ++ [h])) by reflexivity.
    by rewrite <- app_assoc.
Qed.

Lemma run_ops_app chat_id ops1 ops2 w w1 :
  run_ops chat_id ops1 w = (Returned (), w1) →
  run_ops chat_id (ops1 ++ ops2) w = run_ops chat_id ops2 w1.
Proof.
  revert w. induction ops1 as [|op ops1 IH]; intros w.
  - by intros [= ->].
  - cbn [app run_ops foldr]. rewrite !bind_run.
    destruct (run_op chat_id op w) as [[[]|e] w2]; [|done]. apply IH.
Qed.

(** X4. A level that is pushed, filled with handles and popped is
    deleted handle by handle, in the order of recording, and the levels
    beneath are as before: nothing of them is deleted, and nothing but the
    stack and the transport is touched. *)
Theorem push_record_pop_round_trip chat_id hs w :
  ∃ w', run_ops chat_id (PushLevel :: (RecordMessage <$> hs) ++ [PopLevel]) w
        = (Returned (), w')
        ∧ levels w' = levels w
        ∧ trace w' = trace w ++ (DeleteMessage chat_id <$> hs)
        ∧ backstage w' = backstage w.
Proof.
  cbn [run_ops foldr run_op]. rewrite bind_run. cbn [push_new_message_level update].
  change (foldr _ _ ?ops) with (run_ops chat_id ops).
  set (w1 := with_user_data _ w).
  assert (message_stack (user_data w1) = Some (levels w ++ [[]])) as E1 by reflexivity.
  rewrite (run_ops_app _ _ _ _ _ (record_messages_run chat_id hs _ _ w1 E1)).
  cbn [run_ops foldr run_op app]. rewrite bind_run.
  erewrite pop_and_delete_messages_top by reflexivity.
  eexists. split; [reflexivity|]. by split.
Qed.

Lemma drain_step fuel chat_id rest top w :
  message_stack (user_data w) = Some (rest ++ [top]) →
  drain (S fuel) chat_id w
  = drain fuel chat_id (after_effects (DeleteMessage chat_id <$> top) (stacked rest w)).
Proof.
  intros E. cbn [drain]. rewrite bind_run. cbn [get].
  pose proof (pop_and_delete_messages_top chat_id w rest top E) as Hpop.
  rewrite E. destruct rest as [|l rest]; cbn [app]; by rewrite bind_run, Hpop.
Qed.

Lemma drain_run fuel chat_id st w :
  message_stack (user_data w) = Some st → (length st ≤ fuel)%nat → st ≠ [] →
  drain fuel chat_id w
  = (Returned (), after_effects (DeleteMessage chat_id <$> concat (reverse st)) (stacked [] w)).
Proof.
  revert st w. induction fuel as [|fuel IH]; intros st w E Hl Hne.
  { destruct st; [done|cbn in Hl; lia]. }
  destruct (Py.pop st) as [[rest top]|] eqn:Ep; [|by apply pop_nil_iff in Ep].
  apply pop_Some in Ep as ->.
  rewrite (drain_step fuel chat_id rest top w E).
  rewrite reverse_snoc. cbn [concat]. rewrite fmap_app.
  destruct (decide (rest = [])) as [->|Hrest].
  - cbn. rewrite app_nil_r. by destruct fuel.
  - erewrite (IH rest) by (try done; try reflexivity; rewrite length_app in Hl; cbn in Hl; lia).
    by rewrite <- after_effects_app.
Qed.

Lemma drain_all_run chat_id w :
  ∃ w', drain_all chat_id w = (Returned (), w')
        ∧ levels w' = []
        ∧ trace w' = trace w ++ (DeleteMessage chat_id <$> concat (reverse (levels w)))
        ∧ backstage w' = backstage w.
Proof.
  unfold drain_all. rewrite bind_run. cbn [get].
  destruct (message_stack (user_data w)) as [st|] eqn:E.
  - destruct (decide (st = [])) as [->|Hne].
    + exists w. cbn. unfold levels. rewrite E. cbn. by rewrite app_nil_r.
    + rewrite (drain_run _ chat_id st w E) by (cbn; done || lia).
      eexists. split; [reflexivity|]. unfold levels. rewrite E. by split.
  - exists w. cbn. unfold levels. rewrite E. cbn. by rewrite app_nil_r.
Qed.

(** X5. The loop that drains the stack ends with no level left, having
    deleted every recorded handle once, the top level first and each level
    in the order of recording; it touches nothing but the stack and the
    transport. *)
Theorem drain_all_deletes_every_level chat_id w :
  ∃ w', drain_all chat_id w = (Returned (), w')
        ∧ levels w' = []
        ∧ trace w' = trace w ++ (DeleteMessage chat_id <$> concat (reverse (levels w)))
        ∧ backstage w' = backstage w.
Proof. apply drain_all_run. Qed.

Lemma backstage_fields w w' :
  backstage w' = backstage w →
  set_message_stack None (user_data w') = set_message_stack None (user_data w)
  ∧ db w' = db w ∧ ADMIN_IDS w' = ADMIN_IDS w
  ∧ next_message_id w' = next_message_id w ∧ photo_ok w' = photo_ok w.
Proof.
  intros H. split; [exact (f_equal user_data H)|]. split; [exact (f_equal db H)|].
  split; [exact (f_equal ADMIN_IDS H)|]. split; [exact (f_equal next_message_id H)|].
  exact (f_equal photo_ok H).
Qed.

(** X6. Whatever was on the stack, after the recommendations menu is shown
    the stack is one level that holds the menu message alone: the user's
    message and every recorded handle have been deleted, top level first,
    and the session apart from the stack and the database are as before. *)
Theorem show_recommendations_resets_stack m w :
  ∃ w', show_recommendations m w = (Returned (), w')
        ∧ message_stack (user_data w') = Some [[next_message_id w]]
        ∧ trace w'
          = trace w
            ++ [DeleteMessage (message_chat_id m) (message_id m)]
            ++ (DeleteMessage (message_chat_id m) <$> concat (reverse (levels w)))
            ++ [SendMessage (message_chat_id m) (next_message_id w) ChooseCategory
                  (Some (get_recommendations_keyboard
                           (bool_decide (effective_user m ∈ ADMIN_IDS w))))]
        ∧ set_message_stack None (user_data w') = set_message_stack None (user_data w)
        ∧ db w' = db w.
Proof.
  unfold show_recommendations. rewrite bind_run. cbn [emit].
  destruct (drain_all_run (message_chat_id m)
              (with_effect (DeleteMessage (message_chat_id m) (message_id m)) w))
    as (w1 & R & Hl & Ht & Hb).
  rewrite bind_run, R. apply backstage_fields in Hb as (Hud & Hdb & Had & Hn & _).
  cbn [with_effect user_data db ADMIN_IDS next_message_id trace] in *.
  rewrite bind_run. cbn [push_new_message_level update].
  rewrite bind_run. cbn [is_admin with_user_data ADMIN_IDS].
  rewrite bind_run. cbn [sent].
  erewrite add_message_to_stack_top.
  2:{ cbn. unfold levels in Hl. rewrite Hl. reflexivity. }
  eexists. split; [reflexivity|]. cbn. rewrite Ht, Hn, Had, Hdb.
  split; [done|]. split; [by rewrite <- !app_assoc|]. split; [|done].
  rewrite <- Hud. by destruct (user_data w1).
Qed.

(** X7. [start] forgets the stack without deleting a message: the session
    is cleared, down to an empty stack, and only the greeting is sent.
    [go_to_main_menu] first deletes every recorded handle, top level first,
    and then does the same. Neither records the greeting nor touches the
    database. *)
Theorem start_and_main_menu_clear_session m w :
  (∃ w', start m w = (Returned (), w')
         ∧ user_data w' = set_message_stack (Some []) cleared
         ∧ trace w' = trace w ++ [SendMessage (message_chat_id m) (next_message_id w)
                                    Greeting None]
         ∧ db w' = db w)
  ∧ (∃ w', go_to_main_menu m w = (Returned (), w')
           ∧ user_data w' = set_message_stack (Some []) cleared
           ∧ trace w'
             = trace w
               ++ (DeleteMessage (message_chat_id m) <$> concat (reverse (levels w)))
               ++ [SendMessage (message_chat_id m) (next_message_id w) Greeting None]
           ∧ db w' = db w).
Proof.
  split; [by eexists|].
  unfold go_to_main_menu. rewrite bind_run.
  destruct (drain_all_run (message_chat_id m) w) as (w1 & -> & Hl & Ht & Hb).
  apply backstage_fields in Hb as (_ & Hdb & _ & Hn & _).
  eexists. split; [reflexivity|]. cbn. rewrite Ht, Hn, Hdb. by rewrite <- app_assoc.
Qed.

(** *** Pages of the cache *)

Lemma slice_nonneg {A} (l : list A) (start stop : Z) :
  0 ≤ start ≤ stop →
  Py.slice l start stop = take (Z.to_nat (stop - start)) (drop (Z.to_nat start) l).
Proof.
  intros H. unfold Py.slice, Py.clamp_index.
  assert ((start <? 0) = false) as -> by lia.
  assert ((stop <? 0) = false) as -> by lia.
  destruct (decide (Z.of_nat (length l) ≤ start)).
  - rewrite !drop_ge by lia. by rewrite !take_nil.
  - replace (Z.to_nat (start `min` Z.of_nat (length l))) with (Z.to_nat start) by lia.
    destruct (decide (stop ≤ Z.of_nat (length l))).
    + f_equal. lia.
    + rewrite !take_ge; [done|rewrite length_drop; lia|rewrite length_drop; lia].
Qed.

Lemma page_of_nonneg results (p : nat) :
  page_of results (Z.of_nat p) = take 5 (drop (5 * p) results).
Proof.
  unfold page_of, PAGE_SIZE. rewrite slice_nonneg by lia. f_equal; [lia|f_equal; lia].
Qed.

Lemma total_pages_of_nil : total_pages_of [] = 0.
Proof. reflexivity. Qed.

Lemma total_pages_of_drop results :
  results ≠ [] → total_pages_of results = 1 + total_pages_of (drop 5 results).
Proof.
  intros Hne. unfold total_pages_of, PAGE_SIZE. rewrite length_drop.
  assert (0 < length results)%nat as Hl by (destruct results; [done|cbn; lia]).
  destruct (decide (5 ≤ length results)%nat).
  - replace (Z.of_nat (length results) + 5 - 1)
      with (1 * 5 + (Z.of_nat (length results - 5) + 5 - 1)) by lia.
    by rewrite Z.div_add_l by lia.
  - replace (length results - 5)%nat with 0%nat by lia.
    change ((Z.of_nat 0 + 5 - 1) / 5) with 0.
    symmetry. apply Z.div_unique with (Z.of_nat (length results) - 1); lia.
Qed.

Lemma pages_concat (k : nat) results :
  (length results ≤ 5 * k)%nat →
  concat (page_of results <$> seqZ 0 (total_pages_of results)) = results.
Proof.
  revert results. induction k as [|k IH]; intros results Hl.
  { destruct results; [done|cbn in Hl; lia]. }
  destruct (decide (results = [])) as [->|Hne]; [done|].
  rewrite total_pages_of_drop by done.
  assert (0 ≤ total_pages_of (drop 5 results)) as Hpos.
  { unfold total_pages_of, PAGE_SIZE. apply Z.div_pos; lia. }
  rewrite seqZ_cons by lia. cbn [fmap list_fmap concat].
  replace (Z.pred (1 + total_pages_of (drop 5 results)))
    with (total_pages_of (drop 5 results)) by lia.
  change (Z.succ 0) with (1 + 0). rewrite <- (fmap_add_seqZ 1 0).
  rewrite <- list_fmap_compose.
  assert (page_of results ∘ Z.add 1 <$> seqZ 0 (total_pages_of (drop 5 results))
          = page_of (drop 5 results) <$> seqZ 0 (total_pages_of (drop 5 results))) as ->.
  { apply list_fmap_ext. intros i p Hp. apply lookup_seqZ in Hp as [-> Hi]. cbn [compose].
    replace (1 + (0 + Z.of_nat i)) with (Z.of_nat (S i)) by lia.
    replace (0 + Z.of_nat i) with (Z.of_nat i) by lia.
    rewrite !page_of_nonneg, drop_drop. do 2 f_equal. lia. }
  rewrite IH by (rewrite length_drop; lia).
  change 0 with (Z.of_nat 0). rewrite page_of_nonneg. cbn [Nat.mul drop].
  apply take_drop.
Qed.

(** X8. Paging through the pages 0 to [total_pages - 1] shows every cached
    result once and in order: the slices rendered for these pages, put end
    to end, are the cache; each holds at least one and at most [PAGE_SIZE]
    results, and every page from [total_pages] on is empty. *)
Theorem pages_partition_the_cache results :
  concat (page_of results <$> seqZ 0 (total_pages_of results)) = results
  ∧ (∀ p, 0 ≤ p < total_pages_of results →
          (0 < length (page_of results p) ≤ 5)%nat)
  ∧ (∀ p, total_pages_of results ≤ p → page_of results p = []).
Proof.
  split; [apply (pages_concat (length results)); lia|]. split.
  - intros p Hp.
    apply (total_pages_bound (Z.of_nat (length results)) p) in Hp as [H0 H]; [|lia].
    replace p with (Z.of_nat (Z.to_nat p)) by lia. rewrite page_of_nonneg.
    rewrite length_take, length_drop. unfold PAGE_SIZE in H. lia.
  - intros p Hp. unfold page_of. apply slice_beyond.
    assert (0 ≤ Z.of_nat (length results)) as Hn by lia.
    destruct (decide (Z.of_nat (length results) ≤ p * PAGE_SIZE)); [done|].
    assert (0 ≤ total_pages_of results) as Ht.
    { unfold total_pages_of, PAGE_SIZE. apply Z.div_pos; lia. }
    assert (0 ≤ p ∧ p * PAGE_SIZE < Z.of_nat (length results)) as H by lia.
    apply (total_pages_bound (Z.of_nat (length results)) p Hn) in H.
    unfold total_pages_of in Hp. lia.
Qed.
(** *** What the result screen records *)

Lemma sent_ids_app es es' : sent_ids (es ++ es') = sent_ids es ++ sent_ids es'.
Proof. apply omap_app. Qed.

Lemma seqZ_succ_length {A} (m : Z) (x : A) (l : list A) :
  seqZ m (Z.of_nat (length (x :: l))) = m :: seqZ (m + 1) (Z.of_nat (length l)).
Proof.
  rewrite seqZ_cons by (cbn [length]; lia). f_equal. f_equal; cbn [length]; lia.
Qed.

Lemma genres_of_object_Some d oid gs ogs :
  Store.genres d = Some gs → Store.object_genres d = Some ogs →
  Store.genres_of_object d oid = Some (Store.joined_names gs ogs (λ o, o =? oid)).
Proof. unfold Store.genres_of_object. by intros -> ->. Qed.

Lemma is_viewed_Some d user_id oid vs :
  Store.user_views d = Some vs →
  Store.is_viewed d user_id oid = Some (bool_decide ((user_id, oid) ∈ vs)).
Proof. unfold Store.is_viewed. by intros ->. Qed.

Lemma send_cards_cons chat_id category i obj objs w rest top :
  is_Some (Store.genres (db w)) → is_Some (Store.object_genres (db w)) →
  is_Some (Store.user_views (db w)) →
  message_stack (user_data w) = Some (rest ++ [top]) →
  ∃ e w1,
    send_cards chat_id category i (obj :: objs) w = send_cards chat_id category (S i) objs w1
    ∧ sent_ids [e] = [next_message_id w]
    ∧ (∀ c h, e ≠ DeleteMessage c h)
    ∧ db w1 = db w
    ∧ next_message_id w1 = next_message_id w + 1
    ∧ trace w1 = trace w ++ [e]
    ∧ message_stack (user_data w1) = Some (rest ++ [top ++ [next_message_id w]]).
Proof.
  intros [gs Hg] [ogs Hog] [vs Hv] Hs.
  destruct w as [ud d admins tr nid pok]. cbn [db user_data next_message_id trace] in *.
  cbn [send_cards]. rewrite bind_run. cbn [storage db].
  rewrite (genres_of_object_Some _ _ _ _ Hg Hog), (is_viewed_Some _ _ _ _ Hv).
  repeat (first [rewrite bind_run
                |progress cbn [mret handler_ret executed update is_admin poster_accepted
                               with_user_data user_data db photo_ok ADMIN_IDS]]).
  destruct (pok _);
    cbn [sent next_message_id with_next_id with_effect trace user_data db ADMIN_IDS photo_ok];
    rewrite bind_run;
    (erewrite add_message_to_stack_top by (cbn [user_data]; destruct ud; exact Hs));
    eexists _, _; (split; [reflexivity|]);
    cbn [with_user_data db next_message_id trace user_data sent_ids omap];
    destruct ud; by repeat split.
Qed.

Lemma send_cards_run chat_id category page_results :
  ∀ i w rest top,
    is_Some (Store.genres (db w)) → is_Some (Store.object_genres (db w)) →
    is_Some (Store.user_views (db w)) →
    message_stack (user_data w) = Some (rest ++ [top]) →
    ∃ w' added,
      send_cards chat_id category i page_results w = (Returned (), w')
      ∧ db w' = db w
      ∧ next_message_id w' = next_message_id w + Z.of_nat (length page_results)
      ∧ trace w' = trace w ++ added
      ∧ sent_ids added = seqZ (next_message_id w) (Z.of_nat (length page_results))
      ∧ (∀ c h, DeleteMessage c h ∉ added)
      ∧ message_stack (user_data w')
        = Some (rest ++ [top ++ seqZ (next_message_id w) (Z.of_nat (length page_results))]).
Proof.
  induction page_results as [|obj objs IH]; intros i w rest top Hg Hog Hv Hs.
  { exists w, []. cbn [length]. change (seqZ _ (Z.of_nat 0)) with (@nil Z).
    rewrite !app_nil_r, Z.add_0_r. repeat split; try done. intros c h. apply not_elem_of_nil. }
  destruct (send_cards_cons chat_id category i obj objs w rest top Hg Hog Hv Hs)
    as (e & w1 & -> & He & Hne & Hdb1 & Hn1 & Ht1 & Hs1).
  destruct (IH (S i) w1 rest (top ++ [next_message_id w]))
    as (w' & added & Hrun & Hdb & Hn & Ht & Hi & Hd & Hst);
    [by rewrite Hdb1..|done|].
  exists w', (e :: added). rewrite seqZ_succ_length, <- Hn1. repeat split.
  - done.
  - congruence.
  - rewrite Hn, Hn1. cbn [length]. lia.
  - rewrite Ht, Ht1. by rewrite <- app_assoc.
  - change (e :: added) with ([e] ++ added). rewrite sent_ids_app, He, Hi. done.
  - intros c h [Heq|Hin]%elem_of_cons; [by apply (Hne c h)|by apply Hd in Hin].
  - rewrite Hst. by rewrite <- app_assoc.
Qed.

(** X9. When the genre, link and view tables exist, showing a page of
    results sends one message per result of the page and one footer,
    numbered consecutively, deletes nothing, and records exactly these
    messages, in order, in the one level it pushes on the message stack:
    a later "back" removes the whole screen and nothing else. *)
Theorem result_screen_tracks_its_messages chat_id category w :
  is_Some (Store.genres (db w)) → is_Some (Store.object_genres (db w)) →
  is_Some (Store.user_views (db w)) →
  ∃ w' added,
    send_paginated_results chat_id category w = (Returned (), w')
    ∧ trace w' = trace w ++ added
    ∧ sent_ids added
      = seqZ (next_message_id w)
          (Z.of_nat (length (page_of (default [] (results_cache (user_data w)))
                               (current_page w))) + 1)
    ∧ (∀ c h, DeleteMessage c h ∉ added)
    ∧ levels w' = levels w ++ [sent_ids added]
    ∧ db w' = db w.
Proof.
  intros Hg Hog Hv. unfold send_paginated_results, page_of, current_page, levels.
  rewrite bind_run. cbn [get]. rewrite bind_run.
  cbn [push_new_message_level update].
  set (page := default 0 (results_page (user_data w))).
  set (results := default [] (results_cache (user_data w))).
  set (w0 := with_user_data _ w).
  assert (message_stack (user_data w0)
          = Some (default [] (message_stack (user_data w)) ++ [[]])) as Hs0.
  { subst w0. destruct w as [ud ? ? ? ? ?]. by destruct ud. }
  assert (db w0 = db w ∧ next_message_id w0 = next_message_id w ∧ trace w0 = trace w)
    as (Hdb0 & Hn0 & Ht0) by (subst w0; by destruct w).
  destruct (Py.slice results _ _) as [|obj objs] eqn:Epage.
  - eexists _, [_]. rewrite bind_run. cbn [sent].
    erewrite add_message_to_stack_top
      by (destruct w0 as [ud0 ? ? ? ? ?]; cbn in Hs0 |- *; exact Hs0).
    split; [reflexivity|].
    destruct w0 as [ud0 d0 a0 t0 n0 p0]. cbn in Hs0, Hdb0, Hn0, Ht0 |- *.
    subst. repeat split; try done.
    intros c h [=]%list_elem_of_singleton.
  - destruct (send_cards_run chat_id category (obj :: objs)
                (Z.to_nat (Py.clamp_index (Z.of_nat (length results)) (page * PAGE_SIZE)))
                w0 (default [] (message_stack (user_data w))) [])
      as (w1 & added & Hrun & Hdb & Hn & Ht & Hi & Hd & Hst);
      [by rewrite Hdb0..|done|].
    set (footer := SendMessage chat_id (next_message_id w1)
                     (PageOf (page + 1) (total_pages_of results))
                     (Some (get_results_keyboard category page (total_pages_of results)))).
    eexists _, (added ++ [footer]).
    rewrite bind_run, Hrun, bind_run. cbn [sent].
    erewrite add_message_to_stack_top
      by (destruct w1 as [ud1 ? ? ? ? ?]; cbn in Hst |- *; exact Hst).
    split; [reflexivity|].
    destruct w1 as [ud1 d1 a1 t1 n1 p1]. cbn in Hst, Hdb, Hn, Ht, footer |- *.
    rewrite sent_ids_app, Hi. cbn [sent_ids omap footer app].
    rewrite Hn0 in *. change (sent_ids [footer]) with [n1].
    assert (seqZ (next_message_id w) (Z.of_nat (S (length objs)) + 1)
            = seqZ (next_message_id w) (Z.of_nat (S (length objs))) ++ [n1]) as Hseq.
    { rewrite seqZ_app by lia. subst n1. done. }
    repeat split.
    + rewrite Ht. by rewrite <- app_assoc.
    + by rewrite Hseq.
    + intros c h [Hin|[=]%list_elem_of_singleton]%elem_of_app. by apply Hd in Hin.
    + done.
Qed.

Lemma result_screen_tracks_its_messages_witness :
  let w := Sample.world_of
             (set_results_cache
                (Some ((λ i, {| row := Sample.film i; obj_genres := None |}) <$> [1; 2; 3]))
                cleared)
             Sample.catalog in
  ∃ w' added,
    send_paginated_results 7 "films" w = (Returned (), w')
    ∧ levels w' = levels w ++ [sent_ids added].
Proof.
  intros w.
  destruct (result_screen_tracks_its_messages 7 "films" w)
    as (w' & added & H & _ & _ & _ & Hl & _); [by eexists..|].
  by exists w', added.
Defined.

(** *** Queries *)

Lemma ascii_compare_trans a b c :
  Ascii.compare a b = Lt → Ascii.compare b c = Lt → Ascii.compare a c = Lt.
Proof. unfold Ascii.compare. rewrite !N.compare_lt_iff. lia. Qed.

Lemma name_lt_trans a b c : name_lt a b → name_lt b c → name_lt a c.
Proof.
  unfold name_lt. revert b c. induction a as [|x a IH]; intros [|y b] [|z c]; cbn; try done.
  destruct (Ascii.compare x y) eqn:Exy; [|intros _|done].
  - apply Ascii.compare_eq_iff in Exy as ->.
    destruct (Ascii.compare y z) eqn:Eyz; [apply IH|done|done].
  - destruct (Ascii.compare y z) eqn:Eyz; [|intros _|done].
    + apply Ascii.compare_eq_iff in Eyz as <-. by rewrite Exy.
    + by rewrite (ascii_compare_trans _ _ _ Exy Eyz).
Qed.

Lemma name_lt_irrefl a : ¬ name_lt a a.
Proof.
  unfold name_lt. intros H. pose proof (String.compare_antisym a a) as Ha.
  rewrite H in Ha. done.
Qed.

Lemma elem_of_insert_sorted x y l :
  x ∈ Store.insert_sorted y l ↔ x = y ∨ x ∈ l.
Proof.
  induction l as [|z l IH]; cbn [Store.insert_sorted].
  - by rewrite elem_of_cons.
  - destruct (String.compare y z) eqn:E.
    + apply String.compare_eq_iff in E as ->. rewrite !elem_of_cons. tauto.
    + rewrite !elem_of_cons. tauto.
    + rewrite !elem_of_cons, IH. tauto.
Qed.

Lemma elem_of_distinct_ordered x l : x ∈ Store.distinct_ordered l ↔ x ∈ l.
Proof.
  unfold Store.distinct_ordered. induction l as [|y l IH]; [done|].
  cbn [foldr]. rewrite elem_of_insert_sorted, elem_of_cons, IH. tauto.
Qed.

Lemma insert_sorted_sorted y l :
  StronglySorted name_lt l → StronglySorted name_lt (Store.insert_sorted y l).
Proof.
  induction 1 as [|z l Hl IH Hz]; cbn [Store.insert_sorted].
  - repeat constructor.
  - destruct (String.compare y z) eqn:E.
    + by constructor.
    + constructor; [by constructor|]. constructor; [done|].
      eapply Forall_impl; [exact Hz|]. intros w. by apply name_lt_trans.
    + constructor; [done|]. apply Forall_forall. intros w Hw.
      apply elem_of_insert_sorted in Hw as [->|Hw].
      * unfold name_lt. rewrite String.compare_antisym, E. done.
      * by apply (proj1 (Forall_forall _ _) Hz).
Qed.

Lemma distinct_ordered_sorted l : StronglySorted name_lt (Store.distinct_ordered l).
Proof.
  unfold Store.distinct_ordered. induction l as [|y l IH]; [constructor|].
  cbn [foldr]. by apply insert_sorted_sorted.
Qed.

Lemma sorted_NoDup l : StronglySorted name_lt l → NoDup l.
Proof.
  induction 1 as [|z l Hl IH Hz]; constructor; [|done].
  intros Hin. by apply (name_lt_irrefl z), (proj1 (Forall_forall _ _) Hz).
Qed.

(** X10. The genre buttons of a filter screen and the genres quoted when
    genres are asked for are in strictly increasing byte order, so no name
    is listed twice. *)
Theorem genre_lists_sorted_without_repeats d category selected_genres viewed_filter user_id :
  StronglySorted name_lt
    (Store.get_available_genres d category selected_genres viewed_filter user_id)
  ∧ NoDup (Store.get_available_genres d category selected_genres viewed_filter user_id)
  ∧ StronglySorted name_lt (Store.get_category_genres d category)
  ∧ NoDup (Store.get_category_genres d category).
Proof.
  assert (StronglySorted name_lt
            (Store.get_available_genres d category selected_genres viewed_filter user_id)) as H1.
  { unfold Store.get_available_genres.
    destruct (Store.genres d) as [gs|]; [|constructor].
    destruct (Store.object_genres d) as [ogs|]; [|constructor].
    cbn [mbind option_bind].
    destruct (Store.filtered_rows _ _ _ _ _ _) as [rows|]; [|constructor].
    apply distinct_ordered_sorted. }
  assert (StronglySorted name_lt (Store.get_category_genres d category)) as H2.
  { unfold Store.get_category_genres.
    destruct (Store.genres d) as [gs|]; [|constructor].
    destruct (Store.object_genres d) as [ogs|]; [|constructor].
    destruct (Store.objects d) as [objs|]; [|constructor].
    apply distinct_ordered_sorted. }
  auto using sorted_NoDup.
Qed.
Lemma elem_of_joined_names n gs ogs keep :
  n ∈ Store.joined_names gs ogs keep
  ↔ ∃ og g, og ∈ ogs ∧ keep og.1 = true ∧ g ∈ gs
            ∧ Store.genre_id g = og.2 ∧ Store.name g = n.
Proof.
  unfold Store.joined_names. rewrite list_elem_of_bind. split.
  - intros (og & Hn & Hog). apply list_elem_of_fmap in Hn as (g & -> & Hg).
    apply list_elem_of_In, filter_In in Hog as [Hog Hk].
    apply list_elem_of_In, filter_In in Hg as [Hg Hid].
    exists og, g. rewrite <- !list_elem_of_In in *. repeat split; try done. lia.
  - intros (og & g & Hog & Hk & Hg & Hid & <-). exists og. split.
    + apply list_elem_of_fmap. exists g. split; [done|].
      apply list_elem_of_In, filter_In. rewrite <- list_elem_of_In. split; [done|lia].
    + apply list_elem_of_In, filter_In. by rewrite <- list_elem_of_In.
Qed.

Lemma in_genre_join_true gs ogs n oid :
  Store.in_genre_join gs ogs n oid = true
  ↔ ∃ og g, og ∈ ogs ∧ og.1 = oid ∧ g ∈ gs ∧ Store.genre_id g = og.2 ∧ Store.name g = n.
Proof.
  unfold Store.in_genre_join. rewrite existsb_exists. split.
  - intros (og & Hog & [H1 H2]%andb_true_iff).
    apply existsb_exists in H2 as (g & Hg & [H3 H4]%andb_true_iff).
    apply String.eqb_eq in H4. exists og, g. rewrite !list_elem_of_In.
    repeat split; try done; lia.
  - intros (og & g & Hog & H1 & Hg & H2 & H3). exists og.
    rewrite <- list_elem_of_In. split; [done|]. apply andb_true_iff. split; [lia|].
    apply existsb_exists. exists g. rewrite <- list_elem_of_In. split; [done|].
    apply andb_true_iff. split; [lia|by apply String.eqb_eq].
Qed.

Lemma find_name_unique gs n g :
  NoDup (Store.name <$> gs) → g ∈ gs → Store.name g = n →
  List.find (λ g, String.eqb (Store.name g) n) gs = Some g.
Proof.
  induction gs as [|g0 gs IH]; [by intros _ ?%elem_of_nil|].
  cbn [fmap list_fmap List.find]. intros [Hnotin Hnd]%NoDup_cons Hin Hn.
  destruct (String.eqb (Store.name g0) n) eqn:E.
  - apply String.eqb_eq in E. apply elem_of_cons in Hin as [->|Hin]; [done|].
    destruct Hnotin. apply list_elem_of_fmap. exists g. split; [congruence|done].
  - apply elem_of_cons in Hin as [->|Hin]; [|by apply IH].
    apply String.eqb_neq in E. done.
Qed.

Lemma in_genre_true gs ogs n oid :
  Store.in_genre gs ogs n oid = true → Store.in_genre_join gs ogs n oid = true.
Proof.
  unfold Store.in_genre, Store.genre_id_by_name.
  destruct (List.find _ gs) as [g|] eqn:Ef; [|done]. cbn [fmap option_fmap option_map].
  apply find_some in Ef as [Hg Hn]. apply String.eqb_eq in Hn.
  intros (og & Hog & [H1 H2]%andb_true_iff)%existsb_exists.
  apply in_genre_join_true. exists og, g. rewrite !list_elem_of_In.
  repeat split; try done; lia.
Qed.

Lemma in_genre_join_unique gs ogs n oid :
  NoDup (Store.name <$> gs) →
  Store.in_genre gs ogs n oid = Store.in_genre_join gs ogs n oid.
Proof.
  intros Hnd. apply eq_true_iff_eq. split; [apply in_genre_true|].
  intros (og & g & Hog & H1 & Hg & H2 & H3)%in_genre_join_true.
  unfold Store.in_genre, Store.genre_id_by_name.
  rewrite (find_name_unique gs n g Hnd Hg H3). cbn [fmap option_fmap option_map].
  apply existsb_exists. exists og. rewrite <- list_elem_of_In. split; [done|].
  apply andb_true_iff. split; lia.
Qed.

(** The rows a query selects, clause by clause. *)
Lemma elem_of_filtered_rows member d t G v u rows r :
  Store.filtered_rows member d t G v u = Some rows →
  r ∈ rows
  ↔ r ∈ default [] (Store.objects d) ∧ Store.type_is t r = true
    ∧ (∀ g, g ∈ G →
            member (default [] (Store.genres d)) (default [] (Store.object_genres d)) g
              (Store.row_id r) = true)
    ∧ (v = true → (u, Store.row_id r) ∈ default ∅ (Store.user_views d)).
Proof.
  unfold Store.filtered_rows, Store.genre_clauses, Store.viewed_clause.
  destruct (Store.objects d) as [objs|]; [|done]. cbn [mbind option_bind default].
  destruct G as [|g0 G];
    [|destruct (Store.genres d) as [gs|]; [|done];
      destruct (Store.object_genres d) as [ogs|]; [|done]];
    cbn [mbind option_bind default];
    (destruct v; [destruct (Store.user_views d) as [vs|]; [|done]|]);
    cbn [mbind option_bind default];
    intros [= <-];
    rewrite list_elem_of_In, filter_In, <- list_elem_of_In, !andb_true_iff,
      ?bool_decide_eq_true, ?forallb_forall;
    (split; [intros (H1 & (H2 & H3) & H4)|intros (H1 & H2 & H3 & H4)]);
    repeat split; auto;
    try done;
    try (intros g Hg; by apply elem_of_nil in Hg);
    try (destruct H3 as [H3a H3b]; intros g [->|Hg]%elem_of_cons;
         [done|by apply H3b, list_elem_of_In]);
    try (apply H3; left);
    try (intros x Hx; apply H3; right; by apply list_elem_of_In).
Qed.

Lemma forallb_pointwise {A} (f g : A → bool) (l : list A) :
  (∀ x, f x = g x) → forallb f l = forallb g l.
Proof. intros H. induction l as [|x l IH]; [done|]. cbn. by rewrite H, IH. Qed.

(** With unique names both ways of writing the genre condition select the
    same rows. *)
Lemma filtered_rows_join d t G v u :
  names_unique d →
  Store.filtered_rows Store.in_genre_join d t G v u = Store.filtered_rows Store.in_genre d t G v u.
Proof.
  unfold names_unique, Store.filtered_rows, Store.genre_clauses. intros Hnd.
  destruct (Store.objects d) as [objs|]; [|done]. cbn [mbind option_bind].
  destruct G as [|g0 G]; [done|].
  destruct (Store.genres d) as [gs|]; [|done].
  destruct (Store.object_genres d) as [ogs|]; [|done]. cbn [mbind option_bind default] in *.
  destruct (Store.viewed_clause d v u) as [h|]; [|done]. cbn [mbind option_bind].
  f_equal. apply filter_ext. intros r. do 2 f_equal.
  apply forallb_pointwise. intros g. by rewrite in_genre_join_unique.
Qed.

Lemma count_filtered_objects_pos d category G v u :
  1 ≤ Store.count_filtered_objects d category G v u
  ↔ ∃ rows r, Store.filtered_rows Store.in_genre d (Store.category_map category) G v u
               = Some rows ∧ r ∈ rows.
Proof.
  unfold Store.count_filtered_objects.
  destruct (Store.filtered_rows _ _ _ _ _ _) as [rows|].
  - destruct rows as [|r rows]; cbn [length].
    + split; [lia|]. by intros (? & ? & [= <-] & ?%elem_of_nil).
    + split; [|lia]. intros _. exists (r :: rows), r. split; [done|left].
  - split; [lia|]. by intros (? & ? & ? & _).
Qed.

Lemma elem_of_get_available_genres d category G v u g :
  g ∈ Store.get_available_genres d category G v u
  ↔ ∃ gs ogs rows r og gr,
      Store.genres d = Some gs ∧ Store.object_genres d = Some ogs
      ∧ Store.filtered_rows Store.in_genre_join d (Store.category_map category) G v u
        = Some rows
      ∧ r ∈ rows ∧ og ∈ ogs ∧ og.1 = Store.row_id r ∧ gr ∈ gs
      ∧ Store.genre_id gr = og.2 ∧ Store.name gr = g.
Proof.
  unfold Store.get_available_genres.
  destruct (Store.genres d) as [gs|];
    [|split; [by intros ?%elem_of_nil|by intros (? & ? & ? & ? & ? & ? & ? & _)]].
  destruct (Store.object_genres d) as [ogs|];
    [|split; [by intros ?%elem_of_nil|by intros (? & ? & ? & ? & ? & ? & _ & ? & _)]].
  cbn [mbind option_bind].
  destruct (Store.filtered_rows _ _ _ _ _ _) as [rows|];
    [|split; [by intros ?%elem_of_nil|by intros (? & ? & ? & ? & ? & ? & _ & _ & ? & _)]].
  cbn [mbind option_bind]. rewrite elem_of_distinct_ordered, elem_of_joined_names. split.
  - intros (og & gr & Hog & (r & Hr & Hid)%existsb_exists & Hg & H1 & H2).
    exists gs, ogs, rows, r, og, gr. rewrite list_elem_of_In. repeat split; try done. lia.
  - intros (? & ? & ? & r & og & gr & [= <-] & [= <-] & [= <-] & Hr & Hog & H1 & Hg & H2 & H3).
    exists og, gr. repeat split; try done. apply existsb_exists. exists r.
    rewrite <- list_elem_of_In. split; [done|lia].
Qed.

(** X11. No dead end: with unique genre names, every genre a filter
    screen offers leads somewhere — counted with the offered genre added
    to the selection, at least one object is left. *)
Theorem offered_genre_has_results d category selected_genres viewed_filter user_id genre :
  names_unique d →
  genre ∈ Store.get_available_genres d category selected_genres viewed_filter user_id →
  1 ≤ Store.count_filtered_objects d category (selected_genres ++ [genre])
        viewed_filter user_id.
Proof.
  intros Hnd (gs & ogs & rows & r & og & gr & Hgs & Hogs & Hrows & Hr & Hog & H1 & Hg & H2 & H3)
           %elem_of_get_available_genres.
  apply (elem_of_filtered_rows _ _ _ _ _ _ _ r Hrows) in Hr as (Hobj & Hty & HG & Hv).
  apply count_filtered_objects_pos.
  destruct (Store.filtered_rows Store.in_genre d (Store.category_map category)
              (selected_genres ++ [genre]) viewed_filter user_id) as [rows'|] eqn:E.
  - exists rows', r. split; [done|].
    apply (elem_of_filtered_rows _ _ _ _ _ _ _ r E). repeat split; try done.
    unfold names_unique in Hnd. rewrite Hgs, Hogs in *. cbn [default] in *.
    intros g [Hin|Hin%list_elem_of_singleton]%elem_of_app;
      rewrite in_genre_join_unique by done; [by apply HG|subst g].
    apply in_genre_join_true. by exists og, gr.
  - exfalso. revert E Hrows. unfold Store.filtered_rows, Store.genre_clauses.
    rewrite Hgs, Hogs. destruct (Store.objects d); [|done]. cbn [mbind option_bind].
    destruct (selected_genres ++ [genre]) eqn:Eapp; [by destruct selected_genres|].
    destruct selected_genres; cbn [mbind option_bind];
      by destruct (Store.viewed_clause d viewed_filter user_id).
Qed.

Lemma offered_genre_has_results_witness :
  1 ≤ Store.count_filtered_objects Sample.catalog "films" (["drama"] ++ ["comedy"]) false 7.
Proof.
  apply (offered_genre_has_results Sample.catalog "films" ["drama"] false 7 "comedy").
  - unfold names_unique. cbn.
    apply NoDup_cons. split; [by intros [=]%list_elem_of_singleton|apply NoDup_singleton].
  - apply list_elem_of_In. vm_compute. auto.
Defined.

(** X12. While something matches the filters, every selected genre is
    still among the genres offered, so each can be switched off again. *)
Theorem selected_genres_stay_offered d category selected_genres viewed_filter user_id genre :
  1 ≤ Store.count_filtered_objects d category selected_genres viewed_filter user_id →
  genre ∈ selected_genres →
  genre ∈ Store.get_available_genres d category selected_genres viewed_filter user_id.
Proof.
  intros (rows & r & Hrows & Hr)%count_filtered_objects_pos Hin.
  pose proof Hrows as Hsome.
  apply (elem_of_filtered_rows _ _ _ _ _ _ _ r Hrows) in Hr as (Hobj & Hty & HG & Hv).
  revert Hsome. unfold Store.filtered_rows at 1, Store.genre_clauses.
  destruct (Store.objects d) as [objs|] eqn:Eobjs; [|done]. cbn [mbind option_bind].
  destruct selected_genres as [|g0 G] eqn:EG; [by apply elem_of_nil in Hin|]. rewrite <- EG in *.
  destruct (Store.genres d) as [gs|] eqn:Egs; [|done].
  destruct (Store.object_genres d) as [ogs|] eqn:Eogs; [|done]. cbn [mbind option_bind default] in *.
  destruct (Store.viewed_clause d viewed_filter user_id) as [h|] eqn:Eh; [|done]. intros _.
  assert (∃ rows', Store.filtered_rows Store.in_genre_join d (Store.category_map category)
                     selected_genres viewed_filter user_id = Some rows') as [rows' Hrows'].
  { unfold Store.filtered_rows, Store.genre_clauses. rewrite Eobjs, Egs, Eogs, Eh, EG.
    by eexists. }
  pose proof (in_genre_true _ _ _ _ (HG genre Hin))
    as (og & gr & Hog & H1 & Hg & H2 & H3)%in_genre_join_true.
  apply elem_of_get_available_genres. exists gs, ogs, rows', r, og, gr.
  repeat split; try done.
  apply (elem_of_filtered_rows _ _ _ _ _ _ _ r Hrows'). rewrite Eobjs, Egs, Eogs.
  repeat split; try done. intros g Hg'. by apply in_genre_true, HG.
Qed.

Lemma selected_genres_stay_offered_witness :
  "comedy" ∈ Store.get_available_genres Sample.catalog "films" ["drama"; "comedy"] false 7.
Proof.
  apply selected_genres_stay_offered; [by vm_compute|].
  apply list_elem_of_In. cbn. auto.
Defined.

(** X13. With unique genre names, a filter screen that reports nothing
    found offers no genre button at all. *)
Theorem nothing_found_offers_no_genre d category selected_genres viewed_filter user_id :
  names_unique d →
  Store.count_filtered_objects d category selected_genres viewed_filter user_id = 0 →
  Store.get_available_genres d category selected_genres viewed_filter user_id = [].
Proof.
  intros Hnd H0.
  destruct (Store.get_available_genres d category selected_genres viewed_filter user_id)
    as [|g l] eqn:E; [done|].
  assert (g ∈ Store.get_available_genres d category selected_genres viewed_filter user_id)
    as (gs & ogs & rows & r & _ & _ & _ & _ & Hrows & Hr & _)%elem_of_get_available_genres
    by (rewrite E; left).
  rewrite filtered_rows_join in Hrows by done.
  assert (1 ≤ Store.count_filtered_objects d category selected_genres viewed_filter user_id);
    [|lia].
  apply count_filtered_objects_pos. by exists rows, r.
Qed.

Lemma nothing_found_offers_no_genre_witness :
  Store.get_available_genres Sample.catalog "books" [] false 7 = [].
Proof.
  apply nothing_found_offers_no_genre; [|by vm_compute].
  unfold names_unique. cbn.
  apply NoDup_cons. split; [by intros [=]%list_elem_of_singleton|apply NoDup_singleton].
Defined.

(** *** What a press can touch *)

Ltac keeps_button :=
  repeat first [ apply send_paginated_results_keeps_filters
               | apply send_paginated_results_keeps_db
               | apply send_paginated_results_keeps_page
               | apply keeps_commit; intros ?; done
               | match goal with |- keeps _ (if ?b then _ else _) => destruct b end
               | keeps_step
               | apply keeps_update; intros [[] ? ? ? ? ?]; unfold page_and_size; cbn;
                 repeat case_match;
                 try match goal with
                     | |- context [length <$> ?c] => is_var c; destruct c
                     end;
                 cbn; rewrite ?length_alter; done ].

Lemma button_tail {X} (f : world → X) query w :
  (∀ e w, f (with_effect e w) = f w) →
  f (button query w).2
  = f ((let parts := Py.split ":" (data query) in
        let action := action_of (data query) in
        add_object ← (if String.eqb action "admin"
                      then p ← item parts 1; mret (String.eqb p "add_object")
                      else mret false);
        if add_object : bool then
          admin ← is_admin (from_user query);
          if negb admin then emit (Answer (Some NoRights));; mret (Some END)
          else
            emit (EditMessageText ChooseType
                    (Some [[CbAddType "фильм"]; [CbAddType "сериал"]; [CbAddType "книга"]]));;
            mret (Some TYPE)
        else if String.eqb action "category" then on_category query parts
        else if String.eqb action "genre" then on_genre query parts
        else
          panel ← (if String.eqb action "admin"
                   then p ← item parts 1; mret (String.eqb p "panel")
                   else mret false);
          if panel : bool then
            admin ← is_admin (from_user query);
            if negb admin then emit (Answer (Some NoRights));; mret None
            else
              emit (EditMessageText AdminPanel
                      (Some [[CbAdminAddObject]; [CbBackRecommendations]]));;
              mret None
          else if String.eqb action "delete" then on_delete query parts
          else if String.eqb action "select" then on_select query parts
          else if String.eqb action "page" then on_page query parts
          else if String.eqb action "view" then on_view query parts
          else if String.eqb action "unview" then on_unview query parts
          else if String.eqb action "back" then on_back query parts
          else mret None) (with_effect (Answer None) w)).2.
Proof.
  intros Hf. unfold button. rewrite bind_run. cbn [emit]. cbv zeta.
  by rewrite bind_run, item_action.
Qed.

(** X14. What a button press can touch: the database is written only by
    the [view], [unview] and [delete] actions, the genre and viewed filters
    are changed only by the [category] and [genre] actions, and the page
    number and the size of the result cache only by the [select], [page]
    and [delete] actions — whatever the rest of the payload is and whether
    or not the handler raises. *)
Theorem press_frames query w :
  (action_of (data query) ∉ ["delete"; "view"; "unview"] → db (button query w).2 = db w)
  ∧ (action_of (data query) ∉ ["category"; "genre"] →
     filters (button query w).2 = filters w)
  ∧ (action_of (data query) ∉ ["delete"; "select"; "page"] →
     page_and_size (button query w).2 = page_and_size w).
Proof.
  repeat split; intros H;
    repeat (apply not_elem_of_cons in H as [?%String.eqb_neq H]);
    rewrite button_tail by done; cbv zeta;
    repeat match goal with E : String.eqb _ _ = false |- _ => rewrite E; clear E end;
    match goal with
    | |- ?f (?h ?w0).2 = _ => transitivity (f w0); [|done]; apply (keeps_apply f h)
    end;
    unfold on_category, on_genre, on_delete, on_select, on_page, on_view, on_unview,
      on_back, refresh_card;
    keeps_button.
Qed.
Ltac decide_eqb :=
  repeat match goal with
         | |- context [String.eqb ?a ?b] =>
             let v := eval vm_compute in (String.eqb a b) in
             lazymatch v with
             | true => change (String.eqb a b) with true
             | false => change (String.eqb a b) with false
             end
         end.

(** X15. A press on a privileged button — [delete], or one of the two
    [admin] screens — by a user who is not an administrator changes
    nothing: the query is acknowledged, the refusal is shown, and the
    session, the database and the messages are as before. *)
Theorem unprivileged_press_refused query w :
  from_user query ∉ ADMIN_IDS w →
  privileged (data query) = true →
  ∃ r, button query w
       = (Returned r, after_effects [Answer None; Answer (Some NoRights)] w).
Proof.
  intros Hu. unfold privileged, button.
  destruct (Py.split ":" (data query)) as [|action rest] eqn:E; [done|].
  destruct w as [ud d admins tr nid pok]. cbn [ADMIN_IDS] in Hu.
  intros [Ha|[Ha Hp]%andb_true_iff]%orb_true_iff; apply String.eqb_eq in Ha; subst action.
  - eexists. repeat (first [rewrite bind_run|progress cbn [emit item lookup list_lookup mret
                              handler_ret with_effect]]).
    decide_eqb. cbn [mret handler_ret]. rewrite !bind_run. cbn [mret handler_ret].
    unfold on_delete. rewrite bind_run. cbn [is_admin ADMIN_IDS].
    rewrite bool_decide_eq_false_2 by done. cbn [negb]. rewrite bind_run. cbn [emit with_effect].
    unfold after_effects, with_effect;
      cbn [mret handler_ret user_data db ADMIN_IDS trace next_message_id photo_ok];
      by rewrite <- app_assoc.
  - destruct rest as [|p rest]; [done|].
    apply orb_true_iff in Hp as [Hp|Hp]; apply String.eqb_eq in Hp; subst p; eexists;
      repeat (first [rewrite bind_run
                    |progress cbn [emit item lookup list_lookup mret handler_ret with_effect
                                   is_admin ADMIN_IDS negb]
                    |progress decide_eqb
                    |rewrite bool_decide_eq_false_2 by done]);
      unfold after_effects, with_effect;
      cbn [mret handler_ret user_data db ADMIN_IDS trace next_message_id photo_ok];
      by rewrite <- app_assoc.
Qed.

Lemma unprivileged_press_refused_witness :
  ∃ r, button (Sample.press "delete:films:3") Sample.fresh
       = (Returned r, after_effects [Answer None; Answer (Some NoRights)] Sample.fresh).
Proof.
  apply unprivileged_press_refused; [|reflexivity].
  cbn. by intros [=]%list_elem_of_singleton.
Defined.

(** *** Deleting an object *)

Lemma filter_filter_agree {A} (P P' Q : A → bool) (l : list A) :
  (∀ x, Q x = true → P' x = P x) →
  List.filter P' (List.filter Q l) = List.filter Q (List.filter P l).
Proof.
  intros H. induction l as [|x l IH]; [done|]. cbn [List.filter].
  destruct (Q x) eqn:EQ.
  - cbn [List.filter]. rewrite (H x EQ). destruct (P x); cbn [List.filter]; rewrite ?EQ, IH; done.
  - destruct (P x); cbn [List.filter]; rewrite ?EQ, IH; done.
Qed.

Lemma existsb_filter_agree {A} (f q : A → bool) (l : list A) :
  (∀ x, f x = true → q x = true) → existsb f (List.filter q l) = existsb f l.
Proof.
  intros H. induction l as [|x l IH]; [done|]. cbn [List.filter existsb].
  destruct (q x) eqn:Eq; cbn [existsb]; rewrite IH; [done|].
  destruct (f x) eqn:Ef; [|done]. apply H in Ef. congruence.
Qed.

Lemma in_genre_after_delete gs ogs oid g o :
  o ≠ oid →
  Store.in_genre gs (List.filter (λ og, negb (og.1 =? oid)) ogs) g o
  = Store.in_genre gs ogs g o.
Proof.
  intros Ho. unfold Store.in_genre. destruct (Store.genre_id_by_name gs g) as [gid|]; [|done].
  apply existsb_filter_agree. intros og [H1 H2]%andb_true_iff. apply negb_true_iff. lia.
Qed.

Lemma select_filtered_after_delete oid d d' category G v u :
  Store.delete_object oid d = Some d' →
  Store.select_filtered d' category G v u
  = List.filter (λ r, negb (Store.row_id r =? oid)) <$> Store.select_filtered d category G v u.
Proof.
  unfold Store.delete_object, Store.select_filtered, Store.filtered_rows, Store.genre_clauses,
    Store.viewed_clause.
  destruct (Store.objects d) as [objs|]; [|done]. cbn [mbind option_bind].
  destruct (Store.writable d) as [[]|]; [|done]. cbn [mbind option_bind].
  destruct (Store.object_genres d) as [ogs|]; [|done]. cbn [mbind option_bind].
  destruct (Store.user_views d) as [vs|]; [|done]. cbn [mbind option_bind].
  intros [= <-]. cbn [Store.objects Store.genres Store.object_genres Store.user_views
                       mbind option_bind].
  destruct G as [|g0 G]; [|destruct (Store.genres d) as [gs|]; [|done]];
    destruct v; cbn [mbind option_bind fmap option_fmap option_map];
    f_equal; apply filter_filter_agree; intros r Hr;
    apply negb_true_iff, Z.eqb_neq in Hr;
    try (match goal with
         | |- context [forallb ?f ?l] =>
             rewrite (forallb_pointwise f (λ g, Store.in_genre gs ogs g (Store.row_id r)) l)
               by (intros g; by apply in_genre_after_delete)
         end);
    try (match goal with
         | |- context [bool_decide (?x ∈ filter ?P ?X)] =>
             rewrite (bool_decide_ext (x ∈ filter P X) (x ∈ X))
               by (rewrite elem_of_filter; cbn; tauto)
         end);
    done.
Qed.

(** X16. Deleting an object removes it from every query and leaves no
    trace of it: each filter query returns what it returned before without
    the deleted object; no user has the object marked as viewed and no
    genre is linked to it; the marks and genres of every other object, and
    the genre table, are as before. *)
Theorem delete_object_cascades oid d d' :
  Store.delete_object oid d = Some d' →
  (∀ category G v u,
     Store.select_filtered d' category G v u
     = List.filter (λ r, negb (Store.row_id r =? oid))
         <$> Store.select_filtered d category G v u)
  ∧ (∀ category G v u,
       Store.count_filtered_objects d' category G v u
       ≤ Store.count_filtered_objects d category G v u)
  ∧ (∀ u, Store.is_viewed d' u oid = Some false)
  ∧ (∀ u o, o ≠ oid → Store.is_viewed d' u o = Store.is_viewed d u o)
  ∧ Store.genres_of_object d' oid = (λ _, []) <$> Store.genres d
  ∧ (∀ o, o ≠ oid → Store.genres_of_object d' o = Store.genres_of_object d o)
  ∧ Store.genres d' = Store.genres d.
Proof.
  intros H. split; [intros; by apply select_filtered_after_delete|].
  split.
  { intros category G v u. unfold Store.count_filtered_objects.
    pose proof (select_filtered_after_delete oid d d' category G v u H) as E.
    unfold Store.select_filtered in E. rewrite E.
    destruct (Store.filtered_rows _ d _ _ _ _) as [rows|]; cbn; [|done].
    pose proof (List.filter_length_le (λ r, negb (Store.row_id r =? oid)) rows). lia. }
  revert H. unfold Store.delete_object, Store.is_viewed, Store.genres_of_object.
  destruct (Store.objects d) as [objs|]; [|done]. cbn [mbind option_bind].
  destruct (Store.writable d) as [[]|]; [|done]. cbn [mbind option_bind].
  destruct (Store.object_genres d) as [ogs|]; [|done]. cbn [mbind option_bind].
  destruct (Store.user_views d) as [vs|]; [|done]. cbn [mbind option_bind].
  intros [= <-]. cbn [Store.genres Store.object_genres Store.user_views mbind option_bind].
  split; [|split; [|split; [|split; [|done]]]].
  - intros u. f_equal. apply bool_decide_eq_false. rewrite elem_of_filter. cbn. tauto.
  - intros u o Ho. f_equal. apply bool_decide_ext. rewrite elem_of_filter. cbn. tauto.
  - destruct (Store.genres d) as [gs|]; [|done]. cbn. f_equal.
    unfold Store.joined_names.
    replace (List.filter (λ og, og.1 =? oid) (List.filter (λ og, negb (og.1 =? oid)) ogs))
      with (@nil (Z * Z)); [done|].
    induction ogs as [|og ogs IH]; [done|]. cbn [List.filter].
    destruct (og.1 =? oid) eqn:E; cbn [negb List.filter]; rewrite ?E; done.
  - intros o Ho. destruct (Store.genres d) as [gs|]; [|done]. cbn. f_equal.
    unfold Store.joined_names. f_equal.
    induction ogs as [|og ogs IH]; [done|]. cbn [List.filter].
    destruct (og.1 =? oid) eqn:E; cbn [negb List.filter].
    + assert ((og.1 =? o) = false) as -> by lia. done.
    + destruct (og.1 =? o); by rewrite IH.
Qed.

Lemma delete_object_cascades_witness :
  ∃ d', Store.delete_object 2 Sample.catalog = Some d'
        ∧ (∀ u, Store.is_viewed d' u 2 = Some false)
        ∧ Store.genres_of_object d' 2 = (λ _, []) <$> Store.genres Sample.catalog.
Proof.
  eexists. split; [reflexivity|].
  destruct (delete_object_cascades 2 Sample.catalog _ eq_refl)
    as (_ & _ & Hv & _ & Hg & _).
  by split.
Defined.
Lemma fmap_row_alter names i (l : list cached_object) :
  row <$> alter (with_genres names) i l = row <$> l.
Proof.
  revert i. induction l as [|x l IH]; intros [|i]; cbn; try done. by rewrite IH.
Qed.

Lemma keeps_rows_update_genres names i :
  keeps cached_rows
    (update (λ ud, set_results_cache (alter (with_genres names) i <$> results_cache ud) ud)).
Proof.
  apply keeps_update. intros [[] ? ? ? ? ?]. unfold cached_rows. cbn.
  match goal with |- context [alter _ _ <$> ?c] => destruct c end; cbn; [|done].
  by rewrite fmap_row_alter.
Qed.

Lemma send_cards_keeps_rows chat_id category i objs :
  keeps cached_rows (send_cards chat_id category i objs).
Proof.
  revert i. induction objs as [|o objs IH]; intros i; [done|].
  cbn [send_cards]. do 4 keeps_step; [apply keeps_rows_update_genres|].
  solve_keeps. apply IH.
Qed.

Lemma send_paginated_results_keeps_rows chat_id category :
  keeps cached_rows (send_paginated_results chat_id category).
Proof.
  unfold send_paginated_results. solve_keeps; apply send_cards_keeps_rows.
Qed.

Lemma filter_fmap_row (P : Store.object_row → bool) (l : list cached_object) :
  row <$> List.filter (λ obj, P (row obj)) l = List.filter P (row <$> l).
Proof.
  induction l as [|x l IH]; [done|]. cbn. destruct (P (row x)); cbn; by rewrite IH.
Qed.

Lemma on_delete_admin query a category t rest oid d' w :
  from_user query ∈ ADMIN_IDS w →
  Py.int t = Some oid →
  Store.delete_object oid (db w) = Some d' →
  on_delete query (a :: category :: t :: rest) w
  = (pop_and_delete_messages (chat_id query);;
     send_paginated_results (chat_id query) category;;
     mret None)
      (with_user_data
         (λ ud, set_results_cache
                  (Some (List.filter (λ obj, negb (Store.row_id (row obj) =? oid))
                           (default [] (results_cache ud)))) ud)
         (with_effect (Answer (Some Deleted)) (with_effect Commit (with_db d' w)))).
Proof.
  intros Hu Ht Hd. unfold on_delete.
  repeat first [ rewrite bind_run
               | progress cbn [is_admin negb item lookup list_lookup mret handler_ret storage
                               executed commit emit update to_int]
               | rewrite bool_decide_eq_true_2 by done
               | progress unfold to_int
               | rewrite Ht
               | rewrite Hd ].
  reflexivity.
Qed.

(** X17. When an administrator deletes an object from a result card, the
    database loses the object and the result cache loses its entry; a cache
    that held the rows of a filter query before the press holds the rows
    the same query returns after it. *)
Theorem delete_press_keeps_cache_in_step query category t rest oid d' w :
  from_user query ∈ ADMIN_IDS w →
  Py.split ":" (data query) = "delete" :: category :: t :: rest →
  Py.int t = Some oid →
  Store.delete_object oid (db w) = Some d' →
  db (button query w).2 = d'
  ∧ cached_rows (button query w).2
    = Some (List.filter (λ r, negb (Store.row_id r =? oid)) (default [] (cached_rows w)))
  ∧ ∀ c G v u rows,
      Store.select_filtered (db w) c G v u = Some rows →
      cached_rows w = Some rows →
      cached_rows (button query w).2 = Store.select_filtered (db (button query w).2) c G v u.
Proof.
  intros Hu Hs Ht Hd.
  assert (∀ {X} (f : world → X),
            (∀ e w, f (with_effect e w) = f w) →
            keeps f (pop_and_delete_messages (chat_id query);;
                     send_paginated_results (chat_id query) category;;
                     mret (@None state)) →
            f (button query w).2
            = f (with_user_data
                   (λ ud, set_results_cache
                            (Some (List.filter (λ obj, negb (Store.row_id (row obj) =? oid))
                                     (default [] (results_cache ud)))) ud)
                   (with_db d' w))) as Hrun.
  { intros X f Hf Hk. rewrite button_tail by done. cbv zeta.
    unfold action_of. rewrite Hs. cbn [head default from_option id]. decide_eqb.
    rewrite bind_run. cbn [mret handler_ret].
    rewrite bind_run. cbn [mret handler_ret].
    rewrite (on_delete_admin query "delete" category t rest oid d') by (by destruct w).
    rewrite (keeps_apply f _ _ Hk). destruct w as [ud ? ? ? ? ?].
    symmetry. etransitivity; [symmetry; apply (Hf (Answer None))|].
    etransitivity; [symmetry; apply (Hf Commit)|].
    etransitivity; [symmetry; apply (Hf (Answer (Some Deleted)))|]. reflexivity. }
  assert (db (button query w).2 = d') as Hdb.
  { rewrite (Hrun _ db) by (done || keeps_button). by destruct w. }
  assert (cached_rows (button query w).2
          = Some (List.filter (λ r, negb (Store.row_id r =? oid)) (default [] (cached_rows w))))
    as Hrows.
  { rewrite (Hrun _ cached_rows);
      [|done|keeps_button; apply send_paginated_results_keeps_rows].
    destruct w as [[] ? ? ? ? ?]. unfold cached_rows. cbn.
    rewrite (filter_fmap_row (λ r, negb (Store.row_id r =? oid))).
    by match goal with |- context [default [] ?c] => destruct c end. }
  split; [done|]. split; [done|].
  intros c G v u rows Hsel Hc. rewrite Hrows, Hdb, Hc.
  rewrite (select_filtered_after_delete oid (db w) d') by done. by rewrite Hsel.
Qed.

Lemma delete_press_keeps_cache_in_step_witness :
  let w := Sample.after ["category:films"; "select:films"]
             (Sample.world_of cleared Sample.catalog) in
  ∃ d', Store.delete_object 2 (db w) = Some d'
        ∧ db (button (Sample.admin_press "delete:films:2") w).2 = d'.
Proof.
  intros w. eexists. split; [reflexivity|].
  apply (delete_press_keeps_cache_in_step (Sample.admin_press "delete:films:2")
           "films" "2" [] 2 _ w); [|reflexivity|reflexivity|reflexivity].
  apply list_elem_of_In. vm_compute. auto.
Defined.

(** *** The depth of the message stack *)

Lemma passes_bind {A B} (P R Q : world → Prop) (m : handler A) (k : A → handler B) :
  passes P R m → (∀ w, R w → Q w) → (∀ a, passes R Q (k a)) → passes P Q (m ≫= k).
Proof.
  intros Hm HRQ Hk w Hw. specialize (Hm w Hw). rewrite bind_run.
  destruct (m w) as [[a|e] w']; [by apply Hk|by apply HRQ].
Qed.

Lemma step_keeps {A B} n (m : handler A) (k : A → handler B) :
  (n ≤ 1)%nat → keeps depth m →
  (∀ a, passes (shallow n) (shallow 1) (k a)) →
  passes (shallow n) (shallow 1) (m ≫= k).
Proof.
  intros Hn Hm Hk. apply (passes_bind _ (shallow n)); [|unfold shallow; lia|done].
  intros w Hw. unfold shallow. by rewrite (keeps_apply depth m w Hm).
Qed.

Lemma end_keeps {A} n (h : handler A) :
  (n ≤ 1)%nat → keeps depth h → passes (shallow n) (shallow 1) h.
Proof.
  intros Hn Hh w Hw. unfold shallow in *. rewrite (keeps_apply depth h w Hh). lia.
Qed.

Lemma pop_depth chat_id w :
  depth (pop_and_delete_messages chat_id w).2 = pred (depth w).
Proof.
  unfold depth. destruct (levels_cases w) as [E|(rest & top & E)].
  - rewrite pop_and_delete_messages_empty by done. cbn [snd]. by rewrite E.
  - rewrite (pop_and_delete_messages_top _ _ _ _ E). unfold levels. rewrite E.
    destruct w as [[] ? ? ? ? ?]. cbn. rewrite length_app. cbn. lia.
Qed.

Lemma step_pop {B} n chat_id (k : unit → handler B) :
  (n ≤ 1)%nat →
  (∀ a, passes (shallow 0) (shallow 1) (k a)) →
  passes (shallow n) (shallow 1) (pop_and_delete_messages chat_id ≫= k).
Proof.
  intros Hn Hk. apply (passes_bind _ (shallow 0)); [|unfold shallow; lia|done].
  intros w Hw. unfold shallow in *. rewrite pop_depth. lia.
Qed.

Lemma step_push {B} (k : unit → handler B) :
  (∀ a, passes (shallow 1) (shallow 1) (k a)) →
  passes (shallow 0) (shallow 1) (push_new_message_level ≫= k).
Proof.
  intros Hk. apply (passes_bind _ (shallow 1)); [|done|done].
  intros [[] ? ? ? ? ?]. unfold shallow, depth, levels. cbn.
  rewrite length_app. cbn. lia.
Qed.

Lemma step_passes {A B} n (m : handler A) (k : A → handler B) :
  passes (shallow n) (shallow 1) m →
  (∀ a, passes (shallow 1) (shallow 1) (k a)) →
  passes (shallow n) (shallow 1) (m ≫= k).
Proof. intros Hm Hk. by apply (passes_bind _ (shallow 1)). Qed.

Lemma add_message_to_stack_keeps_depth h : keeps depth (add_message_to_stack h).
Proof.
  intros w. unfold depth. destruct (levels_cases w) as [E|(rest & top & E)].
  - by rewrite add_message_to_stack_empty.
  - rewrite (add_message_to_stack_top _ _ _ _ E). unfold levels. rewrite E.
    destruct w as [[] ? ? ? ? ?]. cbn. by rewrite !length_app.
Qed.

Ltac keeps_depth :=
  repeat first [ apply add_message_to_stack_keeps_depth
               | apply keeps_commit; intros ?; done
               | match goal with |- keeps _ (if ?b then _ else _) => destruct b end
               | match goal with
                 | |- keeps _ (update _) =>
                     apply keeps_update; intros [[] ? ? ? ? ?];
                     unfold depth, levels, with_user_data; cbn;
                     repeat case_match; reflexivity
                 end
               | keeps_step ].

Lemma send_cards_keeps_depth chat_id category i objs :
  keeps depth (send_cards chat_id category i objs).
Proof.
  revert i. induction objs as [|o objs IH]; intros i; [done|].
  cbn [send_cards]. keeps_depth. apply IH.
Qed.

Ltac depth_step :=
  lazymatch goal with
  | |- passes _ _ (pop_and_delete_messages _ ≫= _) => apply step_pop; [lia|intros ?]
  | |- passes _ _ (push_new_message_level ≫= _) => apply step_push; intros ?
  | |- passes _ _ (_ ≫= _) =>
      apply step_keeps;
      [lia|first [apply send_cards_keeps_depth|by keeps_depth]|intros ?]
  | |- passes _ _ (if ?b then _ else _) => destruct b
  | |- passes _ _ (match ?x with _ => _ end) => destruct x
  | |- passes _ _ (let _ := _ in _) => cbv zeta
  | |- passes _ _ _ => apply end_keeps; [lia|by keeps_depth]
  end.

Lemma send_paginated_results_depth chat_id category :
  passes (shallow 0) (shallow 1) (send_paginated_results chat_id category).
Proof. unfold send_paginated_results. repeat depth_step. Qed.

Ltac depth_button :=
  repeat first [ match goal with
                 | |- passes _ _ (send_paginated_results _ _ ≫= _) =>
                     apply step_passes; [apply send_paginated_results_depth|intros ?]
                 end
               | depth_step ].

(** X18. One level on screen: when the message stack holds at most one
    level, it still holds at most one after any button press — whatever
    the payload, and whether [button] returns or raises.  Every screen
    [button] shows replaces the level below it. *)
Theorem stack_stays_one_level_deep query w :
  shallow 1 w → shallow 1 (button query w).2.
Proof.
  revert w. change (passes (shallow 1) (shallow 1) (button query)).
  unfold button, on_category, on_genre, on_delete, on_select, on_page, on_view, on_unview,
    on_back, refresh_card.
  depth_button.
Qed.

Lemma stack_stays_one_level_deep_witness :
  shallow 1 (button (Sample.press "category:films") Sample.fresh).2.
Proof.
  apply stack_stays_one_level_deep. unfold shallow. cbn. lia.
Defined.

(** *** Storing a new object *)













(** *** The data-entry conversation *)










(** *** Categories *)

Lemma filter_none {A} (P : A → bool) (l : list A) :
  (∀ x, P x = false) → List.filter P l = [].
Proof. intros H. induction l as [|x l IH]; [done|]. cbn. by rewrite H. Qed.

Lemma filtered_rows_unknown member d G v u rows :
  Store.filtered_rows member d None G v u = Some rows → rows = [].
Proof.
  unfold Store.filtered_rows.
  destruct (Store.objects d) as [objs|]; [|done]. cbn [mbind option_bind].
  destruct (Store.genre_clauses member d G) as [f|]; [|done]. cbn [mbind option_bind].
  destruct (Store.viewed_clause d v u) as [h|]; [|done]. cbn [mbind option_bind].
  intros [= <-]. apply filter_none. intros r. unfold Store.type_is.
  by destruct (Store.obj_type r).
Qed.

(** X22. A category other than [films], [series] and [books] never shows
    anything: its count is zero, its filter screen offers no genre, and a
    [select] on it that succeeds caches no result. *)
Theorem unknown_category_is_empty d category selected_genres viewed_filter user_id :
  Store.category_map category = None →
  Store.count_filtered_objects d category selected_genres viewed_filter user_id = 0
  ∧ Store.get_available_genres d category selected_genres viewed_filter user_id = []
  ∧ (∀ rows, Store.select_filtered d category selected_genres viewed_filter user_id
             = Some rows → rows = []).
Proof.
  intros Hc. unfold Store.count_filtered_objects, Store.get_available_genres,
    Store.select_filtered. rewrite Hc. split; [|split].
  - destruct (Store.filtered_rows _ _ _ _ _ _) as [rows|] eqn:E; [|done].
    by rewrite (filtered_rows_unknown _ _ _ _ _ _ E).
  - destruct (Store.genres d) as [gs|]; [|done].
    destruct (Store.object_genres d) as [ogs|]; [|done]. cbn [mbind option_bind].
    destruct (Store.filtered_rows _ _ _ _ _ _) as [rows|] eqn:E; [|done].
    rewrite (filtered_rows_unknown _ _ _ _ _ _ E). cbn [mbind option_bind existsb].
    unfold Store.joined_names. by rewrite filter_none.
  - intros rows. apply filtered_rows_unknown.
Qed.

Lemma unknown_category_is_empty_witness :
  Store.count_filtered_objects Sample.catalog "movies" [] false 7 = 0
  ∧ Store.get_available_genres Sample.catalog "movies" [] false 7 = []
  ∧ (∀ rows, Store.select_filtered Sample.catalog "movies" [] false 7 = Some rows →
             rows = []).
Proof. apply unknown_category_is_empty. reflexivity. Defined.

Lemma existsb_pointwise {A} (f g : A → bool) (l : list A) :
  (∀ x, f x = g x) → existsb f l = existsb g l.
Proof. intros H. induction l as [|x l IH]; [done|]. cbn. by rewrite H, IH. Qed.

Lemma existsb_filter_and {A} (f q : A → bool) (l : list A) :
  existsb f (List.filter q l) = existsb (λ x, f x && q x) l.
Proof.
  induction l as [|x l IH]; [done|]. cbn. destruct (q x); cbn; rewrite IH.
  - by rewrite andb_true_r.
  - by rewrite andb_false_r.
Qed.

(** X23. The genres quoted when the data entry asks for genres are the
    genres the filter screen of the same kind of object offers while no
    filter is set: [get_category_genres] on a type equals
    [get_available_genres] on a category of that type with nothing
    selected. *)
Theorem quoted_genres_are_the_unfiltered_offer d category ty user_id :
  Store.category_map category = Some ty →
  Store.get_category_genres d ty = Store.get_available_genres d category [] false user_id.
Proof.
  intros Hc. unfold Store.get_category_genres, Store.get_available_genres,
    Store.filtered_rows, Store.genre_clauses, Store.viewed_clause. rewrite Hc.
  destruct (Store.genres d) as [gs|]; [|done].
  destruct (Store.object_genres d) as [ogs|]; [|done].
  destruct (Store.objects d) as [objs|]; [|done]. cbn [mbind option_bind].
  f_equal. unfold Store.joined_names. f_equal. apply filter_ext. intros og.
  rewrite existsb_filter_and. apply existsb_pointwise. intros r.
  by rewrite !andb_true_r.
Qed.

Lemma quoted_genres_are_the_unfiltered_offer_witness :
  Store.get_category_genres Sample.catalog "фильм"
  = Store.get_available_genres Sample.catalog "films" [] false 7.
Proof. apply quoted_genres_are_the_unfiltered_offer. reflexivity. Defined.
